(** * app_registre: the transformation engine of [etl_processor.py]

    A shallow embedding of the waste-registry ETL engine: the provider
    registry, the mapping helpers, worksheet selection, row processing and
    the orchestration of [ETLProcessor.process], followed by the properties
    the specification states about them.

    Conventions of the embedding.
    - A Python [str] is a [string] (its UTF-8 bytes).  [str.lower],
      [str.strip] and the regular-expression mask of pandas are operations
      of the Python runtime ([PyRuntime]): they are used as the runtime
      gives them, and what is known of them is stated as laws of the
      runtime (their value on ASCII text, and on patterns without
      metacharacter).
    - A cell of a data frame is a [value]; numbers of type [float] are
      IEEE-754 binary64 numbers ([spec_float] at precision 53).
    - A [dict] is an association list in insertion order.
    - A data frame is column-major: its row count and its labelled columns.
    - Statements that can raise live in the monad [M], which threads the
      warning log and keeps it when an exception is raised. *)

From Stdlib Require Import ZArith List Bool Ascii String.
From Stdlib Require Import SpecFloat DecimalString.
Import ListNotations.

Local Open Scope string_scope.
Local Open Scope Z_scope.

(* ================================================================== *)
(** ** Strings *)
(* ================================================================== *)

Module Str.

Definition is_upper (c : ascii) : bool :=
  let n := nat_of_ascii c in (Nat.leb 65 n && Nat.leb n 90)%bool.

Definition lower_char (c : ascii) : ascii :=
  if is_upper c then ascii_of_nat (nat_of_ascii c + 32) else c.

(** A text of ASCII characters only. *)
Fixpoint is_ascii (s : string) : bool :=
  match s with
  | EmptyString => true
  | String c r => (Nat.ltb (nat_of_ascii c) 128 && is_ascii r)%bool
  end.

(** [s.lower()] on an ASCII text *)
Fixpoint lower (s : string) : string :=
  match s with
  | EmptyString => EmptyString
  | String c r => String (lower_char c) (lower r)
  end.

(** The ASCII characters [str.strip] removes: tab, line feed, vertical
    tab, form feed, carriage return, the four separators 28..31, space. *)
Definition is_space (c : ascii) : bool :=
  let n := nat_of_ascii c in
  ((Nat.leb 9 n && Nat.leb n 13) || (Nat.leb 28 n && Nat.leb n 32))%bool.

Fixpoint lstrip (s : string) : string :=
  match s with
  | EmptyString => EmptyString
  | String c r => if is_space c then lstrip r else s
  end.

Fixpoint rstrip (s : string) : string :=
  match s with
  | EmptyString => EmptyString
  | String c r =>
      match rstrip r with
      | EmptyString => if is_space c then EmptyString else String c EmptyString
      | r' => String c r'
      end
  end.

(** [s.strip()] on an ASCII text *)
Definition strip (s : string) : string := rstrip (lstrip s).

(** [s.startswith(p)] *)
Fixpoint startswith (p s : string) : bool :=
  match p, s with
  | EmptyString, _ => true
  | String a p', String b s' => (Ascii.eqb a b && startswith p' s')%bool
  | String _ _, EmptyString => false
  end.

(** [sub in s] *)
Fixpoint contains (sub s : string) : bool :=
  if startswith sub s then true
  else match s with
       | EmptyString => false
       | String _ r => contains sub r
       end.

(** [s.endswith(p)] *)
Definition endswith (p s : string) : bool :=
  let n := String.length s in
  let k := String.length p in
  (Nat.leb k n && String.eqb (substring (n - k) k s) p)%bool.

(** [sep.join(l)] *)
Fixpoint join (sep : string) (l : list string) : string :=
  match l with
  | [] => EmptyString
  | [x] => x
  | x :: r => x ++ sep ++ join sep r
  end.

(** [s.split(c)] on a one-character separator; [acc] is the piece being
    read. *)
Fixpoint split_aux (c : ascii) (s : string) (acc : string) : list string :=
  match s with
  | EmptyString => [acc]
  | String a r =>
      if Ascii.eqb a c then acc :: split_aux c r EmptyString
      else split_aux c r (acc ++ String a EmptyString)
  end.

Definition split (c : ascii) (s : string) : list string :=
  split_aux c s EmptyString.

(** [s * n] for a non-negative repetition count *)
Fixpoint repeat (s : string) (n : nat) : string :=
  match n with
  | O => EmptyString
  | S k => s ++ repeat s k
  end.

(** [str(int)] *)
Definition of_Z (z : Z) : string := NilZero.string_of_int (Z.to_int z).

End Str.

(** The characters with a meaning of their own in a regular expression,
    the alternation bar apart. *)
Definition is_meta (c : ascii) : bool :=
  existsb (Ascii.eqb c)
    (list_ascii_of_string "\.^$*+?{}[]()").

(** A pattern of literals joined by the alternation bar, with no other
    metacharacter: every pattern of the registry is one. *)
Fixpoint plain_pattern (pattern : string) : bool :=
  match pattern with
  | EmptyString => true
  | String c r => (negb (is_meta c) && plain_pattern r)%bool
  end.

(** [re.search(pattern, s)] for a plain pattern: one of the alternatives
    occurs in [s]. *)
Definition re_search (pattern s : string) : bool :=
  existsb (fun alt => Str.contains alt s) (Str.split "|"%char pattern).

(** [re.search(pattern, s, re.IGNORECASE)] for a plain pattern and a text
    that are both ASCII. *)
Definition re_search_nocase (pattern s : string) : bool :=
  re_search (Str.lower pattern) (Str.lower s).

(* ================================================================== *)
(** ** Values, floats and the Python operators the engine applies *)
(* ================================================================== *)

Definition float64 := spec_float.

Module F64.
Definition prec : Z := 53.
Definition emax : Z := 1024.
Definition mul : float64 -> float64 -> float64 := SFmul prec emax.
(** [float(n)] of an integer: round to nearest, ties to even *)
Definition of_Z (z : Z) : float64 := binary_normalize prec emax z 0 false.
Definition is_nan (f : float64) : bool :=
  match f with S754_nan => true | _ => false end.
Definition is_zero (f : float64) : bool :=
  match f with S754_zero _ => true | _ => false end.
End F64.

Inductive value :=
| VNone
| VStr (s : string)
| VInt (z : Z)
| VFloat (f : float64)
| VBool (b : bool)
| VDate (iso : string).

(** The result of a statement: a value, or a raised exception with the
    text [str(e)] gives. *)
Inductive outcome (A : Type) :=
| Ok (a : A)
| Raise (msg : string).
Arguments Ok {A} a.
Arguments Raise {A} msg.

(** What the mask [column.str.contains(pattern, case=False, na=False)]
    holds for one cell: a cell that is not a string is not selected; for a
    plain ASCII pattern an ASCII string is selected when one alternative
    occurs in it, letter case apart. *)
Definition mask_bit (pattern : string) (v : value) (b : bool) : Prop :=
  match v with
  | VStr s =>
      plain_pattern pattern = true -> Str.is_ascii pattern = true ->
      Str.is_ascii s = true -> b = re_search_nocase pattern s
  | _ => b = false
  end.

(** What the Python runtime and pandas supply and the repository does not
    define.
    - [float_of_string]: [float(s)] on a string ([None] is [ValueError]);
    - [string_of_float]: [str(f)] of a float;
    - [str_repr]: [repr(s)] of a string;
    - [str_lower], [str_strip]: [s.lower()] and [s.strip()] on any text,
      with their value on an ASCII text;
    - [str_contains]: the mask
      [column.str.contains(pattern, case=False, na=False)] of a column,
      which raises when the pattern is not a regular expression or the
      column has no string accessor. *)
Class PyRuntime := {
  float_of_string : string -> option float64;
  string_of_float : float64 -> string;
  str_repr : string -> string;
  str_lower : string -> string;
  str_strip : string -> string;
  str_contains : string -> list value -> outcome (list bool);
  str_lower_ascii :
    forall s, Str.is_ascii s = true -> str_lower s = Str.lower s;
  str_strip_ascii :
    forall s, Str.is_ascii s = true -> str_strip s = Str.strip s;
  str_contains_mask :
    forall pattern column mask,
      str_contains pattern column = Ok mask ->
      Forall2 (mask_bit pattern) column mask
}.

(** The missing-value marker of a float column. *)
Definition NaN : value := VFloat S754_nan.

(** [pd.isna(v)], [pd.notna(v)] on a scalar *)
Definition isna (v : value) : bool :=
  match v with
  | VNone => true
  | VFloat f => F64.is_nan f
  | _ => false
  end.

Definition notna (v : value) : bool := negb (isna v).

(** Truth value of [v] in a condition *)
Definition truthy (v : value) : bool :=
  match v with
  | VNone => false
  | VStr s => negb (String.eqb s EmptyString)
  | VInt z => negb (Z.eqb z 0)
  | VFloat f => negb (F64.is_zero f)
  | VBool b => b
  | VDate _ => true
  end.

(** [v == 0] *)
Definition eq_zero (v : value) : bool :=
  match v with
  | VInt z => Z.eqb z 0
  | VFloat f => F64.is_zero f
  | VBool b => negb b
  | _ => false
  end.

(** [a or b] *)
Definition py_or (a b : value) : value := if truthy a then a else b.

Section Runtime.
Context `{PyRuntime}.

(** [str(v)], also what an f-string substitutes for [{v}] *)
Definition py_str (v : value) : string :=
  match v with
  | VNone => "None"
  | VStr s => s
  | VInt z => Str.of_Z z
  | VFloat f => string_of_float f
  | VBool true => "True"
  | VBool false => "False"
  | VDate iso => iso
  end.

End Runtime.

(* ================================================================== *)
(** ** Dictionaries in insertion order *)
(* ================================================================== *)

Definition dict (V : Type) := list (string * V).

(** [d.get(k)] *)
Fixpoint dict_get {V} (k : string) (d : dict V) : option V :=
  match d with
  | [] => None
  | (k', v) :: r => if String.eqb k k' then Some v else dict_get k r
  end.

(** [k in d] *)
Definition dict_has {V} (k : string) (d : dict V) : bool :=
  match dict_get k d with Some _ => true | None => false end.

(** [d[k] = v]: an existing key keeps its position *)
Fixpoint dict_set {V} (k : string) (v : V) (d : dict V) : dict V :=
  match d with
  | [] => [(k, v)]
  | (k', v') :: r =>
      if String.eqb k k' then (k, v) :: r else (k', v') :: dict_set k v r
  end.

(** [d.get(k)] where a missing key reads as Python's [None] *)
Definition dict_get_value (k : string) (d : dict value) : value :=
  match dict_get k d with Some v => v | None => VNone end.

(* ================================================================== *)
(** ** The provider registry *)
(* ================================================================== *)

Definition SUPPORTED_PRESTATAIRES : list string :=
  ["Veolia"; "Suez"; "Apeyron"; "Les Alchimistes"; "Paprec"; "Elise";
   "Screlec"; "Trackdechet"].

(** One entry of [PRESTATAIRE_CONFIG]; an optional key is an [option],
    a flag that is only ever tested for truth is a [bool]. *)
Record config := {
  cfg_pattern : option string;
  cfg_weight_unit : option string;
  cfg_sheet_patterns : option (list string);
  cfg_header_row_detection : bool;
  cfg_bsdd_format : bool;
  cfg_file_type : option string;
  cfg_csv_separator : option string;
  cfg_columns : dict (list string)
}.

(** The empty dictionary [{}] that [PRESTATAIRE_CONFIG.get] defaults to. *)
Definition empty_config : config :=
  {| cfg_pattern := None; cfg_weight_unit := None;
     cfg_sheet_patterns := None; cfg_header_row_detection := false;
     cfg_bsdd_format := false; cfg_file_type := None;
     cfg_csv_separator := None; cfg_columns := [] |}.

Definition bsdd_columns : dict (list string) :=
  [ ("bsd", ["n° de bordereau"]);
    ("date", ["date de réalisation"; "date d'expédition"]);
    ("waste_name", ["dénomination usuelle"]);
    ("waste_code", ["code du déchet"]);
    ("weight", ["quantité réceptionnée"; "quantité acceptée"]);
    ("site_name", ["expéditeur nom usuel"]);
    ("treatment_code", ["code opération réalisé"]);
    ("transporter", ["transporteur raison sociale"]);
    ("destination", ["destination raison sociale"]) ].

Definition PRESTATAIRE_CONFIG : dict config :=
  [ ("Veolia",
     {| cfg_pattern := Some "veolia"; cfg_weight_unit := Some "tonnes";
        cfg_sheet_patterns := None; cfg_header_row_detection := false;
        cfg_bsdd_format := false; cfg_file_type := None;
        cfg_csv_separator := None;
        cfg_columns :=
          [ ("date", ["date de réalisation"; "date"]);
            ("site", ["lieu de collecte"; "site"; "adresse"; "lieu"]);
            ("waste", ["matière"; "déchet"; "type de déchet"]);
            ("weight", ["poids"; "masse"; "quantité"; "kg"; "tonnage"]);
            ("treatment_code",
             ["code de traitement"; "code traitement"; "code r/d"]);
            ("waste_code", ["cod ced"; "code déchet"]);
            ("container", ["matériel"; "contenant"; "bac"]);
            ("quantity", ["quantité facturée"; "nombre"; "nb"]);
            ("exutoire", ["exutoire"; "destination"; "installation"]);
            ("transporter", ["transporteur"]);
            ("bsd", ["n° de bon d'enlèvement"; "bsd"; "bordereau"]) ] |});
    ("Suez",
     {| cfg_pattern := Some "suez"; cfg_weight_unit := Some "tonnes";
        cfg_sheet_patterns := Some ["registre"; "déchets"; "data"];
        cfg_header_row_detection := true;
        cfg_bsdd_format := false; cfg_file_type := None;
        cfg_csv_separator := None;
        cfg_columns :=
          [ ("date", ["date de l'expédition"; "date"; "date collecte"]);
            ("site", ["nom du site"; "site"; "adresse"]);
            ("waste", ["matière"; "déchet"; "type"]);
            ("weight", ["qté pesée"; "poids"; "masse"; "quantité pesée"]);
            ("treatment_code", ["code r/d"; "code de traitement"]);
            ("treatment_name", ["libellé r/d"; "traitement"]);
            ("waste_code", ["code déchet"; "code ced"]);
            ("container_qty", ["qté de matériel"; "nombre"]);
            ("container_vol", ["volume du matériel"; "volume"]);
            ("exutoire", ["nom de l'installation"; "exutoire"]);
            ("transporter", ["nom.1"; "transporteur"]);
            ("bsd", ["n° du bsd"; "bsd"]) ] |});
    ("Apeyron",
     {| cfg_pattern := Some "apeyron"; cfg_weight_unit := Some "kg";
        cfg_sheet_patterns := None; cfg_header_row_detection := false;
        cfg_bsdd_format := false; cfg_file_type := None;
        cfg_csv_separator := None;
        cfg_columns :=
          [ ("date", ["date"; "date collecte"; "jour"]);
            ("site", ["nom etablissement"; "etablissement"; "site"; "client"]);
            ("weight", ["poids total kg"; "poids"; "kg"; "masse"]);
            ("container_code", ["volume bac"; "bac"; "contenant"]);
            ("container_qty", ["nb bac"; "nombre bac"; "nb"]) ] |});
    ("Les Alchimistes",
     {| cfg_pattern := Some "alchimiste"; cfg_weight_unit := Some "kg";
        cfg_sheet_patterns := None; cfg_header_row_detection := true;
        cfg_bsdd_format := false; cfg_file_type := None;
        cfg_csv_separator := None;
        cfg_columns :=
          [ ("date", ["date"; "date collecte"; "jour"]);
            ("site",
             ["site"; "client"; "établissement"; "etablissement"; "nom"]);
            ("waste", ["matière"; "déchet"; "type"; "flux"]);
            ("weight", ["poids"; "kg"; "masse"; "quantité"; "collecte"]);
            ("treatment_code", ["code"; "traitement"; "r/d"]) ] |});
    ("Paprec",
     {| cfg_pattern := Some "paprec"; cfg_weight_unit := Some "kg";
        cfg_sheet_patterns := None; cfg_header_row_detection := false;
        cfg_bsdd_format := false; cfg_file_type := None;
        cfg_csv_separator := None;
        cfg_columns :=
          [ ("site_id", ["numéro contrat"; "contrat"; "numero contrat"]);
            ("date", ["date prestation"; "date"]);
            ("waste", ["libellé qualité"; "qualité"; "matière"]);
            ("container", ["libellé matériel"; "matériel"]);
            ("quantity", ["quantité"; "nombre"]);
            ("weight", ["poids"; "masse"]);
            ("bsd", ["numerobe"; "n° be"]);
            ("month", ["mois"]);
            ("year", ["année"]) ] |});
    ("Elise",
     {| cfg_pattern := Some "elise"; cfg_weight_unit := Some "kg";
        cfg_sheet_patterns := None; cfg_header_row_detection := false;
        cfg_bsdd_format := false; cfg_file_type := Some "csv";
        cfg_csv_separator := Some ";";
        cfg_columns :=
          [ ("site_name", ["nom"]);
            ("date", ["date collecte"; "date"]);
            ("waste", ["gisement"; "matière"]);
            ("waste_code", ["code nomenclature"]);
            ("weight", ["quantité"; "kg"]);
            ("treatment_code_intermediate", ["code d/r"]);
            ("exutoire", ["installation"]) ] |});
    ("Screlec",
     {| cfg_pattern := Some "screlec"; cfg_weight_unit := Some "tonnes";
        cfg_sheet_patterns := None; cfg_header_row_detection := false;
        cfg_bsdd_format := true; cfg_file_type := None;
        cfg_csv_separator := None; cfg_columns := bsdd_columns |});
    ("Trackdechet",
     {| cfg_pattern := Some "trackdechet|td-registre";
        cfg_weight_unit := Some "tonnes";
        cfg_sheet_patterns := None; cfg_header_row_detection := false;
        cfg_bsdd_format := true; cfg_file_type := None;
        cfg_csv_separator := None; cfg_columns := bsdd_columns |}) ].

(** [PRESTATAIRE_CONFIG.get(prestataire, {})] *)
Definition get_config (prestataire : string) : config :=
  match dict_get prestataire PRESTATAIRE_CONFIG with
  | Some c => c
  | None => empty_config
  end.

(** [config.get("pattern", default)] *)
Definition config_pattern (c : config) (default : string) : string :=
  match cfg_pattern c with Some p => p | None => default end.

Definition PAPREC_CONTAINER_VOLUMES : dict Z :=
  [ ("bac roulant 660l", 660); ("bac roulant 340l", 340);
    ("bac roulant 770l", 770); ("bac roulant 240l", 240);
    ("bac roulant 120l", 120); ("caisse palette 600l", 600);
    ("palette", 1000); ("balle", 1000); ("box", 1000); ("sac", 110) ].

Definition PAPREC_CONTAINER_TYPES : dict string :=
  [ ("bac roulant 660l", "Bac 4 roues - 660 L");
    ("bac roulant 340l", "Bac 2 roues - 340 L");
    ("bac roulant 770l", "Bac 4 roues - 770 L");
    ("bac roulant 240l", "Bac 2 roues - 240 L");
    ("bac roulant 120l", "Bac 2 roues - 120 L");
    ("caisse palette 600l", "Caisse Palette - 600 L");
    ("palette", "Palette - 1 m3"); ("balle", "Balle - 1 m3");
    ("box", "Box - 1 m3"); ("sac", "Sac - 110 L");
    ("vrac", "Equipement inconnu") ].

Section Detection.
Context `{PyRuntime}.

(** [detect_prestataire]: the first provider, in registry order, whose
    pattern is found in the lower-cased file name. *)
Fixpoint detect_in (registry : dict config) (filename_lower : string)
  : option string :=
  match registry with
  | [] => None
  | (name, c) :: r =>
      let pattern := config_pattern c (str_lower name) in
      if re_search pattern filename_lower then Some name
      else detect_in r filename_lower
  end.

Definition detect_prestataire (filename : string) : option string :=
  let filename_lower := str_lower filename in
  detect_in PRESTATAIRE_CONFIG filename_lower.

End Detection.

(* ================================================================== *)
(** ** Exceptions and the warning log *)
(* ================================================================== *)

(** A computation over [self.warnings]: the log it leaves is returned in
    both cases, since a raise does not undo earlier appends. *)
Definition M (A : Type) := list string -> outcome A * list string.

Definition ret {A} (a : A) : M A := fun w => (Ok a, w).

Definition bind {A B} (c : M A) (k : A -> M B) : M B :=
  fun w =>
    match c w with
    | (Ok a, w') => k a w'
    | (Raise msg, w') => (Raise msg, w')
    end.

Definition raise {A} (msg : string) : M A := fun w => (Raise msg, w).

(** [self.warnings.append(msg)] *)
Definition warn (msg : string) : M unit := fun w => (Ok tt, (w ++ [msg])%list).

(** A statement that may raise but does not touch the log. *)
Definition lift {A} (o : outcome A) : M A := fun w => (o, w).

Declare Scope M_scope.
Delimit Scope M_scope with M.
Notation "x <- c ;; k" := (bind c (fun x => k))
  (at level 61, c at next level, right associativity) : M_scope.
Notation "c ;;; k" := (bind c (fun _ => k))
  (at level 61, right associativity) : M_scope.

(* ================================================================== *)
(** ** The mapping sheets and the engine *)
(* ================================================================== *)

(** A row of the sheet "Déchet": the columns 'Nom prestataire (FORMULE)',
    'Nom des déchets prestataire' and 'Nom des déchets Urbyn'. *)
Record dechet_row := {
  d_formule : value;
  d_prest : value;
  d_urbyn : value
}.

(** A row of the sheet "Site": the columns 'Nom prestataire (FORMULE)',
    'Nom site prestataire', 'Nom site Urbyn', 'Code de la prestation'. *)
Record site_row := {
  s_formule : value;
  s_site_prest : value;
  s_nom_site_urbyn : value;
  s_code_prestation : value
}.

(** A value of the site lookup: the dictionary with the keys 'nom_site',
    'code_prestation' and 'prestataire'. *)
Record site_info := {
  nom_site : value;
  code_prestation : value;
  si_prestataire : value
}.

(** A value of [traitement_lookup]: the keys 'code' and 'traitement'. *)
Record traitement_entry := {
  t_code : value;
  t_traitement : value
}.

(** A mapping sheet as the spreadsheet library returns it: the labels of
    its columns and its rows.  A row reads a column the sheet lacks as
    [None] ([row.get]). *)
Record sheet (A : Type) := {
  sh_columns : list string;
  sh_rows : list A
}.
Arguments sh_columns {A} _.
Arguments sh_rows {A} _.

(** The fields [__init__] and [_load_etl_mappings] leave on the engine
    (the warning log is the state of [M]). *)
Record ETLProcessor := {
  template_columns : list string;
  dechet_df : sheet dechet_row;
  dechet_to_agrege : dict string;
  traitement_lookup : dict traitement_entry;
  site_df : sheet site_row
}.

(** [df['Nom prestataire (FORMULE)']] on a mapping sheet: the provider
    cells of its rows, a [KeyError] when the sheet has no such column. *)
Definition provider_column {A} (df : sheet A) (formule : A -> value)
  : outcome (list value) :=
  if existsb (String.eqb "Nom prestataire (FORMULE)") (sh_columns df)
  then Ok (map formule (sh_rows df))
  else Raise "'Nom prestataire (FORMULE)'".

(** [df[mask]]: the rows whose bit of the mask is set. *)
Fixpoint select_rows {A} (mask : list bool) (rows : list A) : list A :=
  match mask, rows with
  | b :: m, row :: r => if b then row :: select_rows m r else select_rows m r
  | _, _ => []
  end.

Section Helpers.
Context `{PyRuntime}.

(** The loop of [_get_dechet_mapping] over the filtered rows, on the
    pair (lookup, default). *)
Fixpoint dechet_mapping_loop (rows : list dechet_row)
  (acc : dict value * value) : dict value * value :=
  match rows with
  | [] => acc
  | row :: r =>
      let prest := d_prest row in
      let urbyn := d_urbyn row in
      let '(lookup, default) := acc in
      let acc' :=
        if isna prest then
          (if notna urbyn then (lookup, urbyn) else (lookup, default))
        else if notna urbyn then
          (dict_set (str_lower (str_strip (py_str prest))) urbyn lookup,
           default)
        else (lookup, default) in
      dechet_mapping_loop r acc'
  end.

Definition _get_dechet_mapping (self : ETLProcessor)
  (prestataire_pattern : string) : outcome (dict value * value) :=
  match provider_column (dechet_df self) d_formule with
  | Raise msg => Raise msg
  | Ok column =>
      match str_contains prestataire_pattern column with
      | Raise msg => Raise msg
      | Ok mask =>
          let df_filtered := select_rows mask (sh_rows (dechet_df self)) in
          Ok (dechet_mapping_loop df_filtered ([], VNone))
      end
  end.

Fixpoint site_mapping_loop (rows : list site_row) (lookup : dict site_info)
  : dict site_info :=
  match rows with
  | [] => lookup
  | row :: r =>
      let site_prest := s_site_prest row in
      let lookup' :=
        if notna site_prest then
          let key := str_lower (str_strip (py_str site_prest)) in
          dict_set key
            {| nom_site := s_nom_site_urbyn row;
               code_prestation := s_code_prestation row;
               si_prestataire := s_formule row |} lookup
        else lookup in
      site_mapping_loop r lookup'
  end.

Definition _get_site_mapping (self : ETLProcessor)
  (prestataire_pattern : string) : outcome (dict site_info) :=
  match provider_column (site_df self) s_formule with
  | Raise msg => Raise msg
  | Ok column =>
      match str_contains prestataire_pattern column with
      | Raise msg => Raise msg
      | Ok mask =>
          let df_filtered := select_rows mask (sh_rows (site_df self)) in
          Ok (site_mapping_loop df_filtered [])
      end
  end.

(** The inner loop of [_find_column]: the first column whose name contains
    the lower-cased candidate. *)
Fixpoint find_column_in (name : string) (columns : list string)
  : option string :=
  match columns with
  | [] => None
  | col :: r =>
      if Str.contains (str_lower name) (str_lower col) then Some col
      else find_column_in name r
  end.

Fixpoint _find_column (columns : list string) (possible_names : list string)
  : option string :=
  match possible_names with
  | [] => None
  | name :: r =>
      match find_column_in name columns with
      | Some col => Some col
      | None => _find_column columns r
      end
  end.

(** A row handed out by [iterrows]: the labelled cells of one line. *)
Definition series := dict value.

(** [_safe_get(row, column, default)]; [row.get] reads a label that the
    row does not have as [None]. *)
Definition _safe_get (row : series) (column : option string)
  (default : value) : value :=
  match column with
  | None => default
  | Some c =>
      let v := dict_get_value c row in
      if isna v then default else v
  end.

(** The part of a string before the first occurrence of [sep]:
    [s.split(sep)[0]]. *)
Fixpoint before (sep s : string) : string :=
  if Str.startswith sep s then EmptyString
  else match s with
       | EmptyString => EmptyString
       | String c r => String c (before sep r)
       end.

Definition _extract_code_site (nom : value) : value :=
  if isna nom then VNone
  else
    let nom_str := py_str nom in
    if Str.contains " - " nom_str then VStr (before " - " nom_str)
    else VNone.

Definition _map_dechet (dechet_prest : value) (lookup : dict value)
  (default : value) : value :=
  if (isna dechet_prest
      || String.eqb (str_strip (py_str dechet_prest)) EmptyString)%bool
  then default
  else
    let key := str_lower (str_strip (py_str dechet_prest)) in
    match dict_get key lookup with
    | Some v => v
    | None => default
    end.

Definition _map_agrege (self : ETLProcessor) (dechet_fin : value) : value :=
  if isna dechet_fin then VNone
  else
    match dict_get (str_lower (str_strip (py_str dechet_fin)))
                   (dechet_to_agrege self) with
    | Some category => VStr category
    | None => VNone
    end.

(** [agrege in self.traitement_lookup] and [self.traitement_lookup[agrege]]:
    the keys are strings, so only a string can be found. *)
Definition lookup_by_value {V} (k : value) (d : dict V) : option V :=
  match k with
  | VStr s => dict_get s d
  | _ => None
  end.

Definition _map_traitement (self : ETLProcessor) (agrege code : value)
  : value * value :=
  if isna agrege then (VNone, VNone)
  else
    let by_category :=
      match lookup_by_value agrege (traitement_lookup self) with
      | Some r => (t_code r, t_traitement r)
      | None => (VNone, VNone)
      end in
    if (notna code && negb (String.eqb (str_strip (py_str code)) EmptyString))%bool
    then
      let key := py_str agrege ++ str_strip (py_str code) in
      match dict_get key (traitement_lookup self) with
      | Some r => (t_code r, t_traitement r)
      | None => by_category
      end
    else by_category.

(** The partial-match loop of [_map_site]. *)
Fixpoint site_partial_match (key : string) (site_lookup : dict site_info)
  : option site_info :=
  match site_lookup with
  | [] => None
  | (lookup_key, v) :: r =>
      if (Str.contains key lookup_key || Str.contains lookup_key key)%bool
      then Some v
      else site_partial_match key r
  end.

Definition _map_site (site_name : value) (site_lookup : dict site_info)
  : option site_info :=
  if isna site_name then None
  else
    let key := str_lower (str_strip (py_str site_name)) in
    match dict_get key site_lookup with
    | Some v => Some v
    | None => site_partial_match key site_lookup
    end.

End Helpers.

(* ================================================================== *)
(** ** Row processing *)
(* ================================================================== *)

(** The name Python prints for the type of a cell. *)
Definition type_name (v : value) : string :=
  match v with
  | VNone => "NoneType"
  | VStr _ => "str"
  | VInt _ => "int"
  | VFloat _ => "float"
  | VBool _ => "bool"
  | VDate _ => "Timestamp"
  end.

(** [cols.get(key)]: the discovered column, [None] for a key that is not
    there or that found no column. *)
Definition cols_get (key : string) (cols : dict (option string))
  : option string :=
  match dict_get key cols with
  | Some c => c
  | None => None
  end.

(** [a or b] on two results of [cols.get]. *)
Definition col_or (a b : option string) : option string :=
  match a with
  | Some c => if String.eqb c EmptyString then b else a
  | None => b
  end.

Section Rows.
Context `{PyRuntime}.

(** [float(v)] *)
Definition py_float (v : value) : outcome float64 :=
  match v with
  | VStr s =>
      match float_of_string s with
      | Some f => Ok f
      | None => Raise ("could not convert string to float: " ++ str_repr s)
      end
  | VInt z => Ok (F64.of_Z z)
  | VFloat f => Ok f
  | VBool b => Ok (F64.of_Z (if b then 1 else 0))
  | _ =>
      Raise ("float() argument must be a string or a real number, not '"
             ++ type_name v ++ "'")
  end.

(** [v.lower().strip()] *)
Definition py_lower_strip (v : value) : outcome string :=
  match v with
  | VStr s => Ok (str_strip (str_lower s))
  | _ => Raise ("'" ++ type_name v ++ "' object has no attribute 'lower'")
  end.

(** [n * q] for the integer [n] of a volume table *)
Definition py_mul_int (n : Z) (q : value) : outcome value :=
  match q with
  | VInt z => Ok (VInt (n * z))
  | VFloat f => Ok (VFloat (F64.mul (F64.of_Z n) f))
  | VBool b => Ok (VInt (n * (if b then 1 else 0)))
  | VStr s => Ok (VStr (Str.repeat s (Z.to_nat n)))
  | _ =>
      Raise ("unsupported operand type(s) for *: 'int' and '"
             ++ type_name q ++ "'")
  end.

(** The sentinel site record. *)
Definition unknown_site : site_info :=
  {| nom_site := VStr "Site inconnu"; code_prestation := VNone;
     si_prestataire := VNone |}.

(** The weight steps of [_process_row] after the strict-movement test:
    conversion to kilograms. *)
Definition convert_weight (config : config) (weight : value)
  : outcome value :=
  if truthy weight then
    match py_float weight with
    | Ok w =>
        if match cfg_weight_unit config with
           | Some u => String.eqb u "tonnes"
           | None => false
           end
        then Ok (VFloat (F64.mul w (F64.of_Z 1000)))
        else Ok (VFloat w)
    | Raise msg => Raise msg
    end
  else Ok (VInt 0).

(** The container steps of [_process_row]: (volume, type). *)
Definition container_info (container : value) (prestataire : string)
  : outcome (option Z * value) :=
  if (truthy container && String.eqb prestataire "Paprec")%bool then
    match py_lower_strip container with
    | Ok container_lower =>
        Ok (dict_get container_lower PAPREC_CONTAINER_VOLUMES,
            match dict_get container_lower PAPREC_CONTAINER_TYPES with
            | Some t => VStr t
            | None => VStr "Equipement inconnu"
            end)
    | Raise msg => Raise msg
    end
  else Ok (None, VNone).

(** ['Volume total (L)'] *)
Definition volume_total (volume_contenant : option Z) (quantity : value)
  : outcome value :=
  match volume_contenant with
  | Some v =>
      if (negb (Z.eqb v 0) && truthy quantity)%bool
      then py_mul_int v quantity
      else Ok VNone
  | None => Ok VNone
  end.

Definition value_of_volume (v : option Z) : value :=
  match v with Some z => VInt z | None => VNone end.

(** The dictionary [_process_row] returns, from the values of its local
    variables. *)
Definition output_row (site_info : site_info)
  (prestataire_name : value) (prestataire : string)
  (date_val waste_code dechet_fin dechets_agrege dechets_prest weight
   quantity : value) (volume_contenant : option Z)
  (type_contenant volume_tot traitement code_final code_prest bsd
   transporter exutoire : value) : dict value :=
  [ ("Libellé", VNone);
    ("Groupe", VStr "Capgemini");
    ("Code site", _extract_code_site (nom_site site_info));
    ("Nom du site", nom_site site_info);
    ("Nom du client", VStr "CAPGEMINI TECHNOLOGY SERVICES");
    ("Type de porteur", VStr "FM");
    ("Commentaire mouvement", VNone);
    ("Code de la prestation", code_prestation site_info);
    ("Prestataire", prestataire_name);
    ("Groupe de Prestataire", VStr prestataire);
    ("Type de prestataire", VStr "Privé");
    ("Périodicité", VStr "Jour");
    ("Date début registre", date_val);
    ("Date fin registre", date_val);
    ("Code déchet prestataire", waste_code);
    ("Déchet fin", dechet_fin);
    ("Déchets agrégé", dechets_agrege);
    ("Déchets prestataire", py_or dechets_prest dechet_fin);
    ("Masse totale (kg)", weight);
    ("Nombre de contenants", quantity);
    ("Volume contenant (L)", value_of_volume volume_contenant);
    ("Type de contenant", type_contenant);
    ("Volume total (L)", volume_tot);
    ("Nature de quantités collectées", VStr "Masse");
    ("Qualité quantités", VStr "Document prestataire");
    ("Précision estimations des quantités", VNone);
    ("Traitement", traitement);
    ("Traitement prestataire", VNone);
    ("Code traitement", code_final);
    ("Code traitement prestataire", code_prest);
    ("Qualité du Traitement", VStr "Document prestataire");
    ("N° de BSD/BSDD", bsd);
    ("N° de recépissé", VNone);
    ("Transporteur", transporter);
    ("Transporteur prestataire", transporter);
    ("Plaque d'immatriculation", VNone);
    ("Exutoire intermédiaire", VNone);
    ("Exutoire intermédiaire prestataire", VNone);
    ("Qualité de l'exutoire intermédiaire", VNone);
    ("Exutoire final", exutoire);
    ("Exutoire final prestataire", exutoire);
    ("Qualité de l'exutoire final", VStr "Document prestataire");
    ("Période de clôture", VNone);
    ("Statut du mouvement", VStr "Réalisée");
    ("Commentaire", VNone) ].

Local Open Scope M_scope.

Definition _process_row (self : ETLProcessor) (row : series)
  (cols : dict (option string)) (prestataire : string) (config : config)
  (dechet_lookup : dict value) (default_dechet : value)
  (site_lookup : dict site_info) : M (option (dict value)) :=
  (* Get site *)
  let site_col :=
    col_or (col_or (cols_get "site" cols) (cols_get "site_name" cols))
           (cols_get "site_id" cols) in
  let site_name := _safe_get row site_col (VStr EmptyString) in
  site_info <-
    match _map_site site_name site_lookup with
    | Some info => ret info
    | None =>
        warn ("No site mapping for: '" ++ py_str site_name ++ "'") ;;;
        ret unknown_site
    end ;;
  (* Get waste *)
  let waste_col :=
    col_or (cols_get "waste" cols) (cols_get "waste_name" cols) in
  let dechets_prest := _safe_get row waste_col (VStr EmptyString) in
  let dechet_fin := _map_dechet dechets_prest dechet_lookup default_dechet in
  let dechets_agrege := _map_agrege self dechet_fin in
  (* Get treatment *)
  let code_col :=
    col_or (cols_get "treatment_code" cols)
           (cols_get "treatment_code_done" cols) in
  let code_prest := _safe_get row code_col (VStr EmptyString) in
  let '(code_mapped, traitement) :=
    _map_traitement self dechets_agrege code_prest in
  let code_final :=
    match code_mapped with VNone => code_prest | _ => code_mapped end in
  (* Get weight *)
  let weight_col := cols_get "weight" cols in
  let weight := _safe_get row weight_col (VInt 0) in
  (* Skip if no weight (for BSDD formats) *)
  if (cfg_bsdd_format config && (isna weight || eq_zero weight))%bool
  then ret None
  else
    (* Convert weight *)
    weight <- lift (convert_weight config weight) ;;
    (* Get date *)
    let date_val := _safe_get row (cols_get "date" cols) VNone in
    (* Get other fields *)
    let bsd := _safe_get row (cols_get "bsd" cols) VNone in
    let waste_code := _safe_get row (cols_get "waste_code" cols) VNone in
    let transporter := _safe_get row (cols_get "transporter" cols) VNone in
    let exutoire :=
      _safe_get row
        (col_or (cols_get "exutoire" cols) (cols_get "destination" cols))
        VNone in
    (* Container info (for Paprec) *)
    let container :=
      _safe_get row (cols_get "container" cols) (VStr EmptyString) in
    let quantity :=
      _safe_get row
        (col_or (cols_get "quantity" cols) (cols_get "container_qty" cols))
        (VInt 1) in
    ci <- lift (container_info container prestataire) ;;
    let '(volume_contenant, type_contenant) := ci in
    (* Determine prestataire name *)
    let prestataire_name :=
      py_or (py_or (si_prestataire site_info) transporter)
            (VStr prestataire) in
    volume_tot <- lift (volume_total volume_contenant quantity) ;;
    ret (Some
      (output_row site_info prestataire_name prestataire date_val waste_code
         dechet_fin dechets_agrege dechets_prest weight quantity
         volume_contenant type_contenant volume_tot traitement code_final
         code_prest bsd transporter exutoire)).

End Rows.

(* ================================================================== *)
(** ** Data frames *)
(* ================================================================== *)

(** A data frame: the number of rows and the labelled columns, each a
    list of that many cells. *)
Record frame := {
  f_nrows : nat;
  f_columns : dict (list value)
}.

(** [df.columns] *)
Definition columns (df : frame) : list string := map fst (f_columns df).

(** [col in df.columns] *)
Definition has_column (col : string) (df : frame) : bool :=
  existsb (String.eqb col) (columns df).

(** [df[col] = v] with a scalar [v] *)
Definition set_column (col : string) (v : value) (df : frame) : frame :=
  {| f_nrows := f_nrows df;
     f_columns := dict_set col (List.repeat v (f_nrows df)) (f_columns df) |}.

(** [df.iterrows()]: the rows as labelled series *)
Definition row_at (df : frame) (i : nat) : series :=
  map (fun lc => (fst lc, nth i (snd lc) NaN)) (f_columns df).

Definition iterrows (df : frame) : list series :=
  map (row_at df) (seq 0 (f_nrows df)).

(** Labels in order of first appearance. *)
Fixpoint add_labels (new acc : list string) : list string :=
  match new with
  | [] => acc
  | l :: r =>
      if existsb (String.eqb l) acc then add_labels r acc
      else add_labels r (acc ++ [l])%list
  end.

(** [pd.concat(dfs, ignore_index=True)]: the union of the columns, a
    frame filling the columns it lacks with NaN. *)
Definition concat (dfs : list frame) : frame :=
  let labels := fold_left (fun acc df => add_labels (columns df) acc) dfs [] in
  {| f_nrows := fold_left (fun n df => (n + f_nrows df)%nat) dfs O;
     f_columns :=
       map (fun l =>
              (l, flat_map (fun df =>
                              match dict_get l (f_columns df) with
                              | Some c => c
                              | None => List.repeat NaN (f_nrows df)
                              end) dfs)) labels |}.

(** [pd.DataFrame(records)] on a list of dictionaries: the labels in
    order of first appearance and, per label, the cells of the records.
    The cells are kept as the records hold them; the conversion pandas
    applies to a column once its type is inferred (a whole number or
    [None] in a column of floats becomes a float) is not modelled. *)
Definition DataFrame (records : list (dict value)) : frame :=
  let labels :=
    fold_left (fun acc r => add_labels (map fst r) acc) records [] in
  {| f_nrows := List.length records;
     f_columns :=
       map (fun l =>
              (l, map (fun r => match dict_get l r with
                                | Some v => v
                                | None => NaN
                                end) records)) labels |}.

Definition dquote : string := String (ascii_of_nat 34) EmptyString.

(** [df[labels]]: the named columns in the order asked for; a label the
    frame lacks is a [KeyError]. *)
Fixpoint select_columns (cols : dict (list value)) (labels : list string)
  : outcome (dict (list value)) :=
  match labels with
  | [] => Ok []
  | l :: r =>
      match dict_get l cols with
      | None => Raise (dquote ++ "['" ++ l ++ "'] not in index" ++ dquote)
      | Some c =>
          match select_columns cols r with
          | Ok rest => Ok ((l, c) :: rest)
          | Raise msg => Raise msg
          end
      end
  end.

Definition select (df : frame) (labels : list string) : outcome frame :=
  match select_columns (f_columns df) labels with
  | Ok cs => Ok {| f_nrows := f_nrows df; f_columns := cs |}
  | Raise msg => Raise msg
  end.

(** The alignment loop of [process]: every template column the frame
    lacks is added, filled with [None]. *)
Fixpoint add_missing (template : list string) (df : frame) : frame :=
  match template with
  | [] => df
  | col :: r =>
      if negb (has_column col df) then add_missing r (set_column col VNone df)
      else add_missing r df
  end.

(* ================================================================== *)
(** ** Reading an uploaded file *)
(* ================================================================== *)

(** The [sheet_name] argument of [pd.read_excel]: a position or a name. *)
Inductive sheet_ref :=
| ByPosition (n : nat)
| ByName (name : string).

(** An uploaded file, as what the spreadsheet library answers for it:
    its name, the two delimited-text parses [_read_file] may ask for, the
    sheet names of the workbook, the first fifteen lines of a sheet read
    without header, and a sheet read with a given header line. *)
Record upload := {
  up_name : string;
  read_csv_semicolon : outcome frame;
  read_csv_comma : outcome frame;
  sheet_names : outcome (list string);
  read_excel_raw : sheet_ref -> outcome (list (list value));
  read_excel : sheet_ref -> nat -> outcome frame
}.

Section Sheets.
Context `{PyRuntime}.

(** The inner loop of the sheet search: the first sheet whose lower-cased
    name contains the lower-cased keyword. *)
Fixpoint first_sheet_with (pattern : string) (names : list string)
  : option string :=
  match names with
  | [] => None
  | sheet :: r =>
      if Str.contains (str_lower pattern) (str_lower sheet) then Some sheet
      else first_sheet_with pattern r
  end.

(** The outer loop: [break] leaves the inner loop only, so every keyword
    is tried and a later keyword that matches overwrites [sheet_name]. *)
Fixpoint sheet_patterns_loop (patterns : list string) (names : list string)
  (sheet_name : sheet_ref) : sheet_ref :=
  match patterns with
  | [] => sheet_name
  | pattern :: r =>
      match first_sheet_with pattern names with
      | Some sheet => sheet_patterns_loop r names (ByName sheet)
      | None => sheet_patterns_loop r names sheet_name
      end
  end.

(** "Find the right sheet" of [_read_file]. *)
Definition choose_sheet (config : config) (names : list string) : sheet_ref :=
  let sheet_name := ByPosition 0 in
  match cfg_sheet_patterns config with
  | Some patterns => sheet_patterns_loop patterns names sheet_name
  | None =>
      if existsb (String.eqb "registre") (map str_lower names)
      then ByName "registre"
      else sheet_name
  end.

End Sheets.

(** The sheet a reference opens: a position counts from the first sheet,
    a name must be the name of a sheet, letter for letter. *)
Definition open_sheet (ref : sheet_ref) (names : list string)
  : option string :=
  match ref with
  | ByPosition n => nth_error names n
  | ByName s => if existsb (String.eqb s) names then Some s else None
  end.

Section Reading.
Context `{PyRuntime}.

(** The text of a headerless line: the lower-cased cells that are not
    missing, joined by a space. *)
Definition row_text (cells : list value) : string :=
  Str.join " " (map (fun v => str_lower (py_str v)) (filter notna cells)).

Definition looks_like_header (cells : list value) : bool :=
  let t := row_text cells in
  (Str.contains "date" t
   && (Str.contains "poids" t || Str.contains "kg" t
       || Str.contains "matière" t))%bool.

(** The index of the first line that looks like a header, else 0. *)
Fixpoint detect_header_row (raw : list (list value)) (i : nat) : nat :=
  match raw with
  | [] => O
  | cells :: r =>
      if looks_like_header cells then i else detect_header_row r (S i)
  end.

Definition _read_file (file : upload) (prestataire : string)
  : outcome frame :=
  let config := get_config prestataire in
  if (match cfg_file_type config with
      | Some t => String.eqb t "csv"
      | None => false
      end
      || Str.endswith ".csv" (up_name file))%bool
  then
    match read_csv_semicolon file with
    | Ok df =>
        if Nat.ltb 5 (List.length (columns df)) then Ok df
        else read_csv_comma file
    | Raise _ => read_csv_comma file
    end
  else
    match sheet_names file with
    | Raise msg => Raise msg
    | Ok names =>
        let sheet_name := choose_sheet config names in
        if cfg_header_row_detection config then
          match read_excel_raw file sheet_name with
          | Raise msg => Raise msg
          | Ok df_raw =>
              read_excel file sheet_name (detect_header_row df_raw O)
          end
        else read_excel file sheet_name O
    end.

End Reading.

(* ================================================================== *)
(** ** Orchestration *)
(* ================================================================== *)

(** The dictionary [process] returns. *)
Record result := {
  success : bool;
  error : option string;
  data : option frame;
  rows_processed : nat;
  rows_skipped : nat;
  warnings : list string
}.

Section Process.
Context `{PyRuntime}.
Local Open Scope M_scope.

(** "Read and combine files": each frame gets its ['_source_file']. *)
Fixpoint read_files (files : list upload) (prestataire : string)
  : outcome (list frame) :=
  match files with
  | [] => Ok []
  | f :: r =>
      match _read_file f prestataire with
      | Raise msg => Raise msg
      | Ok df =>
          let df := set_column "_source_file" (VStr (up_name f)) df in
          match read_files r prestataire with
          | Raise msg => Raise msg
          | Ok dfs => Ok (df :: dfs)
          end
      end
  end.

(** [pd.concat(dfs, ignore_index=True) if len(dfs) > 1 else dfs[0]] *)
Definition combine (dfs : list frame) : outcome frame :=
  match dfs with
  | [] => Raise "list index out of range"
  | [df] => Ok df
  | _ => Ok (concat dfs)
  end.

(** "Detect columns" *)
Definition detect_columns (config : config) (df_input : frame)
  : dict (option string) :=
  fold_left
    (fun cols kp => dict_set (fst kp) (_find_column (columns df_input) (snd kp)) cols)
    (cfg_columns config) [].

(** "Process rows": the pair (output_rows, skipped). *)
Fixpoint process_rows (self : ETLProcessor) (rows : list series)
  (cols : dict (option string)) (prestataire : string) (config : config)
  (dechet_lookup : dict value) (default_dechet : value)
  (site_lookup : dict site_info)
  (output_rows : list (dict value)) (skipped : nat)
  : M (list (dict value) * nat) :=
  match rows with
  | [] => ret (output_rows, skipped)
  | row :: r =>
      result <- _process_row self row cols prestataire config
                  dechet_lookup default_dechet site_lookup ;;
      match result with
      | Some out =>
          process_rows self r cols prestataire config dechet_lookup
            default_dechet site_lookup (output_rows ++ [out])%list skipped
      | None =>
          process_rows self r cols prestataire config dechet_lookup
            default_dechet site_lookup output_rows (S skipped)
      end
  end.

(** The [try] block up to the end of the row loop: the pair
    (output_rows, skipped). *)
Definition collect_rows (self : ETLProcessor) (files : list upload)
  (prestataire : string) : M (list (dict value) * nat) :=
  let config := get_config prestataire in
  let pattern := config_pattern config (str_lower prestataire) in
  (* Get mappings *)
  dm <- lift (_get_dechet_mapping self pattern) ;;
  let '(dechet_lookup, default_dechet) := dm in
  site_lookup <- lift (_get_site_mapping self pattern) ;;
  (* Read and combine files *)
  dfs <- lift (read_files files prestataire) ;;
  df_input <- lift (combine dfs) ;;
  (* Detect columns *)
  let cols := detect_columns config df_input in
  (* Process rows *)
  process_rows self (iterrows df_input) cols prestataire config
    dechet_lookup default_dechet site_lookup [] O.

(** "Create output DataFrame" and "Align with template columns". *)
Definition assemble (template : list string) (output_rows : list (dict value))
  : outcome frame :=
  let df_output := DataFrame output_rows in
  let df_output := add_missing template df_output in
  select df_output template.

(** The body of the [try] block: the output frame and the skipped count. *)
Definition process_body (self : ETLProcessor) (files : list upload)
  (prestataire : string) : M (frame * nat) :=
  rs <- collect_rows self files prestataire ;;
  let '(output_rows, skipped) := rs in
  df_output <- lift (assemble (template_columns self) output_rows) ;;
  ret (df_output, skipped).

(** [ETLProcessor.process]: [log] is [self.warnings] at the call. *)
Definition process (self : ETLProcessor) (log : list string)
  (files : list upload) (prestataire : string) : result :=
  (* self.warnings = [] *)
  let log : list string := [] in
  match process_body self files prestataire log with
  | (Ok (df_output, skipped), log') =>
      {| success := true; error := None; data := Some df_output;
         rows_processed := f_nrows df_output; rows_skipped := skipped;
         warnings := log' |}
  | (Raise e, log') =>
      {| success := false; error := Some e; data := None;
         rows_processed := O; rows_skipped := O; warnings := log' |}
  end.

End Process.

(* ================================================================== *)
(** ** Construction of the engine *)
(* ================================================================== *)

(** A row of the sheet "Paramètres" restricted to the columns 'Category'
    and 'Name', as [iterrows] hands it out. *)
Record param_row := {
  p_category : value;
  p_name : value
}.

(** The mapping workbook, as what the spreadsheet library answers for
    each sheet [_load_etl_mappings] reads: the rows of "Déchet", the rows
    of "Paramètres" restricted to 'Category' and 'Name' (a raise when the
    sheet or one of the two columns is missing), the rows of "Traitement
    générique" and the rows of "Site". *)
Record etl_workbook := {
  sheet_dechet : outcome (sheet dechet_row);
  sheet_parametres : outcome (list param_row);
  sheet_traitement : outcome (list series);
  sheet_site : outcome (sheet site_row)
}.

Section Loading.
Context `{PyRuntime}.

(** The loop that fills [dechet_to_agrege]; [dropna] leaves out the rows
    where the category or the name is missing. *)
Fixpoint load_agrege (rows : list param_row) (acc : dict string)
  : dict string :=
  match rows with
  | [] => acc
  | row :: r =>
      if (notna (p_category row) && notna (p_name row))%bool then
        load_agrege r
          (dict_set (str_lower (str_strip (py_str (p_name row))))
                    (str_strip (py_str (p_category row))) acc)
      else load_agrege r acc
  end.

(** [str(row.get('Concatener déchet & code de traitement prestataire',
    '')).strip()] *)
Definition traitement_key (row : series) : string :=
  str_strip
    (py_str
       (match dict_get "Concatener déchet & code de traitement prestataire"
                       row with
        | Some v => v
        | None => VStr EmptyString
        end)).

(** The loop that fills [traitement_lookup]. *)
Fixpoint load_traitement (rows : list series) (acc : dict traitement_entry)
  : dict traitement_entry :=
  match rows with
  | [] => acc
  | row :: r =>
      let key := traitement_key row in
      if negb (String.eqb key EmptyString) then
        load_traitement r
          (dict_set key
             {| t_code := dict_get_value "Code traitement retraité" row;
                t_traitement := dict_get_value "Traitement" row |} acc)
      else load_traitement r acc
  end.

(** [_load_etl_mappings], for an engine whose template is read. *)
Definition _load_etl_mappings (etl_file : etl_workbook)
  (template : list string) : outcome ETLProcessor :=
  match sheet_dechet etl_file with
  | Raise e => Raise e
  | Ok dechet =>
      match sheet_parametres etl_file with
      | Raise e => Raise e
      | Ok param_df =>
          let agrege := load_agrege param_df [] in
          match sheet_traitement etl_file with
          | Raise e => Raise e
          | Ok trait_df =>
              let traitement := load_traitement trait_df [] in
              match sheet_site etl_file with
              | Raise e => Raise e
              | Ok site =>
                  Ok {| template_columns := template;
                        dechet_df := dechet;
                        dechet_to_agrege := agrege;
                        traitement_lookup := traitement;
                        site_df := site |}
              end
          end
      end
  end.

(** [ETLProcessor.__init__]: [template_file] is the answer to reading the
    header line of the template, its column names. *)
Definition __init__ (etl_file : etl_workbook)
  (template_file : outcome (list string)) : outcome ETLProcessor :=
  match template_file with
  | Raise e => Raise e
  | Ok template => _load_etl_mappings etl_file template
  end.

End Loading.

(* ================================================================== *)
(** ** Vocabulary of the statements *)
(* ================================================================== *)

(** The cell a produced row holds under a label; a row without the label
    reads as missing. *)
Definition cell (col : string) (r : dict value) : value :=
  match dict_get col r with Some v => v | None => NaN end.

(** The column the output table holds under a template label: the values
    the produced rows have under it, or only [None] when no produced row
    has such a field. *)
Definition expected_column (col : string) (output_rows : list (dict value))
  : list value :=
  if existsb (dict_has col) output_rows
  then map (cell col) output_rows
  else List.repeat VNone (List.length output_rows).

(** The cell of a row under a discovered column, before [_safe_get]
    substitutes its default: [None] when no column was discovered. *)
Definition raw_cell (row : series) (column : option string) : value :=
  match column with
  | None => VNone
  | Some c => dict_get_value c row
  end.

(** The column [_process_row] reads the site from, and the other columns
    it reads. *)
Definition site_column (cols : dict (option string)) : option string :=
  col_or (col_or (cols_get "site" cols) (cols_get "site_name" cols))
         (cols_get "site_id" cols).

Definition waste_column (cols : dict (option string)) : option string :=
  col_or (cols_get "waste" cols) (cols_get "waste_name" cols).

Definition code_column (cols : dict (option string)) : option string :=
  col_or (cols_get "treatment_code" cols) (cols_get "treatment_code_done" cols).

Definition quantity_column (cols : dict (option string)) : option string :=
  col_or (cols_get "quantity" cols) (cols_get "container_qty" cols).

(** The failure dictionary of [process]. *)
Definition failure (e : string) (log : list string) : result :=
  {| success := false; error := Some e; data := None;
     rows_processed := O; rows_skipped := O; warnings := log |}.

(** [config.get('weight_unit') == 'tonnes'] *)
Definition in_tonnes (config : config) : bool :=
  match cfg_weight_unit config with
  | Some u => String.eqb u "tonnes"
  | None => false
  end.

(** A cell that holds a number, as the float [float()] makes of it. *)
Definition number_of (v : value) : option float64 :=
  match v with
  | VInt z => Some (F64.of_Z z)
  | VFloat f => if F64.is_nan f then None else Some f
  | _ => None
  end.

Section RowVocabulary.
Context `{PyRuntime}.

(** The local variables of [_process_row] that the statements name. *)
Definition site_name_of (row : series) (cols : dict (option string)) : value :=
  _safe_get row (site_column cols) (VStr EmptyString).

Definition site_key_of (row : series) (cols : dict (option string)) : string :=
  str_lower (str_strip (py_str (site_name_of row cols))).

Definition dechets_agrege_of (self : ETLProcessor) (row : series)
  (cols : dict (option string)) (dechet_lookup : dict value)
  (default_dechet : value) : value :=
  _map_agrege self
    (_map_dechet (_safe_get row (waste_column cols) (VStr EmptyString))
                 dechet_lookup default_dechet).

Definition code_prest_of (row : series) (cols : dict (option string)) : value :=
  _safe_get row (code_column cols) (VStr EmptyString).

Definition weight_of (row : series) (cols : dict (option string)) : value :=
  _safe_get row (cols_get "weight" cols) (VInt 0).

Definition container_of (row : series) (cols : dict (option string)) : value :=
  _safe_get row (cols_get "container" cols) (VStr EmptyString).

Definition quantity_of (row : series) (cols : dict (option string)) : value :=
  _safe_get row (quantity_column cols) (VInt 1).

Definition transporter_of (row : series) (cols : dict (option string)) : value :=
  _safe_get row (cols_get "transporter" cols) VNone.

(** The warning [_process_row] appends for a site without mapping. *)
Definition site_warning (site_name : value) : string :=
  "No site mapping for: '" ++ py_str site_name ++ "'".

(** What [_process_row] appends to the log for a row. *)
Definition row_warnings (row : series) (cols : dict (option string))
  (site_lookup : dict site_info) : list string :=
  match _map_site (site_name_of row cols) site_lookup with
  | Some _ => []
  | None => [site_warning (site_name_of row cols)]
  end.

End RowVocabulary.

(** A key of a lookup matches a site key when one contains the other. *)
Definition partial_match (key lookup_key : string) : bool :=
  (Str.contains key lookup_key || Str.contains lookup_key key)%bool.

Section RowOutcome.
Context `{PyRuntime}.

(** The site record a row continues with. *)
Definition site_info_of (row : series) (cols : dict (option string))
  (site_lookup : dict site_info) : site_info :=
  match _map_site (site_name_of row cols) site_lookup with
  | Some info => info
  | None => unknown_site
  end.

(** What [_process_row] returns or raises for a row, apart from the log:
    used to state that the log and the returned value are independent. *)
Definition row_outcome (self : ETLProcessor) (row : series)
  (cols : dict (option string)) (prestataire : string) (config : config)
  (dechet_lookup : dict value) (default_dechet : value)
  (site_lookup : dict site_info) : outcome (option (dict value)) :=
  let site := site_info_of row cols site_lookup in
  let dechets_prest := _safe_get row (waste_column cols) (VStr EmptyString) in
  let dechet_fin := _map_dechet dechets_prest dechet_lookup default_dechet in
  let dechets_agrege := _map_agrege self dechet_fin in
  let code_prest := code_prest_of row cols in
  let mapped := _map_traitement self dechets_agrege code_prest in
  let code_final :=
    match fst mapped with VNone => code_prest | _ => fst mapped end in
  let weight := weight_of row cols in
  if (cfg_bsdd_format config && (isna weight || eq_zero weight))%bool
  then Ok None
  else
    match convert_weight config weight with
    | Raise e => Raise e
    | Ok kg =>
        match container_info (container_of row cols) prestataire with
        | Raise e => Raise e
        | Ok ci =>
            match volume_total (fst ci) (quantity_of row cols) with
            | Raise e => Raise e
            | Ok volume_tot =>
                let transporter := transporter_of row cols in
                let exutoire :=
                  _safe_get row
                    (col_or (cols_get "exutoire" cols)
                            (cols_get "destination" cols)) VNone in
                Ok (Some
                  (output_row site
                     (py_or (py_or (si_prestataire site) transporter)
                            (VStr prestataire))
                     prestataire
                     (_safe_get row (cols_get "date" cols) VNone)
                     (_safe_get row (cols_get "waste_code" cols) VNone)
                     dechet_fin dechets_agrege dechets_prest kg
                     (quantity_of row cols) (fst ci) (snd ci) volume_tot
                     (snd mapped) code_final code_prest
                     (_safe_get row (cols_get "bsd" cols) VNone)
                     transporter exutoire))
            end
        end
    end.

End RowOutcome.

(** The rows the loop of [process] reaches: all of them, or those up to
    and including the first one that raises. *)
Fixpoint rows_reached {A} (f : series -> outcome A) (rows : list series)
  : list series :=
  match rows with
  | [] => []
  | row :: r =>
      match f row with
      | Raise _ => [row]
      | Ok _ => row :: rows_reached f r
      end
  end.

Section WarningsSoFar.
Context `{PyRuntime}.

(** The mappings and the combined input one call of [process] works on,
    or the exception that stops it before the first row. *)
Definition prepare (self : ETLProcessor) (files : list upload)
  (prestataire : string)
  : outcome (dict value * value * dict site_info * frame) :=
  let config := get_config prestataire in
  let pattern := config_pattern config (str_lower prestataire) in
  match _get_dechet_mapping self pattern with
  | Raise e => Raise e
  | Ok dm =>
      match _get_site_mapping self pattern with
      | Raise e => Raise e
      | Ok site_lookup =>
          match read_files files prestataire with
          | Raise e => Raise e
          | Ok dfs =>
              match combine dfs with
              | Raise e => Raise e
              | Ok df_input => Ok (fst dm, snd dm, site_lookup, df_input)
              end
          end
      end
  end.

(** The warnings one call of [process] has appended when it returns:
    none if the mappings or reading the files raised, else those of every
    row reached. *)
Definition warnings_so_far (self : ETLProcessor) (files : list upload)
  (prestataire : string) : list string :=
  let config := get_config prestataire in
  match prepare self files prestataire with
  | Raise _ => []
  | Ok (dechet_lookup, default_dechet, site_lookup, df_input) =>
      let cols := detect_columns config df_input in
      flat_map (fun row => row_warnings row cols site_lookup)
        (rows_reached
           (fun row => row_outcome self row cols prestataire config
                         dechet_lookup default_dechet site_lookup)
           (iterrows df_input))
  end.

End WarningsSoFar.

Section TreatmentVocabulary.
Context `{PyRuntime}.

(** A provider code that is missing or blank. *)
Definition blank_code (code : value) : bool :=
  (isna code || String.eqb (str_strip (py_str code)) EmptyString)%bool.

(** The key made of the aggregated category and the trimmed code. *)
Definition concat_key (agrege code : value) : string :=
  py_str agrege ++ str_strip (py_str code).

(** The pattern [detect_prestataire] tests for an entry of the registry. *)
Definition entry_pattern (entry : string * config) : string :=
  config_pattern (snd entry) (str_lower (fst entry)).

End TreatmentVocabulary.

(** The patterns of the seven providers the registry lists before
    Trackdechet. *)
Definition patterns_before_trackdechet : list string :=
  ["veolia"; "suez"; "apeyron"; "alchimiste"; "paprec"; "elise"; "screlec"].

Section SheetVocabulary.
Context `{PyRuntime}.

(** Following the specification's words for the keyword list: "taking the
    first keyword's first match". *)
Fixpoint first_keyword_first_match (patterns names : list string)
  : option string :=
  match patterns with
  | [] => None
  | pattern :: r =>
      match first_sheet_with pattern names with
      | Some sheet => Some sheet
      | None => first_keyword_first_match r names
      end
  end.

End SheetVocabulary.

(* ================================================================== *)
(** ** Sample data *)
(* ================================================================== *)

(** A pattern that starts with a quantifier is not a regular expression:
    compiling it raises "nothing to repeat at position 0". *)
Definition starts_with_quantifier (pattern : string) : bool :=
  match pattern with
  | String c _ => existsb (Ascii.eqb c) (list_ascii_of_string "*+?")
  | EmptyString => false
  end.

(** The mask of a plain ASCII pattern on a column of ASCII text. *)
Definition sample_mask (pattern : string) (column : list value) : list bool :=
  map (fun v => match v with
                | VStr s => re_search_nocase pattern s
                | _ => false
                end) column.

(** A runtime for the examples, which is the Python runtime on the data
    they use: texts whose capital letters are ASCII and that neither
    start nor end with a white space outside ASCII, patterns that are
    plain or start with a quantifier, strings without quote or backslash.
    No string parses as a float and every float prints as ["nan"]. *)
Definition sample_runtime : PyRuntime.
Proof.
  refine
    {| float_of_string := fun _ => None;
       string_of_float := fun _ => "nan";
       str_repr := fun s => "'" ++ s ++ "'";
       str_lower := Str.lower;
       str_strip := Str.strip;
       str_contains := fun pattern column =>
         if starts_with_quantifier pattern
         then Raise "nothing to repeat at position 0"
         else Ok (sample_mask pattern column);
       str_lower_ascii := fun s _ => eq_refl;
       str_strip_ascii := fun s _ => eq_refl;
       str_contains_mask := _ |}.
  intros pattern column mask.
  destruct (starts_with_quantifier pattern); [discriminate|].
  intros E; injection E as <-.
  induction column as [|v r IH]; simpl; constructor; auto.
  destruct v; simpl; auto.
Defined.

Definition f64_2_5 : float64 := S754_finite false 5629499534213120 (-51).
Definition f64_2500 : float64 := S754_finite false 5497558138880000 (-41).
Definition f64_0_01 : float64 := S754_finite false 5764607523034235 (-59).

(** The columns of the sheets "Déchet" and "Site" of a mapping workbook. *)
Definition DECHET_COLUMNS : list string :=
  [ "Nom prestataire (FORMULE)"; "Nom des déchets prestataire";
    "Nom des déchets Urbyn" ].

Definition SITE_COLUMNS : list string :=
  [ "Nom prestataire (FORMULE)"; "Nom site prestataire"; "Nom site Urbyn";
    "Code de la prestation" ].

(** A small mapping workbook and template. *)
Definition sample_engine : ETLProcessor :=
  {| template_columns :=
       ["Nom du site"; "Masse totale (kg)"; "Référence interne";
        "Code traitement"];
     dechet_df :=
       {| sh_columns := DECHET_COLUMNS;
          sh_rows :=
            [ {| d_formule := VStr "Veolia"; d_prest := VStr "Papier";
                 d_urbyn := VStr "Papier/Carton" |} ] |};
     dechet_to_agrege := [("papier/carton", "Recyclable"); ("bois", "Bois B")];
     traitement_lookup :=
       [ ("RecyclableR3",
          {| t_code := VStr "R3"; t_traitement := VStr "Recyclage matière" |});
         ("Recyclable",
          {| t_code := VStr "R13"; t_traitement := VStr "Regroupement" |}) ];
     site_df :=
       {| sh_columns := SITE_COLUMNS;
          sh_rows :=
            [ {| s_formule := VStr "VEOLIA"; s_site_prest := VStr "Paris";
                 s_nom_site_urbyn := VStr "PAR01 - Paris HQ";
                 s_code_prestation := VStr "P1" |} ] |} |}.

Definition sample_site_a : site_info :=
  {| nom_site := VStr "A01 - Site A"; code_prestation := VStr "PA";
     si_prestataire := VStr "Veolia Propreté" |}.

Definition sample_site_b : site_info :=
  {| nom_site := VStr "B01 - Site B"; code_prestation := VStr "PB";
     si_prestataire := VNone |}.

Definition sample_site_lookup : dict site_info :=
  [ ("site a", sample_site_a); ("site b", sample_site_b) ].


(** Discovered columns and rows of a provider export. *)
Definition sample_cols : dict (option string) :=
  [ ("site", Some "Site"); ("waste", Some "Matière");
    ("weight", Some "Poids"); ("treatment_code", Some "Code");
    ("container", Some "Matériel"); ("quantity", Some "Nombre") ].

Definition sample_row (site weight : value) : series :=
  [ ("Site", site); ("Matière", VStr "Papier"); ("Poids", weight);
    ("Code", VStr "R3") ].

Definition sample_dechet_lookup : dict value :=
  [ ("papier", VStr "Papier/Carton"); ("palette bois", VStr "Bois") ].

Definition sample_waste_row (waste code : value) : series :=
  [ ("Site", VStr "Site A"); ("Matière", waste); ("Poids", VInt 12);
    ("Code", code) ].

Definition sample_container_row (container quantity : value) : series :=
  [ ("Site", VStr "Site A"); ("Poids", VInt 12);
    ("Matériel", container); ("Nombre", quantity) ].

(** A line of a Paprec export without weight whose container cell holds
    a number. *)
Definition sample_weightless_container_row : series :=
  [ ("Site", VStr "Site A"); ("Poids", VInt 0);
    ("Matériel", VInt 660); ("Nombre", VInt 2) ].

(** An export of two lines; the second has a weight that is not a number
    and a site without mapping. *)
Definition sample_frame : frame :=
  {| f_nrows := 2;
     f_columns :=
       [ ("Site", [VStr "Paris"; VStr "Lyon"]);
         ("Matière", [VStr "papier"; VStr "verre"]);
         ("Poids", [VFloat f64_2_5; VInt 3]);
         ("Code traitement", [VStr "R3"; VStr "D5"]) ] |}.

Definition sample_bad_frame : frame :=
  {| f_nrows := 2;
     f_columns :=
       [ ("Site", [VStr "Lyon"; VStr "Nice"]);
         ("Poids", [VFloat f64_2_5; VStr "abc"]) ] |}.

Definition sample_upload (name : string) (df : frame) : upload :=
  {| up_name := name;
     read_csv_semicolon := Raise "not a delimited text";
     read_csv_comma := Raise "not a delimited text";
     sheet_names := Ok ["Feuil1"];
     read_excel_raw := fun _ => Ok [];
     read_excel := fun _ _ => Ok df |}.

(* ================================================================== *)
(** ** Vocabulary of the further properties *)
(* ================================================================== *)

(** A frame is well formed when each column has one cell per row. *)
Definition well_formed (df : frame) : Prop :=
  Forall (fun lc => List.length (snd lc) = f_nrows df) (f_columns df).

(** The total number of rows of a list of frames. *)
Definition total_rows (dfs : list frame) : nat :=
  fold_right (fun df n => (f_nrows df + n)%nat) O dfs.

Section MappingVocabulary.
Context `{PyRuntime}.

(** A candidate header matches a column when its lower-cased form occurs
    in the lower-cased column name. *)
Definition header_matches (name col : string) : bool :=
  Str.contains (str_lower name) (str_lower col).

(** The rows of a mapping sheet that the mask of a pattern selects; none
    when the sheet has no provider column or the mask raises. *)
Definition selected_rows {A} (df : sheet A) (formule : A -> value)
  (pattern : string) : list A :=
  match provider_column df formule with
  | Ok column =>
      match str_contains pattern column with
      | Ok mask => select_rows mask (sh_rows df)
      | Raise _ => []
      end
  | Raise _ => []
  end.

Definition site_rows_for (self : ETLProcessor) (pattern : string)
  : list site_row :=
  selected_rows (site_df self) s_formule pattern.

Definition dechet_rows_for (self : ETLProcessor) (pattern : string)
  : list dechet_row :=
  selected_rows (dechet_df self) d_formule pattern.

(** A provider cell that a pattern selects: a string and, when the
    pattern is plain and both are ASCII, one in which an alternative of
    the pattern occurs, letter case apart. *)
Definition provider_selected (pattern : string) (v : value) : Prop :=
  exists s, v = VStr s /\
    (plain_pattern pattern = true -> Str.is_ascii pattern = true ->
     Str.is_ascii s = true -> re_search_nocase pattern s = true).

(** The key and the record [_get_site_mapping] stores for a row of the
    sheet "Site". *)
Definition site_row_key (row : site_row) : string :=
  str_lower (str_strip (py_str (s_site_prest row))).

Definition site_row_info (row : site_row) : site_info :=
  {| nom_site := s_nom_site_urbyn row;
     code_prestation := s_code_prestation row;
     si_prestataire := s_formule row |}.

(** A selected row of the sheet "Site" that [_get_site_mapping] stores:
    one with a provider-side site name. *)
Definition site_row_used (row : site_row) : bool := notna (s_site_prest row).

(** The key [_get_dechet_mapping] stores a row of the sheet "Déchet"
    under. *)
Definition dechet_row_key (row : dechet_row) : string :=
  str_lower (str_strip (py_str (d_prest row))).

(** A selected row of "Déchet" that maps a provider-side name, and one
    that sets the default. *)
Definition dechet_row_maps (row : dechet_row) : bool :=
  (notna (d_prest row) && notna (d_urbyn row))%bool.

Definition dechet_row_default (row : dechet_row) : bool :=
  (isna (d_prest row) && notna (d_urbyn row))%bool.

End MappingVocabulary.

(** The last element of a list that satisfies a test. *)
Fixpoint find_last {A} (p : A -> bool) (l : list A) : option A :=
  match l with
  | [] => None
  | x :: r =>
      match find_last p r with
      | Some y => Some y
      | None => if p x then Some x else None
      end
  end.

Section WasteVocabulary.
Context `{PyRuntime}.

(** A provider-side waste value that [_map_dechet] treats as blank. *)
Definition blank_waste (v : value) : bool :=
  (isna v || String.eqb (str_strip (py_str v)) EmptyString)%bool.

(** The canonical waste name the selected rows of the sheet "Déchet" give
    a provider-side value: the last row that maps the value's key, else
    the last default row, else nothing. *)
Definition sheet_waste (rows : list dechet_row) (v : value) : value :=
  let default :=
    match find_last dechet_row_default rows with
    | Some r => d_urbyn r
    | None => VNone
    end in
  if blank_waste v then default
  else
    match find_last
            (fun r => (dechet_row_maps r
                       && String.eqb (dechet_row_key r)
                            (str_lower (str_strip (py_str v))))%bool) rows with
    | Some r => d_urbyn r
    | None => default
    end.

End WasteVocabulary.

(** The keys of the dictionary [_process_row] returns, in its order. *)
Definition OUTPUT_FIELDS : list string :=
  [ "Libellé"; "Groupe"; "Code site"; "Nom du site"; "Nom du client";
    "Type de porteur"; "Commentaire mouvement"; "Code de la prestation";
    "Prestataire"; "Groupe de Prestataire"; "Type de prestataire";
    "Périodicité"; "Date début registre"; "Date fin registre";
    "Code déchet prestataire"; "Déchet fin"; "Déchets agrégé";
    "Déchets prestataire"; "Masse totale (kg)"; "Nombre de contenants";
    "Volume contenant (L)"; "Type de contenant"; "Volume total (L)";
    "Nature de quantités collectées"; "Qualité quantités";
    "Précision estimations des quantités"; "Traitement";
    "Traitement prestataire"; "Code traitement";
    "Code traitement prestataire"; "Qualité du Traitement";
    "N° de BSD/BSDD"; "N° de recépissé"; "Transporteur";
    "Transporteur prestataire"; "Plaque d'immatriculation";
    "Exutoire intermédiaire"; "Exutoire intermédiaire prestataire";
    "Qualité de l'exutoire intermédiaire"; "Exutoire final";
    "Exutoire final prestataire"; "Qualité de l'exutoire final";
    "Période de clôture"; "Statut du mouvement"; "Commentaire" ].

Section RunVocabulary.
Context `{PyRuntime}.

(** "Read and combine files": the input frame of one call of [process]. *)
Definition read_input (files : list upload) (prestataire : string)
  : outcome frame :=
  match read_files files prestataire with
  | Raise e => Raise e
  | Ok dfs => combine dfs
  end.

(** The pattern, the columns and the lookups one call of [process] works
    with. *)
Definition run_pattern (prestataire : string) : string :=
  config_pattern (get_config prestataire) (str_lower prestataire).

Definition run_cols (prestataire : string) (df_input : frame)
  : dict (option string) :=
  detect_columns (get_config prestataire) df_input.

(** The lookups of that call; empty when the mask of the sheet raises,
    in which case the call fails before it uses them. *)
Definition run_site_lookup (self : ETLProcessor) (prestataire : string)
  : dict site_info :=
  match _get_site_mapping self (run_pattern prestataire) with
  | Ok site_lookup => site_lookup
  | Raise _ => []
  end.

Definition run_dechet_mapping (self : ETLProcessor) (prestataire : string)
  : dict value * value :=
  match _get_dechet_mapping self (run_pattern prestataire) with
  | Ok dm => dm
  | Raise _ => ([], VNone)
  end.

(** "Get mappings": the lookups of that call, or the exception the mask
    of a mapping sheet raises. *)
Definition run_mappings (self : ETLProcessor) (prestataire : string)
  : outcome (dict value * value * dict site_info) :=
  match _get_dechet_mapping self (run_pattern prestataire) with
  | Raise e => Raise e
  | Ok dm =>
      match _get_site_mapping self (run_pattern prestataire) with
      | Raise e => Raise e
      | Ok site_lookup => Ok (fst dm, snd dm, site_lookup)
      end
  end.

(** What [_process_row] returns or raises for a row of that call. *)
Definition run_row (self : ETLProcessor) (prestataire : string)
  (df_input : frame) (row : series) : outcome (option (dict value)) :=
  row_outcome self row (run_cols prestataire df_input) prestataire
    (get_config prestataire)
    (fst (run_dechet_mapping self prestataire))
    (snd (run_dechet_mapping self prestataire))
    (run_site_lookup self prestataire).

(** The warnings of a row of that call. *)
Definition run_row_warnings (self : ETLProcessor) (prestataire : string)
  (df_input : frame) (row : series) : list string :=
  row_warnings row (run_cols prestataire df_input)
    (run_site_lookup self prestataire).

End RunVocabulary.

(** The rows kept by a list of row outcomes, and the number dropped. *)
Definition kept_rows (results : list (option (dict value)))
  : list (dict value) :=
  flat_map (fun r => match r with Some out => [out] | None => [] end) results.

Definition dropped_count (results : list (option (dict value))) : nat :=
  List.length (filter (fun r => match r with None => true | Some _ => false end)
                      results).

Section LoadingVocabulary.
Context `{PyRuntime}.

(** A row of "Paramètres" that [dropna] keeps, and its key. *)
Definition param_row_kept (row : param_row) : bool :=
  (notna (p_category row) && notna (p_name row))%bool.

Definition param_row_key (row : param_row) : string :=
  str_lower (str_strip (py_str (p_name row))).

(** The entry [_load_etl_mappings] stores for a row of "Traitement
    générique". *)
Definition traitement_row_entry (row : series) : traitement_entry :=
  {| t_code := dict_get_value "Code traitement retraité" row;
     t_traitement := dict_get_value "Traitement" row |}.

End LoadingVocabulary.

(** ** Further sample data *)

Definition sample_site_sheet_row : site_row :=
  {| s_formule := VStr "VEOLIA"; s_site_prest := VStr "Paris";
     s_nom_site_urbyn := VStr "PAR01 - Paris HQ";
     s_code_prestation := VStr "P1" |}.

(** A sheet "Site" with two rows for the same Veolia site name, a row of
    another provider and a row without provider. *)
Definition sample_site_sheet : list site_row :=
  [ sample_site_sheet_row;
    {| s_formule := VStr "Suez"; s_site_prest := VStr "Lyon";
       s_nom_site_urbyn := VStr "LYO01 - Lyon"; s_code_prestation := VStr "L1" |};
    {| s_formule := VStr "Veolia Eau"; s_site_prest := VStr " PARIS ";
       s_nom_site_urbyn := VStr "PAR02 - Paris Sud";
       s_code_prestation := VStr "P2" |};
    {| s_formule := NaN; s_site_prest := VStr "Nice";
       s_nom_site_urbyn := VStr "NIC01 - Nice"; s_code_prestation := VNone |} ].

Definition sample_site_paris_sud : site_info :=
  {| nom_site := VStr "PAR02 - Paris Sud"; code_prestation := VStr "P2";
     si_prestataire := VStr "Veolia Eau" |}.

Definition sample_sites_engine : ETLProcessor :=
  {| template_columns := ["Nom du site"];
     dechet_df := {| sh_columns := DECHET_COLUMNS; sh_rows := [] |};
     dechet_to_agrege := [];
     traitement_lookup := [];
     site_df := {| sh_columns := SITE_COLUMNS; sh_rows := sample_site_sheet |} |}.

(** A sheet "Déchet" with two rows for the same Veolia name, a default
    row for Veolia and a row of another provider. *)
Definition sample_dechet_sheet : list dechet_row :=
  [ {| d_formule := VStr "Veolia"; d_prest := VStr "Papier";
       d_urbyn := VStr "Papier" |};
    {| d_formule := VStr "Veolia"; d_prest := NaN;
       d_urbyn := VStr "DIB" |};
    {| d_formule := VStr "VEOLIA"; d_prest := VStr " papier ";
       d_urbyn := VStr "Papier/Carton" |};
    {| d_formule := VStr "Suez"; d_prest := VStr "Verre";
       d_urbyn := VStr "Verre" |} ].

Definition sample_waste_engine : ETLProcessor :=
  {| template_columns := ["Déchet fin"];
     dechet_df :=
       {| sh_columns := DECHET_COLUMNS; sh_rows := sample_dechet_sheet |};
     dechet_to_agrege := [];
     traitement_lookup := [];
     site_df :=
       {| sh_columns := SITE_COLUMNS; sh_rows := [sample_site_sheet_row] |} |}.

Definition sample_files : list upload :=
  [sample_upload "veolia_2024.xlsx" sample_frame].

Definition sample_two_files : list upload :=
  [ sample_upload "veolia_janvier.xlsx" sample_frame;
    sample_upload "veolia_fevrier.xlsx" sample_bad_frame ].

Definition sample_bad_files : list upload :=
  [sample_upload "veolia_2024.xlsx" sample_bad_frame].

(** A delimited text whose semicolon parse has a single column. *)
Definition sample_csv_upload : upload :=
  {| up_name := "export.csv";
     read_csv_semicolon :=
       Ok {| f_nrows := 1; f_columns := [("Nom,Date,Poids", [VStr "a,b,c"])] |};
     read_csv_comma := Ok sample_frame;
     sheet_names := Raise "File is not a zip file";
     read_excel_raw := fun _ => Raise "File is not a zip file";
     read_excel := fun _ _ => Raise "File is not a zip file" |}.

(** A mapping workbook with two rows for the same fine waste name and a
    row of "Traitement générique" without key. *)
Definition sample_param_sheet : list param_row :=
  [ {| p_category := VStr "Recyclable"; p_name := VStr "Papier/Carton" |};
    {| p_category := NaN; p_name := VStr "Verre" |};
    {| p_category := VStr " Papiers "; p_name := VStr " papier/carton" |} ].

Definition sample_traitement_sheet : list series :=
  [ [ ("Concatener déchet & code de traitement prestataire",
       VStr "RecyclableR3");
      ("Code traitement retraité", VStr "R3");
      ("Traitement", VStr "Recyclage matière") ];
    [ ("Concatener déchet & code de traitement prestataire", NaN);
      ("Code traitement retraité", VStr "D10");
      ("Traitement", VStr "Incinération") ] ].

Definition sample_workbook : etl_workbook :=
  {| sheet_dechet :=
       Ok {| sh_columns := DECHET_COLUMNS; sh_rows := sample_dechet_sheet |};
     sheet_parametres := Ok sample_param_sheet;
     sheet_traitement := Ok sample_traitement_sheet;
     sheet_site :=
       Ok {| sh_columns := SITE_COLUMNS;
             sh_rows := [sample_site_sheet_row] |} |}.

Definition sample_loaded_engine : ETLProcessor :=
  {| template_columns := ["Nom du site"];
     dechet_df :=
       {| sh_columns := DECHET_COLUMNS; sh_rows := sample_dechet_sheet |};
     dechet_to_agrege :=
       load_agrege (H := sample_runtime) sample_param_sheet [];
     traitement_lookup :=
       load_traitement (H := sample_runtime) sample_traitement_sheet [];
     site_df :=
       {| sh_columns := SITE_COLUMNS; sh_rows := [sample_site_sheet_row] |} |}.

(* ================================================================== *)
(** * Properties *)
(* ================================================================== *)

(** ** The runtime on ASCII text *)

Lemma lower_char_ascii (c : ascii) :
  Nat.ltb (nat_of_ascii (Str.lower_char c)) 128 = Nat.ltb (nat_of_ascii c) 128.
Proof. destruct c as [[] [] [] [] [] [] [] []]; reflexivity. Qed.

Lemma is_ascii_lower (s : string) :
  Str.is_ascii (Str.lower s) = Str.is_ascii s.
Proof.
  induction s as [|c r IH]; [reflexivity|].
  simpl. now rewrite lower_char_ascii, IH.
Qed.




Section RuntimeFacts.
Context `{PyRuntime}.

Lemma str_strip_empty : str_strip EmptyString = EmptyString.
Proof. now rewrite str_strip_ascii. Qed.

Lemma str_lower_empty : str_lower EmptyString = EmptyString.
Proof. now rewrite str_lower_ascii. Qed.


(** The key [s.lower().strip()] of an ASCII text. *)
Lemma ascii_lower_strip (s : string) :
  Str.is_ascii s = true ->
  str_strip (str_lower s) = Str.strip (Str.lower s).
Proof.
  intros Hs. rewrite (str_lower_ascii s Hs).
  apply str_strip_ascii. now rewrite is_ascii_lower.
Qed.

End RuntimeFacts.

(** A row that the mask selects has its bit set. *)
Lemma select_rows_In {A} (P : A -> bool -> Prop) (rows : list A)
  (mask : list bool) (r : A) :
  Forall2 P rows mask -> In r (select_rows mask rows) -> P r true.
Proof.
  intros HF. induction HF as [|x b rows' mask' Hx HF IH]; [intros []|].
  simpl. destruct b.
  - intros [<-|Hin]; [exact Hx|exact (IH Hin)].
  - exact IH.
Qed.

Lemma Forall2_map_l {A B} (f : A -> B) (P : B -> bool -> Prop)
  (rows : list A) (mask : list bool) :
  Forall2 P (map f rows) mask -> Forall2 (fun r b => P (f r) b) rows mask.
Proof.
  revert mask. induction rows as [|x rows IH]; intros mask HF;
    inversion HF; subst; constructor; auto.
Qed.


(** ** Dictionaries *)

Section DictFacts.
Context {V : Type}.

Lemma dict_get_set_same (k : string) (v : V) (d : dict V) :
  dict_get k (dict_set k v d) = Some v.
Proof.
  induction d as [|[k' v'] d IH]; simpl.
  - now rewrite String.eqb_refl.
  - destruct (String.eqb k k') eqn:E; simpl.
    + now rewrite String.eqb_refl.
    + now rewrite E.
Qed.

Lemma dict_get_set_other (k k' : string) (v : V) (d : dict V) :
  k <> k' -> dict_get k' (dict_set k v d) = dict_get k' d.
Proof.
  intros Hne. induction d as [|[k0 v0] d IH]; simpl.
  - destruct (String.eqb k' k) eqn:E; [|reflexivity].
    apply String.eqb_eq in E. congruence.
  - destruct (String.eqb k k0) eqn:E; simpl.
    + apply String.eqb_eq in E. subst k0.
      destruct (String.eqb k' k) eqn:E'; [|reflexivity].
      apply String.eqb_eq in E'. congruence.
    + now rewrite IH.
Qed.

Lemma dict_get_keys (k : string) (d : dict V) :
  existsb (String.eqb k) (map fst d)
  = match dict_get k d with Some _ => true | None => false end.
Proof.
  induction d as [|[k' v'] d IH]; simpl; [reflexivity|].
  destruct (String.eqb k k'); simpl; [reflexivity|exact IH].
Qed.

Lemma dict_get_tabulate (g : string -> V) (labels : list string) (k : string) :
  dict_get k (map (fun l => (l, g l)) labels)
  = if existsb (String.eqb k) labels then Some (g k) else None.
Proof.
  induction labels as [|l r IH]; simpl; [reflexivity|].
  destruct (String.eqb k l) eqn:E; simpl.
  - apply String.eqb_eq in E. now subst.
  - exact IH.
Qed.

Lemma map_fst_tabulate (g : string -> V) (labels : list string) :
  map fst (map (fun l => (l, g l)) labels) = labels.
Proof.
  induction labels as [|l r IH]; simpl; [reflexivity|now rewrite IH].
Qed.

End DictFacts.

Lemma existsb_eqb_In (k : string) (l : list string) :
  existsb (String.eqb k) l = true <-> In k l.
Proof.
  rewrite existsb_exists. split.
  - intros [x [Hin E]]. apply String.eqb_eq in E. now subst.
  - intros Hin. exists k. split; [assumption|apply String.eqb_refl].
Qed.

(** ** Output assembly *)

Lemma has_column_get (col : string) (df : frame) :
  has_column col df
  = match dict_get col (f_columns df) with Some _ => true | None => false end.
Proof. unfold has_column, columns. apply dict_get_keys. Qed.

Lemma add_missing_nrows (template : list string) (df : frame) :
  f_nrows (add_missing template df) = f_nrows df.
Proof.
  revert df. induction template as [|c r IH]; intros df; simpl; [reflexivity|].
  destruct (negb (has_column c df)); rewrite IH; reflexivity.
Qed.

Lemma add_missing_get (template : list string) (df : frame) (l : string) :
  dict_get l (f_columns (add_missing template df))
  = match dict_get l (f_columns df) with
    | Some c => Some c
    | None =>
        if existsb (String.eqb l) template
        then Some (List.repeat VNone (f_nrows df))
        else None
    end.
Proof.
  revert df. induction template as [|c r IH]; intros df; simpl.
  - destruct (dict_get l (f_columns df)); reflexivity.
  - rewrite has_column_get.
    destruct (dict_get c (f_columns df)) as [cv|] eqn:Ec; simpl negb; cbv iota.
    + rewrite IH. destruct (dict_get l (f_columns df)) eqn:El; [reflexivity|].
      destruct (String.eqb l c) eqn:E; simpl; [|reflexivity].
      apply String.eqb_eq in E. subst. congruence.
    + rewrite IH. simpl.
      destruct (String.eqb l c) eqn:E.
      * apply String.eqb_eq in E. subst l.
        rewrite dict_get_set_same, Ec. reflexivity.
      * assert (Hne : c <> l).
        { intros ->. rewrite String.eqb_refl in E. discriminate. }
        rewrite (dict_get_set_other _ _ _ _ Hne). simpl.
        destruct (dict_get l (f_columns df)); reflexivity.
Qed.

Lemma select_columns_total (cols : dict (list value)) (labels : list string) :
  (forall l, In l labels -> dict_get l cols <> None) ->
  select_columns cols labels
  = Ok (map (fun l => (l, match dict_get l cols with
                          | Some c => c
                          | None => []
                          end)) labels).
Proof.
  induction labels as [|l r IH]; intros Hall; simpl; [reflexivity|].
  destruct (dict_get l cols) as [c|] eqn:E.
  - rewrite IH; [reflexivity|]. intros l' Hin. apply Hall. now right.
  - exfalso. apply (Hall l); [now left|assumption].
Qed.

Lemma add_labels_spec (new acc : list string) (k : string) :
  existsb (String.eqb k) (add_labels new acc)
  = (existsb (String.eqb k) acc || existsb (String.eqb k) new)%bool.
Proof.
  revert acc. induction new as [|l r IH]; intros acc; simpl.
  - now rewrite orb_false_r.
  - destruct (existsb (String.eqb l) acc) eqn:El; rewrite IH.
    + destruct (String.eqb k l) eqn:E; simpl; [|reflexivity].
      apply String.eqb_eq in E. subst. rewrite El. reflexivity.
    + rewrite existsb_app. simpl. rewrite orb_false_r.
      now rewrite orb_assoc.
Qed.

Lemma record_labels_spec (records : list (dict value)) (acc : list string)
  (k : string) :
  existsb (String.eqb k)
    (fold_left (fun acc r => add_labels (map fst r) acc) records acc)
  = (existsb (String.eqb k) acc || existsb (dict_has k) records)%bool.
Proof.
  revert acc. induction records as [|r rs IH]; intros acc; simpl.
  - now rewrite orb_false_r.
  - rewrite IH, add_labels_spec. unfold dict_has at 2.
    rewrite dict_get_keys. now rewrite orb_assoc.
Qed.

Lemma DataFrame_get (records : list (dict value)) (col : string) :
  dict_get col (f_columns (DataFrame records))
  = if existsb (dict_has col) records
    then Some (map (cell col) records) else None.
Proof.
  unfold DataFrame. simpl f_columns.
  rewrite (dict_get_tabulate
             (fun l => map (fun r => match dict_get l r with
                                     | Some v => v
                                     | None => NaN
                                     end) records)).
  rewrite record_labels_spec. simpl. reflexivity.
Qed.

(** Assembly never raises, and yields the template's columns. *)
Lemma assemble_ok (template : list string) (output_rows : list (dict value)) :
  assemble template output_rows
  = Ok {| f_nrows := List.length output_rows;
          f_columns :=
            map (fun l => (l, expected_column l output_rows)) template |}.
Proof.
  unfold assemble, select.
  rewrite select_columns_total.
  - rewrite add_missing_nrows. simpl f_nrows. do 2 f_equal.
    apply map_ext_in. intros l Hin. f_equal.
    rewrite add_missing_get, DataFrame_get. unfold expected_column.
    destruct (existsb (dict_has l) output_rows); [reflexivity|].
    apply existsb_eqb_In in Hin. rewrite Hin. reflexivity.
  - intros l Hin. rewrite add_missing_get.
    apply existsb_eqb_In in Hin. rewrite Hin.
    destruct (dict_get l (f_columns (DataFrame output_rows))); discriminate.
Qed.

Section ProcessFacts.
Context `{PyRuntime}.

(** The two shapes of the result of [process]. *)
Lemma process_cases (self : ETLProcessor) (log : list string)
  (files : list upload) (prestataire : string) :
  (exists output_rows skipped log' df,
      collect_rows self files prestataire [] = (Ok (output_rows, skipped), log')
      /\ assemble (template_columns self) output_rows = Ok df
      /\ process self log files prestataire
         = {| success := true; error := None; data := Some df;
              rows_processed := f_nrows df; rows_skipped := skipped;
              warnings := log' |})
  \/ (exists e log',
        process_body self files prestataire [] = (Raise e, log')
        /\ process self log files prestataire
           = {| success := false; error := Some e; data := None;
                rows_processed := O; rows_skipped := O; warnings := log' |}).
Proof.
  unfold process, process_body, bind.
  destruct (collect_rows self files prestataire []) as [[[rows k]|e] w] eqn:E.
  - pose proof (assemble_ok (template_columns self) rows) as Ha.
    left. exists rows, k, w. eexists. split; [reflexivity|].
    split; [exact Ha|]. unfold lift. rewrite Ha. reflexivity.
  - right. exists e, w. split; reflexivity.
Qed.

End ProcessFacts.

(** C1. Every successful call of [process] returns a table whose columns
    are the template's header columns, in the template's order: a template
    column that no produced row has holds only [None], a template column
    the produced rows have holds their values, and a produced field the
    template does not name is not in the table. *)
Theorem process_output_follows_template `{PyRuntime}
  (self : ETLProcessor) (log : list string) (files : list upload)
  (prestataire : string) :
  success (process self log files prestataire) = true ->
  exists output_rows skipped log' df,
    collect_rows self files prestataire [] = (Ok (output_rows, skipped), log')
    /\ data (process self log files prestataire) = Some df
    /\ columns df = template_columns self
    /\ f_nrows df = List.length output_rows
    /\ (forall col, In col (template_columns self) ->
          dict_get col (f_columns df)
          = Some (expected_column col output_rows))
    /\ (forall col, ~ In col (template_columns self) ->
          dict_get col (f_columns df) = None).
Proof.
  intros Hs.
  destruct (process_cases self log files prestataire)
    as [(rows & k & w & df & Hc & Ha & Hp)|(e & w & _ & Hp)].
  - exists rows, k, w, df. rewrite Hp. simpl.
    rewrite assemble_ok in Ha. injection Ha as <-.
    split; [exact Hc|]. split; [reflexivity|].
    unfold columns. simpl.
    split; [apply map_fst_tabulate|]. split; [reflexivity|].
    split; intros col Hin;
      rewrite (dict_get_tabulate (fun l => expected_column l rows)).
    + apply existsb_eqb_In in Hin. now rewrite Hin.
    + destruct (existsb (String.eqb col) (template_columns self)) eqn:E;
        [|reflexivity].
      apply existsb_eqb_In in E. contradiction.
  - rewrite Hp in Hs. discriminate.
Qed.

(** A Veolia export of two lines on the sample template: the table has
    the four template columns, and 'Référence interne', which no produced
    row has, holds [None] twice. *)
Lemma process_output_follows_template_witness :
  exists df,
    data (process (H := sample_runtime) sample_engine []
            [sample_upload "veolia_2024.xlsx" sample_frame] "Veolia")
    = Some df
    /\ columns df
       = ["Nom du site"; "Masse totale (kg)"; "Référence interne";
          "Code traitement"]
    /\ dict_get "Référence interne" (f_columns df) = Some [VNone; VNone]
    /\ dict_get "Groupe" (f_columns df) = None.
Proof.
  destruct (process_output_follows_template (H := sample_runtime)
              sample_engine []
              [sample_upload "veolia_2024.xlsx" sample_frame] "Veolia"
              eq_refl)
    as (rows & k & w & df & Hc & Hd & Hcols & Hn & Hin & Hout).
  exists df. split; [exact Hd|]. split; [exact Hcols|].
  vm_compute in Hc. injection Hc as <- _ _.
  split.
  - rewrite (Hin "Référence interne"); [reflexivity|]. simpl. tauto.
  - apply Hout. simpl. intros [E|[E|[E|[E|[]]]]]; discriminate.
Defined.

(** ** Row processing *)

Section RowFacts.
Context `{PyRuntime}.

Lemma safe_get_raw (row : series) (column : option string) (default : value) :
  _safe_get row column default
  = if isna (raw_cell row column) then default else raw_cell row column.
Proof. destruct column; reflexivity. Qed.

Lemma safe_get_notna (row : series) (column : option string) (default : value) :
  isna default = false -> isna (_safe_get row column default) = false.
Proof.
  intros Hd. rewrite safe_get_raw.
  destruct (isna (raw_cell row column)) eqn:E; assumption.
Qed.

(** [_process_row] is its pure outcome together with the log extended by
    the row's warnings; the warnings are appended whether the row is
    returned, skipped or raises. *)
Lemma process_row_factors (self : ETLProcessor) (row : series)
  (cols : dict (option string)) (prestataire : string) (config : config)
  (dechet_lookup : dict value) (default_dechet : value)
  (site_lookup : dict site_info) (log : list string) :
  _process_row self row cols prestataire config dechet_lookup default_dechet
    site_lookup log
  = (row_outcome self row cols prestataire config dechet_lookup
       default_dechet site_lookup,
     (log ++ row_warnings row cols site_lookup)%list).
Proof.
  unfold _process_row, row_outcome, row_warnings, site_info_of, site_name_of,
    code_prest_of, weight_of, container_of, quantity_of, transporter_of,
    site_warning, site_column, waste_column, code_column, quantity_column.
  set (site_name := _safe_get row _ (VStr EmptyString)).
  unfold bind at 1.
  destruct (_map_site site_name site_lookup) as [info|];
    unfold bind, warn, ret, lift; cbv beta iota;
    rewrite ?app_nil_r;
    (destruct (_map_traitement self _ _) as [code_mapped traitement];
     cbv beta iota; simpl fst; simpl snd;
     match goal with
     | |- context [if ?c then _ else _] => destruct c
     end; [reflexivity|];
     destruct (convert_weight config _); [|reflexivity];
     destruct (container_info _ prestataire) as [[vol typ]|]; [|reflexivity];
     simpl fst; simpl snd;
     destruct (volume_total vol _); reflexivity).
Qed.

End RowFacts.

(** ** The row loop and the log *)

Section LoopFacts.
Context `{PyRuntime}.
Variables (self : ETLProcessor) (cols : dict (option string))
  (prestataire : string) (config : config) (dechet_lookup : dict value)
  (default_dechet : value) (site_lookup : dict site_info).

(** One turn of the loop. *)
Lemma process_rows_step (row : series) (rows : list series)
  (output_rows : list (dict value)) (skipped : nat) (log : list string) :
  process_rows self (row :: rows) cols prestataire config dechet_lookup
    default_dechet site_lookup output_rows skipped log
  = let log1 := (log ++ row_warnings row cols site_lookup)%list in
    match row_outcome self row cols prestataire config dechet_lookup
            default_dechet site_lookup with
    | Ok (Some out) =>
        process_rows self rows cols prestataire config dechet_lookup
          default_dechet site_lookup (output_rows ++ [out])%list skipped log1
    | Ok None =>
        process_rows self rows cols prestataire config dechet_lookup
          default_dechet site_lookup output_rows (S skipped) log1
    | Raise e => (Raise e, log1)
    end.
Proof.
  simpl process_rows. unfold bind.
  rewrite process_row_factors.
  destruct (row_outcome _ _ _ _ _ _ _ _) as [[out|]|e]; reflexivity.
Qed.

(** The log after the loop is the log before it followed by the warnings
    of the rows reached. *)
Lemma process_rows_log (rows : list series)
  (output_rows : list (dict value)) (skipped : nat) (log : list string) :
  snd (process_rows self rows cols prestataire config dechet_lookup
         default_dechet site_lookup output_rows skipped log)
  = (log ++ flat_map (fun row => row_warnings row cols site_lookup)
              (rows_reached
                 (fun row => row_outcome self row cols prestataire config
                               dechet_lookup default_dechet site_lookup)
                 rows))%list.
Proof.
  revert output_rows skipped log.
  induction rows as [|row rows IH]; intros output_rows skipped log.
  - simpl. now rewrite app_nil_r.
  - rewrite process_rows_step. cbv zeta. simpl rows_reached.
    destruct (row_outcome self row cols prestataire config dechet_lookup
                default_dechet site_lookup) as [[out|]|e]; simpl flat_map.
    + rewrite IH. now rewrite app_assoc.
    + rewrite IH. now rewrite app_assoc.
    + simpl. now rewrite app_nil_r.
Qed.

End LoopFacts.

Section ProcessLog.
Context `{PyRuntime}.

Lemma collect_rows_log (self : ETLProcessor) (files : list upload)
  (prestataire : string) :
  snd (collect_rows self files prestataire [])
  = warnings_so_far self files prestataire.
Proof.
  unfold collect_rows, warnings_so_far, prepare, bind, lift.
  destruct (_get_dechet_mapping self _)
    as [[dechet_lookup default_dechet]|e]; [|reflexivity].
  destruct (_get_site_mapping self _) as [site_lookup|e]; [|reflexivity].
  destruct (read_files files prestataire) as [dfs|e]; [|reflexivity].
  destruct (combine dfs) as [df_input|e]; [|reflexivity].
  rewrite process_rows_log. reflexivity.
Qed.

Lemma process_body_log (self : ETLProcessor) (files : list upload)
  (prestataire : string) :
  snd (process_body self files prestataire [])
  = warnings_so_far self files prestataire.
Proof.
  unfold process_body, bind. rewrite <- collect_rows_log.
  destruct (collect_rows self files prestataire []) as [[[rows k]|e] w];
    [|reflexivity].
  unfold lift. rewrite assemble_ok. reflexivity.
Qed.

(** The log a call starts from plays no part in its result. *)
Lemma process_resets_log (self : ETLProcessor) (log : list string)
  (files : list upload) (prestataire : string) :
  process self log files prestataire = process self [] files prestataire.
Proof. reflexivity. Qed.

Lemma process_warnings (self : ETLProcessor) (log : list string)
  (files : list upload) (prestataire : string) :
  warnings (process self log files prestataire)
  = warnings_so_far self files prestataire.
Proof.
  rewrite <- process_body_log. unfold process.
  destruct (process_body self files prestataire []) as [[[df k]|e] w];
    reflexivity.
Qed.

End ProcessLog.

(** C2. [process] always returns: when its body raises, with the message
    [e], the value returned is the failure dictionary carrying [e], no
    table, both counts at zero and the warnings this call appended before
    the fault, whatever the log held before the call; otherwise the
    success flag is set. *)
Theorem process_fault_is_returned `{PyRuntime}
  (self : ETLProcessor) (log : list string) (files : list upload)
  (prestataire : string) :
  match process_body self files prestataire [] with
  | (Raise e, _) =>
      process self log files prestataire
      = failure e (warnings_so_far self files prestataire)
  | (Ok _, _) => success (process self log files prestataire) = true
  end.
Proof.
  pose proof (process_body_log self files prestataire) as Hlog.
  unfold process.
  destruct (process_body self files prestataire []) as [[[df k]|e] w].
  - reflexivity.
  - simpl in Hlog. subst w. reflexivity.
Qed.

(** Faults of the stages on sample inputs: a sheet "Déchet" without the
    provider column; a provider name that is not a regular expression,
    which stops the call at the mask of the sheet "Déchet"; no file at
    all; a file the spreadsheet library cannot open; and a weight that is
    not a number on the second line, where the log holds the warnings of
    both lines reached. *)
Example process_fault_no_provider_column :
  process (H := sample_runtime)
    {| template_columns := ["Nom du site"];
       dechet_df := {| sh_columns := ["Prestataire"]; sh_rows := [] |};
       dechet_to_agrege := [];
       traitement_lookup := [];
       site_df := {| sh_columns := SITE_COLUMNS; sh_rows := [] |} |}
    ["stale"] [sample_upload "veolia.xlsx" sample_frame] "Veolia"
  = failure "'Nom prestataire (FORMULE)'" [].
Proof. reflexivity. Qed.

Example process_fault_in_mapping :
  process (H := sample_runtime) sample_engine ["stale"]
    [sample_upload "veolia.xlsx" sample_frame] "*Inconnu"
  = failure "nothing to repeat at position 0" [].
Proof. reflexivity. Qed.

Example process_fault_no_file :
  process (H := sample_runtime) sample_engine ["stale"] [] "Veolia"
  = failure "list index out of range" [].
Proof. reflexivity. Qed.

Example process_fault_unreadable_file :
  process (H := sample_runtime) sample_engine ["stale"]
    [ {| up_name := "veolia.xlsx";
         read_csv_semicolon := Raise "not a delimited text";
         read_csv_comma := Raise "not a delimited text";
         sheet_names := Raise "File is not a zip file";
         read_excel_raw := fun _ => Raise "File is not a zip file";
         read_excel := fun _ _ => Raise "File is not a zip file" |} ]
    "Veolia"
  = failure "File is not a zip file" [].
Proof. reflexivity. Qed.

Example process_fault_in_second_row :
  process (H := sample_runtime) sample_engine ["stale"]
    [sample_upload "veolia.xlsx" sample_bad_frame] "Veolia"
  = failure "could not convert string to float: 'abc'"
      ["No site mapping for: 'Lyon'"; "No site mapping for: 'Nice'"].
Proof. vm_compute. reflexivity. Qed.

(** ** The fields of a returned row *)

Section OutputRowFields.
Context `{PyRuntime}.
Variables (site : site_info) (prestataire_name : value) (prestataire : string)
  (date_val waste_code dechet_fin dechets_agrege dechets_prest weight
   quantity : value) (volume_contenant : option Z)
  (type_contenant volume_tot traitement code_final code_prest bsd
   transporter exutoire : value).

Local Abbreviation out :=
  (output_row site prestataire_name prestataire date_val waste_code dechet_fin
     dechets_agrege dechets_prest weight quantity volume_contenant
     type_contenant volume_tot traitement code_final code_prest bsd
     transporter exutoire).

Lemma output_row_nom_du_site :
  dict_get "Nom du site" out = Some (nom_site site).
Proof. reflexivity. Qed.

Lemma output_row_code_prestation :
  dict_get "Code de la prestation" out = Some (code_prestation site).
Proof. reflexivity. Qed.

Lemma output_row_prestataire :
  dict_get "Prestataire" out = Some prestataire_name.
Proof. reflexivity. Qed.

Lemma output_row_masse :
  dict_get "Masse totale (kg)" out = Some weight.
Proof. reflexivity. Qed.

Lemma output_row_nombre :
  dict_get "Nombre de contenants" out = Some quantity.
Proof. reflexivity. Qed.

Lemma output_row_volume :
  dict_get "Volume contenant (L)" out
  = Some (value_of_volume volume_contenant).
Proof. reflexivity. Qed.

Lemma output_row_type :
  dict_get "Type de contenant" out = Some type_contenant.
Proof. reflexivity. Qed.

Lemma output_row_volume_total :
  dict_get "Volume total (L)" out = Some volume_tot.
Proof. reflexivity. Qed.

Lemma output_row_traitement :
  dict_get "Traitement" out = Some traitement.
Proof. reflexivity. Qed.

Lemma output_row_code_traitement :
  dict_get "Code traitement" out = Some code_final.
Proof. reflexivity. Qed.

End OutputRowFields.

(** ** Weight *)

(** The registry sets the strict-movement flag for two providers only. *)
Lemma bsdd_providers (prestataire : string) :
  cfg_bsdd_format (get_config prestataire) = true ->
  prestataire = "Screlec" \/ prestataire = "Trackdechet".
Proof.
  unfold get_config, PRESTATAIRE_CONFIG. simpl dict_get.
  repeat match goal with
         | |- context [String.eqb prestataire ?s] =>
             destruct (String.eqb prestataire s) eqn:?
         end;
    simpl; intros Hb; try discriminate.
  - left. now apply String.eqb_eq.
  - right. now apply String.eqb_eq.
Qed.

Section WeightFacts.
Context `{PyRuntime}.

Lemma weight_of_absent_or_zero (row : series) (cols : dict (option string)) :
  let w := raw_cell row (cols_get "weight" cols) in
  isna w = true \/ eq_zero w = true ->
  isna (weight_of row cols) = false
  /\ eq_zero (weight_of row cols) = true
  /\ truthy (weight_of row cols) = false.
Proof.
  cbv zeta. unfold weight_of. rewrite safe_get_raw.
  destruct (raw_cell row (cols_get "weight" cols)) as [|s|z|f|b|d];
    simpl; intros [Hc|Hc]; try discriminate; auto.
  - destruct (Z.eqb z 0); [auto|discriminate].
  - destruct f; simpl in *; try discriminate; auto.
  - destruct f; simpl in *; try discriminate; auto.
  - destruct b; simpl in *; try discriminate; auto.
Qed.

Lemma weight_of_number (row : series) (cols : dict (option string))
  (f : float64) :
  let w := raw_cell row (cols_get "weight" cols) in
  number_of w = Some f ->
  weight_of row cols = w /\ py_float w = Ok f /\ truthy w = negb (eq_zero w).
Proof.
  cbv zeta. unfold weight_of. rewrite safe_get_raw.
  destruct (raw_cell row (cols_get "weight" cols)) as [|s|z|g|b|d];
    simpl; try discriminate.
  - intros [= <-]. auto.
  - destruct g; simpl; try discriminate; intros [= <-]; auto.
Qed.

(** Outside Paprec the container steps find nothing and cannot raise. *)
Lemma container_info_other (container : value) (prestataire : string) :
  prestataire <> "Paprec" ->
  container_info container prestataire = Ok (None, VNone).
Proof.
  intros Hne. unfold container_info.
  destruct (String.eqb prestataire "Paprec") eqn:E.
  - apply String.eqb_eq in E. contradiction.
  - now rewrite andb_false_r.
Qed.

(** A strict-movement row whose weight is missing or zero is dropped. *)
Lemma bsdd_weightless_row_dropped (self : ETLProcessor) (row : series)
  (cols : dict (option string)) (prestataire : string) (config : config)
  (dechet_lookup : dict value) (default_dechet : value)
  (site_lookup : dict site_info) :
  let w := raw_cell row (cols_get "weight" cols) in
  cfg_bsdd_format config = true ->
  isna w = true \/ eq_zero w = true ->
  row_outcome self row cols prestataire config dechet_lookup default_dechet
    site_lookup = Ok None.
Proof.
  cbv zeta. intros Hb Hw.
  destruct (weight_of_absent_or_zero row cols Hw) as (_ & Hz & _).
  unfold row_outcome. rewrite Hb, Hz, orb_true_r. reflexivity.
Qed.

(** A row is dropped for that reason only. *)
Lemma row_dropped_only_weightless (self : ETLProcessor) (row : series)
  (cols : dict (option string)) (prestataire : string) (config : config)
  (dechet_lookup : dict value) (default_dechet : value)
  (site_lookup : dict site_info) :
  row_outcome self row cols prestataire config dechet_lookup default_dechet
    site_lookup = Ok None ->
  cfg_bsdd_format config = true /\ eq_zero (weight_of row cols) = true.
Proof.
  unfold row_outcome.
  destruct (cfg_bsdd_format config); simpl andb.
  - assert (Hn : isna (weight_of row cols) = false)
      by (apply safe_get_notna; reflexivity).
    rewrite Hn. simpl orb.
    destruct (eq_zero (weight_of row cols)); [auto|].
    destruct (convert_weight _ _); [|discriminate].
    destruct (container_info _ _); [|discriminate].
    destruct (volume_total _ _); discriminate.
  - destruct (convert_weight _ _); [|discriminate].
    destruct (container_info _ _); [|discriminate].
    destruct (volume_total _ _); discriminate.
Qed.

(** What a row that is kept holds as its mass, outside Paprec. *)
Lemma kept_row_outcome (self : ETLProcessor) (row : series)
  (cols : dict (option string)) (prestataire : string) (config : config)
  (dechet_lookup : dict value) (default_dechet : value)
  (site_lookup : dict site_info) (kg : value) :
  prestataire <> "Paprec" ->
  (cfg_bsdd_format config && (isna (weight_of row cols)
                              || eq_zero (weight_of row cols)))%bool = false ->
  convert_weight config (weight_of row cols) = Ok kg ->
  exists out,
    row_outcome self row cols prestataire config dechet_lookup default_dechet
      site_lookup = Ok (Some out)
    /\ dict_get "Masse totale (kg)" out = Some kg.
Proof.
  intros Hne Hskip Hkg. unfold row_outcome.
  rewrite Hskip, Hkg, (container_info_other _ _ Hne). simpl.
  eexists. split; reflexivity.
Qed.

(** If a row is returned, its mass is the converted weight. *)
Lemma returned_row_masse (self : ETLProcessor) (row : series)
  (cols : dict (option string)) (prestataire : string) (config : config)
  (dechet_lookup : dict value) (default_dechet : value)
  (site_lookup : dict site_info) (out : dict value) :
  row_outcome self row cols prestataire config dechet_lookup default_dechet
    site_lookup = Ok (Some out) ->
  exists kg, convert_weight config (weight_of row cols) = Ok kg
             /\ dict_get "Masse totale (kg)" out = Some kg.
Proof.
  unfold row_outcome.
  destruct (cfg_bsdd_format config && _)%bool; [discriminate|].
  destruct (convert_weight config (weight_of row cols)) as [kg|];
    [|discriminate].
  destruct (container_info _ _); [|discriminate].
  destruct (volume_total _ _); [|discriminate].
  intros [= <-]. exists kg. split; reflexivity.
Qed.

(** Only the container steps of Paprec can make a row of a numeric or
    missing weight raise. *)
Lemma row_raise_needs_paprec (self : ETLProcessor) (row : series)
  (cols : dict (option string)) (prestataire : string) (config : config)
  (dechet_lookup : dict value) (default_dechet : value)
  (site_lookup : dict site_info) (kg : value) (e : string) :
  convert_weight config (weight_of row cols) = Ok kg ->
  row_outcome self row cols prestataire config dechet_lookup default_dechet
    site_lookup = Raise e ->
  prestataire = "Paprec".
Proof.
  intros Hkg. unfold row_outcome. rewrite Hkg.
  destruct (String.eqb prestataire "Paprec") eqn:E;
    [intros _; now apply String.eqb_eq|].
  assert (Hne : prestataire <> "Paprec").
  { intros ->. discriminate. }
  rewrite (container_info_other _ _ Hne). simpl.
  destruct (cfg_bsdd_format config && _)%bool; discriminate.
Qed.

End WeightFacts.

(** C3, as the code has it.  For a provider with the strict-movement
    flag, a row whose weight is missing or zero yields no output row and
    adds one to the skipped count, and a row whose weight is a number
    other than zero is kept.  For a provider without the flag, a row whose
    weight is missing or zero is never dropped: if the row is returned it
    is appended with mass 0, and it is returned for every provider other
    than Paprec; for Paprec the container steps can raise instead. *)
Theorem strict_movement_discard `{PyRuntime}
  (self : ETLProcessor) (row : series) (rows : list series)
  (cols : dict (option string)) (prestataire : string)
  (dechet_lookup : dict value) (default_dechet : value)
  (site_lookup : dict site_info) (output_rows : list (dict value))
  (skipped : nat) (log : list string) :
  let config := get_config prestataire in
  let w := raw_cell row (cols_get "weight" cols) in
  let log1 := (log ++ row_warnings row cols site_lookup)%list in
  let run :=
    _process_row self row cols prestataire config dechet_lookup
      default_dechet site_lookup log in
  let loop rs :=
    process_rows self rs cols prestataire config dechet_lookup
      default_dechet site_lookup in
  (cfg_bsdd_format config = true ->
   isna w = true \/ eq_zero w = true ->
   run = (Ok None, log1)
   /\ loop (row :: rows) output_rows skipped log
      = loop rows output_rows (S skipped) log1)
  /\ (cfg_bsdd_format config = true ->
      forall f, number_of w = Some f -> eq_zero w = false ->
      exists out,
        run = (Ok (Some out), log1)
        /\ loop (row :: rows) output_rows skipped log
           = loop rows (output_rows ++ [out])%list skipped log1)
  /\ (cfg_bsdd_format config = false ->
      isna w = true \/ eq_zero w = true ->
      match run with
      | (Ok (Some out), _) =>
          dict_get "Masse totale (kg)" out = Some (VInt 0)
          /\ loop (row :: rows) output_rows skipped log
             = loop rows (output_rows ++ [out])%list skipped log1
      | (Ok None, _) => False
      | (Raise _, _) => prestataire = "Paprec"
      end
      /\ (prestataire <> "Paprec" ->
          exists out, run = (Ok (Some out), log1))).
Proof.
  cbv beta zeta. rewrite process_rows_step, process_row_factors. cbv zeta.
  split; [|split].
  - intros Hb Hw.
    rewrite (bsdd_weightless_row_dropped self row cols prestataire _
               dechet_lookup default_dechet site_lookup Hb Hw).
    split; reflexivity.
  - intros Hb f Hf Hnz.
    destruct (weight_of_number row cols f Hf) as (Hw & Hfl & Ht).
    assert (Hne : prestataire <> "Paprec").
    { destruct (bsdd_providers _ Hb) as [-> | ->]; discriminate. }
    destruct (kept_row_outcome self row cols prestataire
                (get_config prestataire) dechet_lookup default_dechet
                site_lookup
                (VFloat (if in_tonnes (get_config prestataire)
                         then F64.mul f (F64.of_Z 1000) else f)) Hne)
      as (out & Hout & _).
    + rewrite Hw, Hnz, orb_false_r.
      assert (Hn : isna (raw_cell row (cols_get "weight" cols)) = false).
      { rewrite <- Hw. apply safe_get_notna. reflexivity. }
      rewrite Hn. apply andb_false_r.
    + rewrite Hw. unfold convert_weight. rewrite Ht, Hnz, Hfl. simpl negb.
      cbv iota. fold (in_tonnes (get_config prestataire)).
      destruct (in_tonnes (get_config prestataire)); reflexivity.
    + exists out. rewrite Hout. split; reflexivity.
  - intros Hb Hw.
    destruct (weight_of_absent_or_zero row cols Hw) as (Hn & Hz & Ht).
    assert (Hkg : convert_weight (get_config prestataire) (weight_of row cols)
                  = Ok (VInt 0)).
    { unfold convert_weight. now rewrite Ht. }
    split.
    + destruct (row_outcome self row cols prestataire (get_config prestataire)
                  dechet_lookup default_dechet site_lookup)
        as [[out|]|e] eqn:E.
      * destruct (returned_row_masse _ _ _ _ _ _ _ _ _ E) as (kg & Hk & Hm).
        rewrite Hkg in Hk. injection Hk as <-. split; [exact Hm|reflexivity].
      * apply row_dropped_only_weightless in E. destruct E as [E _].
        congruence.
      * exact (row_raise_needs_paprec _ _ _ _ _ _ _ _ _ _ Hkg E).
    + intros Hne.
      destruct (kept_row_outcome self row cols prestataire
                  (get_config prestataire) dechet_lookup default_dechet
                  site_lookup (VInt 0) Hne) as (out & Hout & _).
      * now rewrite Hb.
      * exact Hkg.
      * exists out. now rewrite Hout.
Qed.

(** The three cases of C3 on rows of a Screlec and of a Veolia export:
    weight 0 and missing weight are dropped by Screlec, 0.01 is kept, and
    Veolia keeps a row of weight 0. *)
Lemma strict_movement_discard_witness :
  (_process_row (H := sample_runtime) sample_engine
     (sample_row (VStr "Site A") (VInt 0)) sample_cols "Screlec"
     (get_config "Screlec") [] VNone sample_site_lookup []
   = (Ok None, [])
   /\ process_rows (H := sample_runtime) sample_engine
        [sample_row (VStr "Site A") NaN] sample_cols "Screlec"
        (get_config "Screlec") [] VNone sample_site_lookup [] 0%nat []
      = (Ok ([], 1%nat), []))
  /\ (exists out,
        _process_row (H := sample_runtime) sample_engine
          (sample_row (VStr "Site A") (VFloat f64_0_01)) sample_cols
          "Screlec" (get_config "Screlec") [] VNone sample_site_lookup []
        = (Ok (Some out), []))
  /\ (exists out,
        _process_row (H := sample_runtime) sample_engine
          (sample_row (VStr "Site A") (VInt 0)) sample_cols "Veolia"
          (get_config "Veolia") [] VNone sample_site_lookup []
        = (Ok (Some out), [])).
Proof.
  split; [split|split].
  - exact (proj1 (proj1
      (strict_movement_discard (H := sample_runtime) sample_engine
         (sample_row (VStr "Site A") (VInt 0)) [] sample_cols "Screlec"
         [] VNone sample_site_lookup [] 0%nat [])
      eq_refl (or_intror eq_refl))).
  - exact (proj2 (proj1
      (strict_movement_discard (H := sample_runtime) sample_engine
         (sample_row (VStr "Site A") NaN) [] sample_cols "Screlec"
         [] VNone sample_site_lookup [] 0%nat [])
      eq_refl (or_introl eq_refl))).
  - destruct (proj1 (proj2
      (strict_movement_discard (H := sample_runtime) sample_engine
         (sample_row (VStr "Site A") (VFloat f64_0_01)) [] sample_cols
         "Screlec" [] VNone sample_site_lookup [] 0%nat []))
      eq_refl f64_0_01 eq_refl eq_refl) as (out & Hout & _).
    exists out. exact Hout.
  - destruct (proj2 (proj2 (proj2
      (strict_movement_discard (H := sample_runtime) sample_engine
         (sample_row (VStr "Site A") (VInt 0)) [] sample_cols
         "Veolia" [] VNone sample_site_lookup [] 0%nat []))
      eq_refl (or_intror eq_refl))) as (out & Hout).
    + discriminate.
    + exists out. exact Hout.
Defined.

(** C3 as stated does not hold: Paprec has no strict-movement flag, yet a
    line of its export with weight 0 whose container cell holds the
    number 660 is not retained: the row raises in the container steps, the
    loop stops and no row is appended. *)
Lemma weightless_paprec_row_not_retained :
  cfg_bsdd_format (get_config "Paprec") = false
  /\ eq_zero (raw_cell sample_weightless_container_row
                (cols_get "weight" sample_cols)) = true
  /\ exists e,
       _process_row (H := sample_runtime) sample_engine
         sample_weightless_container_row sample_cols "Paprec"
         (get_config "Paprec") [] VNone sample_site_lookup []
       = (Raise e, [])
       /\ process_rows (H := sample_runtime) sample_engine
            [sample_weightless_container_row] sample_cols "Paprec"
            (get_config "Paprec") [] VNone sample_site_lookup [] 0%nat []
          = (Raise e, []).
Proof.
  split; [reflexivity|split; [reflexivity|]].
  eexists. split; reflexivity.
Qed.

(** C4. A row that is processed and whose weight cell holds a number has
    as 'Masse totale (kg)' that number, read as a float, times 1000 when
    the provider's unit is tonnes and unchanged otherwise (kg); a weight of
    zero gives the integer 0, which is that product. *)
Theorem weight_unit_normalization `{PyRuntime}
  (self : ETLProcessor) (row : series) (cols : dict (option string))
  (prestataire : string) (config : config) (dechet_lookup : dict value)
  (default_dechet : value) (site_lookup : dict site_info)
  (log log' : list string) (out : dict value) (f : float64) :
  let w := raw_cell row (cols_get "weight" cols) in
  let scaled := if in_tonnes config then F64.mul f (F64.of_Z 1000) else f in
  number_of w = Some f ->
  _process_row self row cols prestataire config dechet_lookup default_dechet
    site_lookup log = (Ok (Some out), log') ->
  exists kg,
    dict_get "Masse totale (kg)" out = Some kg
    /\ if eq_zero w
       then kg = VInt 0 /\ F64.is_zero scaled = true
       else kg = VFloat scaled.
Proof.
  cbv zeta. intros Hf Hrun.
  rewrite process_row_factors in Hrun. injection Hrun as Hout _.
  destruct (returned_row_masse _ _ _ _ _ _ _ _ _ Hout) as (kg & Hk & Hm).
  exists kg. split; [exact Hm|].
  destruct (weight_of_number row cols f Hf) as (Hw & Hfl & Ht).
  rewrite Hw in Hk. unfold convert_weight in Hk. rewrite Ht, Hfl in Hk.
  fold (in_tonnes config) in Hk.
  destruct (eq_zero (raw_cell row (cols_get "weight" cols))) eqn:Hz;
    simpl in Hk.
  - injection Hk as <-. split; [reflexivity|].
    destruct (raw_cell row (cols_get "weight" cols)) as [|s|z|g|b|d];
      simpl in Hf, Hz; try discriminate.
    + apply Z.eqb_eq in Hz. subst z. injection Hf as <-.
      destruct (in_tonnes config); reflexivity.
    + destruct g as [sg| | |]; simpl in Hf, Hz; try discriminate.
      injection Hf as <-.
      destruct (in_tonnes config); [destruct sg|]; reflexivity.
  - destruct (in_tonnes config); now injection Hk as <-.
Qed.

(** The two rows of the specification: 2.5 becomes 2500 for Veolia, whose
    unit is tonnes, and stays 2.5 for Apeyron, whose unit is kg. *)
Lemma weight_unit_normalization_witness :
  (exists out log',
     _process_row (H := sample_runtime) sample_engine
       (sample_row (VStr "Site A") (VFloat f64_2_5)) sample_cols "Veolia"
       (get_config "Veolia") [] VNone sample_site_lookup []
     = (Ok (Some out), log')
     /\ dict_get "Masse totale (kg)" out = Some (VFloat f64_2500))
  /\ (exists out log',
        _process_row (H := sample_runtime) sample_engine
          (sample_row (VStr "Site A") (VFloat f64_2_5)) sample_cols "Apeyron"
          (get_config "Apeyron") [] VNone sample_site_lookup []
        = (Ok (Some out), log')
        /\ dict_get "Masse totale (kg)" out = Some (VFloat f64_2_5)).
Proof.
  split.
  - destruct (_process_row (H := sample_runtime) sample_engine
                (sample_row (VStr "Site A") (VFloat f64_2_5)) sample_cols
                "Veolia" (get_config "Veolia") [] VNone sample_site_lookup [])
      as [[[out|]|e] log'] eqn:E; try (vm_compute in E; discriminate).
    exists out, log'. split; [reflexivity|].
    destruct (weight_unit_normalization (H := sample_runtime) sample_engine
                (sample_row (VStr "Site A") (VFloat f64_2_5)) sample_cols
                "Veolia" (get_config "Veolia") [] VNone sample_site_lookup
                [] log' out f64_2_5 eq_refl E) as (kg & Hm & Hkg).
    rewrite Hm. f_equal. exact Hkg.
  - destruct (_process_row (H := sample_runtime) sample_engine
                (sample_row (VStr "Site A") (VFloat f64_2_5)) sample_cols
                "Apeyron" (get_config "Apeyron") [] VNone sample_site_lookup [])
      as [[[out|]|e] log'] eqn:E; try (vm_compute in E; discriminate).
    exists out, log'. split; [reflexivity|].
    destruct (weight_unit_normalization (H := sample_runtime) sample_engine
                (sample_row (VStr "Site A") (VFloat f64_2_5)) sample_cols
                "Apeyron" (get_config "Apeyron") [] VNone sample_site_lookup
                [] log' out f64_2_5 eq_refl E) as (kg & Hm & Hkg).
    rewrite Hm. f_equal. exact Hkg.
Defined.

(** ** Site matching *)

Section SiteFacts.
Context `{PyRuntime}.

Lemma site_partial_match_unfold (key : string) (lookup : dict site_info) :
  site_partial_match key lookup
  = match lookup with
    | [] => None
    | (k, v) :: r =>
        if partial_match key k then Some v else site_partial_match key r
    end.
Proof. destruct lookup as [|[k v] r]; reflexivity. Qed.


(** What the loop returns is the value of the first entry that matches. *)
Lemma site_partial_match_some (key : string) (lookup : dict site_info)
  (v : site_info) :
  site_partial_match key lookup = Some v ->
  exists before k after,
    lookup = (before ++ (k, v) :: after)%list
    /\ partial_match key k = true
    /\ (forall k' v', In (k', v') before -> partial_match key k' = false).
Proof.
  induction lookup as [|[k0 v0] r IH]; rewrite site_partial_match_unfold;
    [discriminate|].
  destruct (partial_match key k0) eqn:E.
  - intros [= <-]. exists [], k0, r. repeat split; [exact E|].
    intros k' v' [].
  - intros Hr. destruct (IH Hr) as (before & k & after & -> & Hk & Hb).
    exists ((k0, v0) :: before), k, after. repeat split; [exact Hk|].
    intros k' v' [[= <- <-]|Hin]; [exact E|exact (Hb k' v' Hin)].
Qed.


Lemma site_name_notna (row : series) (cols : dict (option string)) :
  isna (site_name_of row cols) = false.
Proof. apply safe_get_notna. reflexivity. Qed.

Lemma map_site_of_row (row : series) (cols : dict (option string))
  (site_lookup : dict site_info) :
  _map_site (site_name_of row cols) site_lookup
  = match dict_get (site_key_of row cols) site_lookup with
    | Some v => Some v
    | None => site_partial_match (site_key_of row cols) site_lookup
    end.
Proof. unfold _map_site. now rewrite site_name_notna. Qed.


Lemma returned_row_site (self : ETLProcessor) (row : series)
  (cols : dict (option string)) (prestataire : string) (config : config)
  (dechet_lookup : dict value) (default_dechet : value)
  (site_lookup : dict site_info) (out : dict value) :
  row_outcome self row cols prestataire config dechet_lookup default_dechet
    site_lookup = Ok (Some out) ->
  let site := site_info_of row cols site_lookup in
  dict_get "Nom du site" out = Some (nom_site site)
  /\ dict_get "Code de la prestation" out = Some (code_prestation site)
  /\ dict_get "Prestataire" out
     = Some (py_or (py_or (si_prestataire site) (transporter_of row cols))
                   (VStr prestataire)).
Proof.
  unfold row_outcome.
  destruct (cfg_bsdd_format config && _)%bool; [discriminate|].
  destruct (convert_weight config (weight_of row cols)); [|discriminate].
  destruct (container_info _ _); [|discriminate].
  destruct (volume_total _ _); [|discriminate].
  intros [= <-]. cbv zeta. repeat split; reflexivity.
Qed.

End SiteFacts.



(** C10. When the site value of a row is missing or blank, the key looked
    up is the empty string; it is contained in every key, so on a lookup
    that is not empty the partial-match loop returns the first entry,
    site matching returns an entry (the first one, unless the empty string
    is itself a key) and the row appends no warning. *)
Theorem blank_site_takes_first_entry `{PyRuntime}
  (self : ETLProcessor) (row : series) (cols : dict (option string))
  (prestataire : string) (config : config) (dechet_lookup : dict value)
  (default_dechet : value) (k0 : string) (v0 : site_info)
  (rest : dict site_info) (log : list string) :
  let cell := raw_cell row (site_column cols) in
  let site_lookup := (k0, v0) :: rest in
  isna cell = true
  \/ (exists s, cell = VStr s /\ str_strip s = EmptyString) ->
  site_key_of row cols = EmptyString
  /\ site_partial_match EmptyString site_lookup = Some v0
  /\ (exists v, _map_site (site_name_of row cols) site_lookup = Some v
                /\ (dict_get EmptyString site_lookup = None -> v = v0))
  /\ snd (_process_row self row cols prestataire config dechet_lookup
            default_dechet site_lookup log) = log.
Proof.
  cbv zeta. intros Hcell.
  assert (Hkey : site_key_of row cols = EmptyString).
  { unfold site_key_of, site_name_of. rewrite safe_get_raw.
    destruct Hcell as [Hna|(s & Hs & Hblank)].
    - rewrite Hna. simpl. now rewrite str_strip_empty, str_lower_empty.
    - rewrite Hs. simpl. rewrite Hblank. apply str_lower_empty. }
  assert (Hloop : site_partial_match EmptyString ((k0, v0) :: rest) = Some v0).
  { rewrite site_partial_match_unfold. unfold partial_match.
    destruct k0; reflexivity. }
  assert (Hmap : exists v,
             _map_site (site_name_of row cols) ((k0, v0) :: rest) = Some v
             /\ (dict_get EmptyString ((k0, v0) :: rest) = None -> v = v0)).
  { rewrite map_site_of_row, Hkey.
    destruct (dict_get EmptyString ((k0, v0) :: rest)) as [v|] eqn:E.
    - exists v. split; [reflexivity|discriminate].
    - exists v0. split; [exact Hloop|reflexivity]. }
  split; [exact Hkey|]. split; [exact Hloop|]. split; [exact Hmap|].
  rewrite process_row_factors. simpl snd. unfold row_warnings.
  destruct Hmap as (v & -> & _). apply app_nil_r.
Qed.

(** A row without site value, and a row whose site is blank, on the
    sample lookup: both take its first entry, "site a", without warning. *)
Lemma blank_site_takes_first_entry_witness :
  (exists v,
     _map_site (H := sample_runtime)
       (site_name_of (sample_row NaN (VInt 3)) sample_cols)
       sample_site_lookup = Some v
     /\ nom_site v = VStr "A01 - Site A")
  /\ snd (_process_row (H := sample_runtime) sample_engine
            (sample_row (VStr "   ") (VInt 3)) sample_cols "Veolia"
            (get_config "Veolia") [] VNone sample_site_lookup []) = [].
Proof.
  split.
  - destruct (proj1 (proj2 (proj2
      (blank_site_takes_first_entry (H := sample_runtime) sample_engine
         (sample_row NaN (VInt 3)) sample_cols "Veolia" (get_config "Veolia")
         [] VNone "site a" sample_site_a [("site b", sample_site_b)] []
         (or_introl eq_refl)))))
      as (v & Hv & Hfirst).
    exists v. split; [exact Hv|]. now rewrite (Hfirst eq_refl).
  - exact (proj2 (proj2 (proj2
      (blank_site_takes_first_entry (H := sample_runtime) sample_engine
         (sample_row (VStr "   ") (VInt 3)) sample_cols "Veolia"
         (get_config "Veolia") [] VNone "site a" sample_site_a
         [("site b", sample_site_b)] []
         (or_intror (ex_intro _ "   " (conj eq_refl eq_refl))))))).
Defined.

(** ** Treatment resolution *)

Section TreatmentFacts.
Context `{PyRuntime}.

Lemma map_traitement_unfold (self : ETLProcessor) (agrege code : value) :
  isna agrege = false ->
  _map_traitement self agrege code
  = let by_category :=
      match lookup_by_value agrege (traitement_lookup self) with
      | Some r => (t_code r, t_traitement r)
      | None => (VNone, VNone)
      end in
    if blank_code code then by_category
    else match dict_get (concat_key agrege code) (traitement_lookup self) with
         | Some r => (t_code r, t_traitement r)
         | None => by_category
         end.
Proof.
  intros Hna. unfold _map_traitement, blank_code, concat_key, notna.
  rewrite Hna. cbv zeta.
  destruct (isna code); simpl; [reflexivity|].
  destruct (String.eqb (str_strip (py_str code)) EmptyString); reflexivity.
Qed.

Lemma returned_row_code (self : ETLProcessor) (row : series)
  (cols : dict (option string)) (prestataire : string) (config : config)
  (dechet_lookup : dict value) (default_dechet : value)
  (site_lookup : dict site_info) (out : dict value) :
  row_outcome self row cols prestataire config dechet_lookup default_dechet
    site_lookup = Ok (Some out) ->
  let mapped :=
    _map_traitement self
      (dechets_agrege_of self row cols dechet_lookup default_dechet)
      (code_prest_of row cols) in
  dict_get "Code traitement" out
  = Some (match fst mapped with
          | VNone => code_prest_of row cols
          | _ => fst mapped
          end)
  /\ dict_get "Traitement" out = Some (snd mapped).
Proof.
  unfold row_outcome.
  destruct (cfg_bsdd_format config && _)%bool; [discriminate|].
  destruct (convert_weight config (weight_of row cols)); [|discriminate].
  destruct (container_info _ _); [|discriminate].
  destruct (volume_total _ _); [|discriminate].
  intros [= <-]. cbv zeta. split; reflexivity.
Qed.

End TreatmentFacts.

(** C6. With a provider code that is not blank, treatment resolution takes
    the entry keyed by the aggregated category followed by the trimmed
    code; with a blank or missing code, or when that key is not in the
    table, it takes the entry keyed by the category alone; when neither
    entry exists it resolves nothing and the row's 'Code traitement' is
    the raw provider code.  For a code that is an ASCII text, the trimmed
    code is the text without its leading and trailing white space. *)
Theorem treatment_resolution_priority `{PyRuntime}
  (self : ETLProcessor) (agrege code : value) :
  let table := traitement_lookup self in
  let by_code := dict_get (concat_key agrege code) table in
  let by_category := lookup_by_value agrege table in
  (isna agrege = false -> blank_code code = false ->
   forall r, by_code = Some r ->
             _map_traitement self agrege code = (t_code r, t_traitement r))
  /\ (isna agrege = false -> blank_code code = true \/ by_code = None ->
      forall r, by_category = Some r ->
                _map_traitement self agrege code = (t_code r, t_traitement r))
  /\ (isna agrege = true
      \/ ((blank_code code = true \/ by_code = None) /\ by_category = None) ->
      _map_traitement self agrege code = (VNone, VNone)
      /\ forall row cols prestataire config dechet_lookup default_dechet
                site_lookup log out,
           dechets_agrege_of self row cols dechet_lookup default_dechet
           = agrege ->
           code_prest_of row cols = code ->
           fst (_process_row self row cols prestataire config
                  dechet_lookup default_dechet site_lookup log)
           = Ok (Some out) ->
           dict_get "Code traitement" out = Some code)
  /\ (forall s, code = VStr s -> Str.is_ascii s = true ->
        concat_key agrege code = py_str agrege ++ Str.strip s
        /\ blank_code code = String.eqb (Str.strip s) EmptyString).
Proof.
  cbv zeta.
  assert (Hfall :
    isna agrege = false ->
    blank_code code = true
    \/ dict_get (concat_key agrege code) (traitement_lookup self) = None ->
    _map_traitement self agrege code
    = match lookup_by_value agrege (traitement_lookup self) with
      | Some r => (t_code r, t_traitement r)
      | None => (VNone, VNone)
      end).
  { intros Hna Hf. rewrite (map_traitement_unfold self agrege code Hna).
    cbv zeta. destruct Hf as [-> | ->]; [reflexivity|].
    destruct (blank_code code); reflexivity. }
  split; [|split; [|split]].
  - intros Hna Hb r Hr. rewrite (map_traitement_unfold self agrege code Hna).
    cbv zeta. now rewrite Hb, Hr.
  - intros Hna Hf r Hr. rewrite (Hfall Hna Hf), Hr. reflexivity.
  - intros Hnone.
    assert (Hmap : _map_traitement self agrege code = (VNone, VNone)).
    { destruct Hnone as [Hna|[Hf Hcat]].
      - unfold _map_traitement. now rewrite Hna.
      - destruct (isna agrege) eqn:Hna.
        + unfold _map_traitement. now rewrite Hna.
        + rewrite (Hfall eq_refl Hf), Hcat. reflexivity. }
    split; [exact Hmap|].
    intros row cols prestataire config dechet_lookup default_dechet
      site_lookup log out Ha Hc Hrun.
    rewrite process_row_factors in Hrun. simpl fst in Hrun.
    destruct (returned_row_code _ _ _ _ _ _ _ _ _ Hrun) as [Hcode _].
    rewrite Ha, Hc, Hmap in Hcode. exact Hcode.
  - intros s -> Hs. unfold concat_key, blank_code. simpl.
    now rewrite (str_strip_ascii s Hs).
Qed.

(** The three cases on the sample table, which has the keys
    "RecyclableR3" and "Recyclable": the code " R3 " takes the first, a
    blank code and the code "D5" take the second, and the category
    "Bois B", which has no entry, leaves the raw code "R1". *)
Lemma treatment_resolution_priority_witness :
  concat_key (H := sample_runtime) (VStr "Recyclable") (VStr " R3 ")
  = "RecyclableR3"
  /\ _map_traitement (H := sample_runtime) sample_engine (VStr "Recyclable")
    (VStr " R3 ") = (VStr "R3", VStr "Recyclage matière")
  /\ _map_traitement (H := sample_runtime) sample_engine (VStr "Recyclable")
       (VStr "  ") = (VStr "R13", VStr "Regroupement")
  /\ _map_traitement (H := sample_runtime) sample_engine (VStr "Recyclable")
       (VStr "D5") = (VStr "R13", VStr "Regroupement")
  /\ (exists out log',
        _process_row (H := sample_runtime) sample_engine
          (sample_waste_row (VStr "Palette Bois") (VStr "R1")) sample_cols "Veolia"
          (get_config "Veolia") sample_dechet_lookup VNone
          sample_site_lookup [] = (Ok (Some out), log')
        /\ dict_get "Code traitement" out = Some (VStr "R1")).
Proof.
  split; [|split; [|split; [|split]]].
  - exact (proj1 (proj2 (proj2 (proj2
      (treatment_resolution_priority (H := sample_runtime) sample_engine
         (VStr "Recyclable") (VStr " R3 ")))) " R3 " eq_refl eq_refl)).
  - exact (proj1
      (treatment_resolution_priority (H := sample_runtime) sample_engine
         (VStr "Recyclable") (VStr " R3 ")) eq_refl eq_refl _ eq_refl).
  - exact (proj1 (proj2
      (treatment_resolution_priority (H := sample_runtime) sample_engine
         (VStr "Recyclable") (VStr "  "))) eq_refl (or_introl eq_refl)
      _ eq_refl).
  - exact (proj1 (proj2
      (treatment_resolution_priority (H := sample_runtime) sample_engine
         (VStr "Recyclable") (VStr "D5"))) eq_refl (or_intror eq_refl)
      _ eq_refl).
  - destruct (_process_row (H := sample_runtime) sample_engine
                (sample_waste_row (VStr "Palette Bois") (VStr "R1")) sample_cols
                "Veolia" (get_config "Veolia") sample_dechet_lookup VNone
                sample_site_lookup [])
      as [[[out|]|e] log'] eqn:E; try (vm_compute in E; discriminate).
    exists out, log'. split; [reflexivity|].
    refine (proj2 (proj1 (proj2 (proj2
      (treatment_resolution_priority (H := sample_runtime) sample_engine
         (VStr "Bois B") (VStr "R1"))))
      (or_intror (conj (or_intror eq_refl) eq_refl)))
      (sample_waste_row (VStr "Palette Bois") (VStr "R1")) sample_cols "Veolia"
      (get_config "Veolia") sample_dechet_lookup VNone sample_site_lookup
      [] out eq_refl eq_refl _).
    now rewrite E.
Defined.

(** ** Paprec containers *)

Section ContainerFacts.
Context `{PyRuntime}.

(** A returned row holds what the container steps computed. *)
Lemma returned_row_container (self : ETLProcessor) (row : series)
  (cols : dict (option string)) (prestataire : string) (config : config)
  (dechet_lookup : dict value) (default_dechet : value)
  (site_lookup : dict site_info) (out : dict value) :
  row_outcome self row cols prestataire config dechet_lookup default_dechet
    site_lookup = Ok (Some out) ->
  exists volume type_contenant total,
    container_info (container_of row cols) prestataire
    = Ok (volume, type_contenant)
    /\ volume_total volume (quantity_of row cols) = Ok total
    /\ dict_get "Volume contenant (L)" out = Some (value_of_volume volume)
    /\ dict_get "Type de contenant" out = Some type_contenant
    /\ dict_get "Volume total (L)" out = Some total
    /\ dict_get "Nombre de contenants" out = Some (quantity_of row cols).
Proof.
  unfold row_outcome.
  destruct (cfg_bsdd_format config && _)%bool; [discriminate|].
  destruct (convert_weight config (weight_of row cols)); [|discriminate].
  destruct (container_info _ _) as [[volume typ]|]; [|discriminate].
  simpl fst. simpl snd.
  destruct (volume_total volume _) as [total|] eqn:Et; [|discriminate].
  intros [= <-]. exists volume, typ, total.
  repeat split; try reflexivity; exact Et.
Qed.

(** A row is returned as soon as none of its steps drops it or raises. *)
Lemma row_returned (self : ETLProcessor) (row : series)
  (cols : dict (option string)) (prestataire : string) (config : config)
  (dechet_lookup : dict value) (default_dechet : value)
  (site_lookup : dict site_info) (kg : value) (ci : option Z * value)
  (total : value) :
  cfg_bsdd_format config = false ->
  convert_weight config (weight_of row cols) = Ok kg ->
  container_info (container_of row cols) prestataire = Ok ci ->
  volume_total (fst ci) (quantity_of row cols) = Ok total ->
  exists out,
    row_outcome self row cols prestataire config dechet_lookup default_dechet
      site_lookup = Ok (Some out).
Proof.
  intros Hb Hkg Hci Ht. unfold row_outcome.
  rewrite Hb, Hkg, Hci, Ht. simpl. eexists. reflexivity.
Qed.

Lemma container_info_paprec (s : string) :
  s <> EmptyString ->
  container_info (VStr s) "Paprec"
  = Ok (dict_get (str_strip (str_lower s)) PAPREC_CONTAINER_VOLUMES,
        match dict_get (str_strip (str_lower s)) PAPREC_CONTAINER_TYPES with
        | Some t => VStr t
        | None => VStr "Equipement inconnu"
        end).
Proof.
  intros Hs. unfold container_info. simpl truthy.
  destruct (String.eqb s EmptyString) eqn:E.
  - apply String.eqb_eq in E. contradiction.
  - reflexivity.
Qed.

Lemma quantity_of_absent (row : series) (cols : dict (option string)) :
  isna (raw_cell row (quantity_column cols)) = true ->
  quantity_of row cols = VInt 1.
Proof. intros Hq. unfold quantity_of. rewrite safe_get_raw, Hq. reflexivity. Qed.

End ContainerFacts.

(** C7, as the code has it.  For Paprec, a container descriptor whose
    lower-cased, trimmed form is 'bac roulant 660l' gives volume 660, type
    'Bac 4 roues - 660 L' and, for a quantity that is a number other than
    zero, total volume 660 times the quantity (660 when the quantity is
    missing, as it defaults to 1); a quantity of zero leaves the total
    volume absent.  A descriptor found in neither table gives type
    'Equipement inconnu' and no volume nor total.  For another provider the
    three fields are absent.  For a descriptor that is an ASCII text, the
    lower-cased, trimmed form is the text with its capitals turned to
    small letters, without its leading and trailing white space. *)
Theorem paprec_container_volume `{PyRuntime}
  (self : ETLProcessor) (row : series) (cols : dict (option string))
  (prestataire : string) (config : config) (dechet_lookup : dict value)
  (default_dechet : value) (site_lookup : dict site_info)
  (log log' : list string) (out : dict value) :
  let volume := dict_get "Volume contenant (L)" out in
  let type_contenant := dict_get "Type de contenant" out in
  let total := dict_get "Volume total (L)" out in
  let quantity := quantity_of row cols in
  _process_row self row cols prestataire config dechet_lookup default_dechet
    site_lookup log = (Ok (Some out), log') ->
  (prestataire <> "Paprec" ->
   volume = Some VNone /\ type_contenant = Some VNone /\ total = Some VNone)
  /\ (prestataire = "Paprec" ->
      forall s, container_of row cols = VStr s -> s <> EmptyString ->
      let key := str_strip (str_lower s) in
      (key = "bac roulant 660l" ->
       volume = Some (VInt 660)
       /\ type_contenant = Some (VStr "Bac 4 roues - 660 L")
       /\ (forall q, quantity = VInt q -> q <> 0 ->
                     total = Some (VInt (660 * q)))
       /\ (forall f, quantity = VFloat f -> F64.is_zero f = false ->
                     total = Some (VFloat (F64.mul (F64.of_Z 660) f)))
       /\ (isna (raw_cell row (quantity_column cols)) = true ->
           total = Some (VInt 660))
       /\ (eq_zero quantity = true -> total = Some VNone))
      /\ (dict_get key PAPREC_CONTAINER_VOLUMES = None ->
          dict_get key PAPREC_CONTAINER_TYPES = None ->
          volume = Some VNone
          /\ type_contenant = Some (VStr "Equipement inconnu")
          /\ total = Some VNone)
      /\ (Str.is_ascii s = true -> key = Str.strip (Str.lower s))).
Proof.
  cbv zeta. intros Hrun.
  rewrite process_row_factors in Hrun. injection Hrun as Hout _.
  destruct (returned_row_container _ _ _ _ _ _ _ _ _ Hout)
    as (vol & typ & tot & Hci & Ht & -> & -> & -> & _).
  split.
  - intros Hne. rewrite (container_info_other _ _ Hne) in Hci.
    injection Hci as <- <-. simpl in Ht. injection Ht as <-.
    repeat split; reflexivity.
  - intros -> s Hs Hnonempty.
    rewrite Hs, (container_info_paprec s Hnonempty) in Hci.
    split; [|split; [|apply ascii_lower_strip]].
    + intros Hkey. rewrite Hkey in Hci. simpl dict_get in Hci.
      injection Hci as <- <-.
      simpl value_of_volume. unfold volume_total in Ht. simpl negb in Ht.
      simpl andb in Ht.
      split; [reflexivity|]. split; [reflexivity|].
      repeat split.
      * intros q Hq Hnz. rewrite Hq in Ht. simpl in Ht.
        destruct (Z.eqb q 0) eqn:E; [apply Z.eqb_eq in E; contradiction|].
        simpl in Ht. now injection Ht as <-.
      * intros f Hq Hnz. rewrite Hq in Ht. simpl in Ht. rewrite Hnz in Ht.
        simpl in Ht. now injection Ht as <-.
      * intros Hq. rewrite (quantity_of_absent row cols Hq) in Ht.
        simpl in Ht. now injection Ht as <-.
      * intros Hz.
        assert (Hf : truthy (quantity_of row cols) = false).
        { destruct (quantity_of row cols) as [|?|z|f|b|?];
            simpl in Hz |- *; try discriminate.
          - now rewrite Hz.
          - now rewrite Hz.
          - now destruct b. }
        rewrite Hf in Ht. now injection Ht as <-.
    + intros Hv Hty. rewrite Hv, Hty in Hci. injection Hci as <- <-.
      simpl in Ht. injection Ht as <-. repeat split; reflexivity.
Qed.

(** A Paprec row "  BAC roulant 660L " with quantity 3 has volume 660, the
    type of the table and total volume 1980; a row "Benne 30m3" has type
    'Equipement inconnu' and neither volume nor total. *)
Lemma paprec_container_volume_witness :
  (exists out log',
     _process_row (H := sample_runtime) sample_engine
       (sample_container_row (VStr "  BAC roulant 660L ") (VInt 3))
       sample_cols "Paprec" (get_config "Paprec") [] VNone
       sample_site_lookup [] = (Ok (Some out), log')
     /\ dict_get "Volume contenant (L)" out = Some (VInt 660)
     /\ dict_get "Type de contenant" out = Some (VStr "Bac 4 roues - 660 L")
     /\ dict_get "Volume total (L)" out = Some (VInt 1980))
  /\ (exists out log',
        _process_row (H := sample_runtime) sample_engine
          (sample_container_row (VStr "Benne 30m3") (VInt 3))
          sample_cols "Paprec" (get_config "Paprec") [] VNone
          sample_site_lookup [] = (Ok (Some out), log')
        /\ dict_get "Volume contenant (L)" out = Some VNone
        /\ dict_get "Type de contenant" out = Some (VStr "Equipement inconnu")
        /\ dict_get "Volume total (L)" out = Some VNone).
Proof.
  split.
  - destruct (_process_row (H := sample_runtime) sample_engine
                (sample_container_row (VStr "  BAC roulant 660L ") (VInt 3))
                sample_cols "Paprec" (get_config "Paprec") [] VNone
                sample_site_lookup [])
      as [[[out|]|e] log'] eqn:E; try (vm_compute in E; discriminate).
    exists out, log'. split; [reflexivity|].
    destruct (proj1 (proj2
      (paprec_container_volume (H := sample_runtime) sample_engine
         (sample_container_row (VStr "  BAC roulant 660L ") (VInt 3))
         sample_cols "Paprec" (get_config "Paprec") [] VNone
         sample_site_lookup [] log' out E) eq_refl
      "  BAC roulant 660L " eq_refl
      (fun e : "  BAC roulant 660L " = EmptyString =>
         eq_ind "  BAC roulant 660L "
           (fun s => match s with EmptyString => False | _ => True end)
           I EmptyString e)) eq_refl)
      as (Hv & Hty & Hint & _).
    split; [exact Hv|]. split; [exact Hty|].
    apply (Hint 3 eq_refl). discriminate.
  - destruct (_process_row (H := sample_runtime) sample_engine
                (sample_container_row (VStr "Benne 30m3") (VInt 3))
                sample_cols "Paprec" (get_config "Paprec") [] VNone
                sample_site_lookup [])
      as [[[out|]|e] log'] eqn:E; try (vm_compute in E; discriminate).
    exists out, log'. split; [reflexivity|].
    exact (proj1 (proj2 (proj2
      (paprec_container_volume (H := sample_runtime) sample_engine
         (sample_container_row (VStr "Benne 30m3") (VInt 3))
         sample_cols "Paprec" (get_config "Paprec") [] VNone
         sample_site_lookup [] log' out E) eq_refl
      "Benne 30m3" eq_refl
      (fun e : "Benne 30m3" = EmptyString =>
         eq_ind "Benne 30m3"
           (fun s => match s with EmptyString => False | _ => True end)
           I EmptyString e))) eq_refl eq_refl).
Defined.

(** C7 as stated fails for a quantity of zero: the Paprec row
    "Bac Roulant 660L" with quantity 0 has volume 660 and quantity 0, and
    its total volume is absent, not 660 times 0. *)
Lemma paprec_zero_quantity_total_absent :
  exists out log',
    _process_row (H := sample_runtime) sample_engine
      (sample_container_row (VStr "Bac Roulant 660L") (VInt 0))
      sample_cols "Paprec" (get_config "Paprec") [] VNone
      sample_site_lookup [] = (Ok (Some out), log')
    /\ dict_get "Volume contenant (L)" out = Some (VInt 660)
    /\ dict_get "Nombre de contenants" out = Some (VInt 0)
    /\ dict_get "Volume total (L)" out = Some VNone
    /\ dict_get "Volume total (L)" out <> Some (VInt (660 * 0)).
Proof.
  eexists. eexists. split; [vm_compute; reflexivity|].
  repeat split; try reflexivity. discriminate.
Qed.

(** ** Provider detection *)

Section DetectionFacts.
Context `{PyRuntime}.

Lemma detect_in_unfold (registry : dict config) (f : string) :
  detect_in registry f
  = match registry with
    | [] => None
    | entry :: r =>
        if re_search (entry_pattern entry) f then Some (fst entry)
        else detect_in r f
    end.
Proof. destruct registry as [|[name c] r]; reflexivity. Qed.

Lemma detect_in_first (before after : dict config) (entry : string * config)
  (f : string) :
  re_search (entry_pattern entry) f = true ->
  (forall e, In e before -> re_search (entry_pattern e) f = false) ->
  detect_in (before ++ entry :: after)%list f = Some (fst entry).
Proof.
  intros He. induction before as [|e0 before IH]; intros Hb;
    rewrite detect_in_unfold; simpl app; cbv iota beta.
  - now rewrite He.
  - rewrite (Hb e0 (or_introl eq_refl)). apply IH.
    intros e Hin. apply Hb. now right.
Qed.

Lemma detect_in_some (registry : dict config) (f name : string) :
  detect_in registry f = Some name ->
  exists before entry after,
    registry = (before ++ entry :: after)%list
    /\ fst entry = name
    /\ re_search (entry_pattern entry) f = true
    /\ (forall e, In e before -> re_search (entry_pattern e) f = false).
Proof.
  induction registry as [|e0 r IH]; rewrite detect_in_unfold; [discriminate|].
  destruct (re_search (entry_pattern e0) f) eqn:E.
  - intros [= <-]. exists [], e0, r. repeat split; [exact E|]. intros e [].
  - intros Hr. destruct (IH Hr) as (before & entry & after & -> & Hn & He & Hb).
    exists (e0 :: before), entry, after. repeat split; try assumption.
    intros e [<-|Hin]; [exact E|exact (Hb e Hin)].
Qed.

Lemma detect_in_none (registry : dict config) (f : string) :
  detect_in registry f = None
  <-> (forall e, In e registry -> re_search (entry_pattern e) f = false).
Proof.
  induction registry as [|e0 r IH]; rewrite detect_in_unfold.
  - split; [intros _ e []|reflexivity].
  - destruct (re_search (entry_pattern e0) f) eqn:E.
    + split; [discriminate|]. intros Hall.
      rewrite (Hall e0 (or_introl eq_refl)) in E. discriminate.
    + rewrite IH. split.
      * intros Hall e [<-|Hin]; [exact E|exact (Hall e Hin)].
      * intros Hall e Hin. apply Hall. now right.
Qed.

End DetectionFacts.

(** A pattern without alternation bar is searched as a substring. *)
Lemma re_search_veolia (f : string) :
  re_search "veolia" f = Str.contains "veolia" f.
Proof. unfold re_search. simpl Str.split. simpl existsb. apply orb_false_r. Qed.

(** C8, as the code has it.  [detect_prestataire] lower-cases the file
    name and returns the first provider, in registry order, whose pattern
    is found in it, and nothing when no pattern is found: a name containing
    'veolia' resolves to Veolia; a name containing 'td-registre' resolves
    to Trackdechet when the pattern of none of the seven providers listed
    before it is found. *)
Theorem detect_prestataire_first_match `{PyRuntime} (filename : string) :
  let f := str_lower filename in
  (forall name,
      detect_prestataire filename = Some name
      <-> exists before entry after,
            PRESTATAIRE_CONFIG = (before ++ entry :: after)%list
            /\ fst entry = name
            /\ re_search (entry_pattern entry) f = true
            /\ (forall e, In e before ->
                          re_search (entry_pattern e) f = false))
  /\ (detect_prestataire filename = None
      <-> forall e, In e PRESTATAIRE_CONFIG ->
                    re_search (entry_pattern e) f = false)
  /\ (Str.contains "veolia" f = true ->
      detect_prestataire filename = Some "Veolia")
  /\ (Str.contains "td-registre" f = true ->
      (forall p, In p patterns_before_trackdechet ->
                 Str.contains p f = false) ->
      detect_prestataire filename = Some "Trackdechet").
Proof.
  cbv zeta. unfold detect_prestataire. split; [|split; [|split]].
  - intros name. split.
    + apply detect_in_some.
    + intros (before & entry & after & -> & <- & He & Hb).
      now apply detect_in_first.
  - apply detect_in_none.
  - intros Hv. unfold PRESTATAIRE_CONFIG. rewrite detect_in_unfold.
    unfold entry_pattern. simpl config_pattern.
    rewrite re_search_veolia, Hv. reflexivity.
  - intros Htd Hbefore.
    assert (Hp : forall p, In p patterns_before_trackdechet ->
                           re_search p (str_lower filename) = false).
    { intros p Hin. pose proof (Hbefore p Hin) as Hc.
      unfold patterns_before_trackdechet in Hin. simpl in Hin.
      repeat (destruct Hin as [<-|Hin];
              [unfold re_search; simpl Str.split; simpl existsb;
               rewrite Hc; reflexivity|]).
      destruct Hin. }
    unfold PRESTATAIRE_CONFIG.
    repeat (rewrite detect_in_unfold; unfold entry_pattern;
            simpl config_pattern;
            first [rewrite Hp by (simpl; tauto) | idtac]).
    unfold re_search. simpl Str.split. simpl existsb.
    rewrite Htd, orb_true_r. reflexivity.
Qed.

(** Three file names: one with 'VEOLIA', one with 'TD-Registre' and no
    other pattern, one with no pattern. *)
Lemma detect_prestataire_first_match_witness :
  detect_prestataire (H := sample_runtime) "Export_VEOLIA_2024.xlsx"
  = Some "Veolia"
  /\ detect_prestataire (H := sample_runtime) "TD-Registre-sortant.xlsx"
     = Some "Trackdechet"
  /\ detect_prestataire (H := sample_runtime) "registre_2024.xlsx" = None.
Proof.
  split; [|split].
  - exact (proj1 (proj2 (proj2
      (detect_prestataire_first_match (H := sample_runtime)
         "Export_VEOLIA_2024.xlsx"))) eq_refl).
  - apply (proj2 (proj2 (proj2
      (detect_prestataire_first_match (H := sample_runtime)
         "TD-Registre-sortant.xlsx")))).
    + reflexivity.
    + intros p Hin. simpl in Hin.
      repeat (destruct Hin as [<-|Hin]; [reflexivity|]). destruct Hin.
  - apply (proj1 (proj2
      (detect_prestataire_first_match (H := sample_runtime)
         "registre_2024.xlsx"))).
    intros e Hin. unfold PRESTATAIRE_CONFIG in Hin. simpl in Hin.
    repeat (destruct Hin as [<-|Hin]; [reflexivity|]). destruct Hin.
Defined.

(** The file name "td-registre_veolia_2024.xlsx" is ASCII: whatever the
    runtime, it contains 'td-registre' once lower-cased and is detected
    as Veolia. *)
Lemma detect_td_registre_veolia `{PyRuntime} :
  Str.contains "td-registre" (str_lower "td-registre_veolia_2024.xlsx") = true
  /\ detect_prestataire "td-registre_veolia_2024.xlsx" = Some "Veolia".
Proof.
  unfold detect_prestataire.
  rewrite (str_lower_ascii "td-registre_veolia_2024.xlsx" eq_refl).
  split; reflexivity.
Qed.

(** C8 as stated fails for a name that contains 'td-registre' and the
    pattern of an earlier provider: the first match, Veolia, is returned. *)
Lemma detect_td_registre_not_trackdechet :
  Str.contains "td-registre"
    (str_lower (PyRuntime := sample_runtime) "td-registre_veolia_2024.xlsx")
  = true
  /\ detect_prestataire (H := sample_runtime) "td-registre_veolia_2024.xlsx"
     = Some "Veolia"
  /\ detect_prestataire (H := sample_runtime) "td-registre_veolia_2024.xlsx"
     <> Some "Trackdechet".
Proof. repeat split. discriminate. Qed.

(** ** Worksheet selection *)

(** The keyword loop ends on the last keyword: if it matches it decides,
    whatever the keywords before it found. *)
Lemma sheet_patterns_loop_last `{PyRuntime}
  (patterns : list string) (pattern : string)
  (names : list string) (sheet_name : sheet_ref) :
  sheet_patterns_loop (patterns ++ [pattern])%list names sheet_name
  = match first_sheet_with pattern names with
    | Some sheet => ByName sheet
    | None => sheet_patterns_loop patterns names sheet_name
    end.
Proof.
  revert sheet_name. induction patterns as [|p r IH]; intros sheet_name; simpl.
  - destruct (first_sheet_with pattern names); reflexivity.
  - destruct (first_sheet_with p names); apply IH.
Qed.

(** C9 on the code.  For Suez, whose keywords are "registre", "déchets",
    "data", and a workbook with the sheets "Data" and "Registre", the
    first keyword's first match is "Registre" but the sheet chosen is
    "Data", the match of the last keyword.  For Veolia, which has no
    keyword list, and a workbook with the sheets "Synthèse" and "Registre",
    the sheet asked for is named "registre", which the workbook does not
    have. *)
Theorem choose_sheet_later_keyword_overrides `{PyRuntime} :
  cfg_sheet_patterns (get_config "Suez")
  = Some ["registre"; "déchets"; "data"]
  /\ first_keyword_first_match ["registre"; "déchets"; "data"]
       ["Data"; "Registre"] = Some "Registre"
  /\ choose_sheet (get_config "Suez") ["Data"; "Registre"] = ByName "Data"
  /\ cfg_sheet_patterns (get_config "Veolia") = None
  /\ choose_sheet (get_config "Veolia") ["Synthèse"; "Registre"]
     = ByName "registre"
  /\ open_sheet (ByName "registre") ["Synthèse"; "Registre"] = None.
Proof.
  pose proof (str_lower_ascii "registre" eq_refl) as L1.
  pose proof (str_lower_ascii "data" eq_refl) as L2.
  pose proof (str_lower_ascii "Data" eq_refl) as L3.
  pose proof (str_lower_ascii "Registre" eq_refl) as L4.
  split; [reflexivity|]. split; [|split; [|split; [reflexivity|split]]].
  - cbn [first_keyword_first_match first_sheet_with].
    rewrite L1, L3, L4. reflexivity.
  - unfold choose_sheet.
    change (cfg_sheet_patterns (get_config "Suez"))
      with (Some (["registre"; "déchets"] ++ ["data"])%list).
    cbv iota beta zeta. rewrite sheet_patterns_loop_last.
    cbn [first_sheet_with]. rewrite L2, L3. reflexivity.
  - unfold choose_sheet.
    change (cfg_sheet_patterns (get_config "Veolia")) with (@None (list string)).
    cbv iota beta zeta. cbn [map existsb]. rewrite L4.
    change (String.eqb "registre" (Str.lower "Registre")) with true.
    now rewrite orb_true_r.
  - reflexivity.
Qed.

(* ================================================================== *)
(** * Further properties of the engine *)
(* ================================================================== *)

(** ** Column discovery *)

Section ColumnFacts.
Context `{PyRuntime}.

Lemma find_column_in_some (name : string) (columns : list string)
  (col : string) :
  find_column_in name columns = Some col ->
  exists before after,
    columns = (before ++ col :: after)%list
    /\ header_matches name col = true
    /\ (forall c, In c before -> header_matches name c = false).
Proof.
  induction columns as [|c0 r IH]; simpl; [discriminate|].
  fold (header_matches name c0).
  destruct (header_matches name c0) eqn:E.
  - intros [= <-]. exists [], r. repeat split; [exact E|]. intros c [].
  - intros Hr. destruct (IH Hr) as (before & after & -> & Hm & Hb).
    exists (c0 :: before), after. repeat split; [exact Hm|].
    intros c [<-|Hin]; [exact E|exact (Hb c Hin)].
Qed.

Lemma find_column_in_none (name : string) (columns : list string) :
  find_column_in name columns = None
  <-> (forall c, In c columns -> header_matches name c = false).
Proof.
  induction columns as [|c0 r IH]; simpl.
  - split; [intros _ c []|reflexivity].
  - fold (header_matches name c0).
    destruct (header_matches name c0) eqn:E.
    + split; [discriminate|]. intros Hall.
      rewrite (Hall c0 (or_introl eq_refl)) in E. discriminate.
    + rewrite IH. split.
      * intros Hall c [<-|Hin]; [exact E|exact (Hall c Hin)].
      * intros Hall c Hin. apply Hall. now right.
Qed.

Lemma find_column_spec (columns possible_names : list string) :
  (forall col,
      _find_column columns possible_names = Some col ->
      exists names_before name names_after cols_before cols_after,
        possible_names = (names_before ++ name :: names_after)%list
        /\ columns = (cols_before ++ col :: cols_after)%list
        /\ header_matches name col = true
        /\ (forall c, In c cols_before -> header_matches name c = false)
        /\ (forall n c, In n names_before -> In c columns ->
                        header_matches n c = false))
  /\ (_find_column columns possible_names = None
      <-> forall n c, In n possible_names -> In c columns ->
                      header_matches n c = false).
Proof.
  induction possible_names as [|n0 r [IHsome IHnone]]; simpl.
  - split; [discriminate|]. split; [intros _ n c []|reflexivity].
  - destruct (find_column_in n0 columns) as [c0|] eqn:E.
    + split.
      * intros col [= <-].
        destruct (find_column_in_some _ _ _ E) as (cb & ca & Hc & Hm & Hb).
        exists [], n0, r, cb, ca. repeat split; try assumption.
        intros n c [].
      * split; [discriminate|]. intros Hall.
        destruct (find_column_in_some _ _ _ E) as (cb & ca & Hc & Hm & _).
        rewrite (Hall n0 c0 (or_introl eq_refl)) in Hm; [discriminate|].
        rewrite Hc. apply in_elt.
    + pose proof (proj1 (find_column_in_none _ _) E) as Hn0. split.
      * intros col Hcol.
        destruct (IHsome col Hcol)
          as (nb & name & na & cb & ca & -> & Hc & Hm & Hb & Hnb).
        exists (n0 :: nb), name, na, cb, ca. repeat split; try assumption.
        intros n c [<-|Hin] Hc'; [now apply Hn0|now apply Hnb].
      * rewrite IHnone. split.
        -- intros Hall n c [<-|Hin] Hc; [now apply Hn0|now apply Hall].
        -- intros Hall n c Hin Hc. apply Hall; [now right|assumption].
Qed.

(** On ASCII names, a candidate matches a column when it occurs in it,
    letter case apart. *)
Lemma header_matches_ascii (name col : string) :
  Str.is_ascii name = true -> Str.is_ascii col = true ->
  header_matches name col = Str.contains (Str.lower name) (Str.lower col).
Proof.
  intros Hn Hc. unfold header_matches.
  now rewrite (str_lower_ascii name Hn), (str_lower_ascii col Hc).
Qed.

End ColumnFacts.

(** X1. [_find_column] gives priority to the order of the candidate
    headers over the order of the columns: the column returned is the
    first column matching the first candidate that matches any column; it
    returns nothing exactly when no candidate matches any column.  A
    candidate matches a column when its lower-cased form occurs in the
    lower-cased column name; for ASCII names, when it occurs in it, letter
    case apart. *)
Theorem find_column_candidate_priority `{PyRuntime}
  (columns possible_names : list string) :
  (forall col,
      _find_column columns possible_names = Some col ->
      exists names_before name names_after cols_before cols_after,
        possible_names = (names_before ++ name :: names_after)%list
        /\ columns = (cols_before ++ col :: cols_after)%list
        /\ header_matches name col = true
        /\ (forall c, In c cols_before -> header_matches name c = false)
        /\ (forall n c, In n names_before -> In c columns ->
                        header_matches n c = false))
  /\ (_find_column columns possible_names = None
      <-> forall n c, In n possible_names -> In c columns ->
                      header_matches n c = false)
  /\ (forall name col,
        Str.is_ascii name = true -> Str.is_ascii col = true ->
        header_matches name col
        = Str.contains (Str.lower name) (Str.lower col)).
Proof.
  split; [apply find_column_spec|].
  split; [apply find_column_spec|apply header_matches_ascii].
Qed.

(** Every value of the dictionary "Detect columns" builds is a column of
    the input frame. *)
Lemma detect_columns_sound `{PyRuntime} (config : config) (df_input : frame)
  (key col : string) :
  cols_get key (detect_columns config df_input) = Some col ->
  In col (columns df_input).
Proof.
  unfold detect_columns.
  assert (Hgen : forall entries acc,
    (forall k c, cols_get k acc = Some c -> In c (columns df_input)) ->
    forall k c,
      cols_get k
        (fold_left
           (fun cols kp =>
              dict_set (fst kp) (_find_column (columns df_input) (snd kp)) cols)
           entries acc) = Some c ->
      In c (columns df_input)).
  { induction entries as [|[k0 ps] r IH]; intros acc Hacc k c; simpl.
    - apply Hacc.
    - apply IH. intros k' c'. unfold cols_get.
      destruct (String.eqb k0 k') eqn:Ek.
      + apply String.eqb_eq in Ek. subst k'.
        rewrite dict_get_set_same. intros Hf.
        destruct (proj1 (find_column_spec _ _) c' Hf)
          as (_ & _ & _ & cb & ca & _ & -> & _).
        apply in_elt.
      + assert (Hne : k0 <> k').
        { intros ->. rewrite String.eqb_refl in Ek. discriminate. }
        rewrite (dict_get_set_other _ _ _ _ Hne). apply Hacc. }
  apply Hgen. intros k c. unfold cols_get. simpl. discriminate.
Qed.

Lemma row_at_get (df : frame) (i : nat) (col : string) :
  dict_get col (row_at df i)
  = match dict_get col (f_columns df) with
    | Some cells => Some (nth i cells NaN)
    | None => None
    end.
Proof.
  unfold row_at. induction (f_columns df) as [|[l c] r IH]; simpl;
    [reflexivity|].
  destruct (String.eqb col l); [reflexivity|exact IH].
Qed.

(** X2. A column found by "Detect columns" is a column of the input
    frame, so [_safe_get] reads from every row the cell of that column at
    the row's position, or the default when that cell is missing. *)
Theorem discovered_column_is_read `{PyRuntime}
  (config : config) (df_input : frame)
  (key col : string) (i : nat) (default : value) :
  cols_get key (detect_columns config df_input) = Some col ->
  In col (columns df_input)
  /\ exists cells,
       dict_get col (f_columns df_input) = Some cells
       /\ _safe_get (row_at df_input i) (Some col) default
          = if isna (nth i cells NaN) then default else nth i cells NaN.
Proof.
  intros Hc. pose proof (detect_columns_sound _ _ _ _ Hc) as Hin.
  split; [exact Hin|].
  unfold columns in Hin. apply existsb_eqb_In in Hin.
  rewrite dict_get_keys in Hin.
  destruct (dict_get col (f_columns df_input)) as [cells|] eqn:E;
    [|discriminate].
  exists cells. split; [reflexivity|].
  unfold _safe_get, dict_get_value. rewrite row_at_get, E. reflexivity.
Qed.

(** ** The lookups built from the mapping sheets *)

Section FindLast.
Context {A : Type}.

Lemma find_last_some (p : A -> bool) (l : list A) (y : A) :
  find_last p l = Some y ->
  p y = true
  /\ exists before after,
       l = (before ++ y :: after)%list
       /\ (forall z, In z after -> p z = false).
Proof.
  revert y. induction l as [|x r IH]; simpl; [discriminate|]. intros y.
  destruct (find_last p r) as [y'|] eqn:E.
  - intros [= <-]. destruct (IH y' eq_refl) as (Hp & b & a & -> & Ha).
    split; [exact Hp|]. exists (x :: b), a. split; [reflexivity|exact Ha].
  - destruct (p x) eqn:Hx; [|discriminate]. intros [= <-].
    split; [exact Hx|]. exists [], r. split; [reflexivity|].
    clear IH. induction r as [|z r IHr]; [intros z []|].
    simpl in E. destruct (find_last p r) eqn:Er; [discriminate|].
    destruct (p z) eqn:Hz; [discriminate|].
    intros z' [<-|Hin]; [exact Hz|now apply IHr].
Qed.

Lemma find_last_none (p : A -> bool) (l : list A) :
  find_last p l = None <-> (forall z, In z l -> p z = false).
Proof.
  induction l as [|x r IH]; simpl.
  - split; [intros _ z []|reflexivity].
  - destruct (find_last p r) as [y|] eqn:E.
    + split; [discriminate|]. intros Hall.
      destruct (find_last_some _ _ _ E) as (Hp & b & a & Hr & _).
      rewrite Hall in Hp; [discriminate|]. right. rewrite Hr. apply in_elt.
    + destruct (p x) eqn:Hx.
      * split; [discriminate|]. intros Hall.
        rewrite (Hall x (or_introl eq_refl)) in Hx. discriminate.
      * split.
        -- intros _ z [<-|Hin]; [exact Hx|]. now apply (proj1 IH).
        -- reflexivity.
Qed.

Lemma find_last_app_last (p : A -> bool) (before after : list A) (y : A) :
  p y = true -> (forall z, In z after -> p z = false) ->
  find_last p (before ++ y :: after)%list = Some y.
Proof.
  intros Hy Ha. induction before as [|x b IH]; simpl.
  - rewrite (proj2 (find_last_none p after) Ha), Hy. reflexivity.
  - now rewrite IH.
Qed.

Lemma find_last_filter (p q : A -> bool) (l : list A) :
  find_last p (filter q l) = find_last (fun x => (q x && p x)%bool) l.
Proof.
  induction l as [|x r IH]; simpl; [reflexivity|].
  destruct (q x) eqn:Hq; simpl; rewrite IH; [reflexivity|].
  destruct (find_last _ r); reflexivity.
Qed.

Lemma find_last_ext (p q : A -> bool) (l : list A) :
  (forall x, p x = q x) -> find_last p l = find_last q l.
Proof.
  intros Hpq. induction l as [|x r IH]; simpl; [reflexivity|].
  now rewrite IH, Hpq.
Qed.

End FindLast.

Section DictKeys.
Context {V : Type}.

Lemma dict_set_keys (k : string) (v : V) (d : dict V) :
  map fst (dict_set k v d)
  = if existsb (String.eqb k) (map fst d) then map fst d
    else (map fst d ++ [k])%list.
Proof.
  induction d as [|[k' v'] r IH]; simpl; [reflexivity|].
  destruct (String.eqb k k') eqn:E; simpl.
  - apply String.eqb_eq in E. now subst.
  - rewrite IH. destruct (existsb (String.eqb k) (map fst r)); reflexivity.
Qed.

(** Assignment keeps the keys of a dictionary distinct. *)
Lemma dict_set_NoDup (k : string) (v : V) (d : dict V) :
  NoDup (map fst d) -> NoDup (map fst (dict_set k v d)).
Proof.
  intros Hd. rewrite dict_set_keys.
  destruct (existsb (String.eqb k) (map fst d)) eqn:E; [exact Hd|].
  apply NoDup_app; [exact Hd|repeat constructor; intros []|].
  intros x Hx [<-|[]]. apply existsb_eqb_In in Hx. congruence.
Qed.

End DictKeys.

Section MappingFacts.
Context `{PyRuntime}.

Lemma site_mapping_loop_get (rows : list site_row) (acc : dict site_info)
  (k : string) :
  dict_get k (site_mapping_loop rows acc)
  = match find_last (fun r => (site_row_used r
                               && String.eqb (site_row_key r) k)%bool) rows with
    | Some r => Some (site_row_info r)
    | None => dict_get k acc
    end.
Proof.
  unfold site_row_used, site_row_key, site_row_info.
  revert acc. induction rows as [|r rows IH]; intros acc; simpl;
    [reflexivity|].
  rewrite IH.
  destruct (find_last _ rows); [reflexivity|].
  destruct (notna (s_site_prest r)); simpl; [|reflexivity].
  destruct (String.eqb (str_lower (str_strip (py_str (s_site_prest r)))) k)
    eqn:E.
  - apply String.eqb_eq in E. subst k. apply dict_get_set_same.
  - apply dict_get_set_other. intros Hk. rewrite Hk in E.
    rewrite String.eqb_refl in E. discriminate.
Qed.

Lemma site_mapping_loop_NoDup (rows : list site_row) (acc : dict site_info) :
  NoDup (map fst acc) -> NoDup (map fst (site_mapping_loop rows acc)).
Proof.
  revert acc. induction rows as [|r rows IH]; intros acc Hacc; simpl;
    [exact Hacc|].
  apply IH. destruct (notna (s_site_prest r)); [|exact Hacc].
  now apply dict_set_NoDup.
Qed.

(** A cell whose bit of the mask is set is a selected provider cell. *)
Lemma mask_bit_selected (pattern : string) (v : value) :
  mask_bit pattern v true -> provider_selected pattern v.
Proof.
  destruct v as [|s|z|f|b|iso]; simpl; try discriminate.
  intros Hs. exists s. split; [reflexivity|].
  intros Hp Ha Hsa. symmetry. now apply Hs.
Qed.

Lemma select_rows_incl {A} (mask : list bool) (rows : list A) (r : A) :
  In r (select_rows mask rows) -> In r rows.
Proof.
  revert mask. induction rows as [|x rows IH]; intros [|b mask]; simpl;
    try (intros []).
  destruct b.
  - intros [<-|Hin]; [now left|right; exact (IH _ Hin)].
  - intros Hin. right. exact (IH _ Hin).
Qed.

(** The rows a pattern selects from a mapping sheet are rows of the
    sheet whose provider cell the pattern selects. *)
Lemma selected_rows_selected {A} (df : sheet A) (formule : A -> value)
  (pattern : string) (r : A) :
  In r (selected_rows df formule pattern) ->
  In r (sh_rows df) /\ provider_selected pattern (formule r).
Proof.
  unfold selected_rows, provider_column.
  destruct (existsb _ (sh_columns df)); [|intros []].
  destruct (str_contains pattern (map formule (sh_rows df)))
    as [mask|e] eqn:E; [|intros []].
  intros Hin. split; [exact (select_rows_incl _ _ _ Hin)|].
  apply mask_bit_selected.
  apply (select_rows_In (fun r b => mask_bit pattern (formule r) b)
           (sh_rows df) mask r); [|exact Hin].
  apply Forall2_map_l. exact (str_contains_mask _ _ _ E).
Qed.

Lemma site_rows_for_selected (self : ETLProcessor) (pattern : string)
  (r : site_row) :
  In r (site_rows_for self pattern) ->
  In r (sh_rows (site_df self)) /\ provider_selected pattern (s_formule r).
Proof. apply selected_rows_selected. Qed.

Lemma dechet_rows_for_selected (self : ETLProcessor) (pattern : string)
  (r : dechet_row) :
  In r (dechet_rows_for self pattern) ->
  In r (sh_rows (dechet_df self)) /\ provider_selected pattern (d_formule r).
Proof. apply selected_rows_selected. Qed.

(** The lookup, when the mask does not raise, is the loop over the
    selected rows. *)
Lemma get_site_mapping_ok (self : ETLProcessor) (pattern : string)
  (lookup : dict site_info) :
  _get_site_mapping self pattern = Ok lookup ->
  lookup = site_mapping_loop (site_rows_for self pattern) [].
Proof.
  unfold _get_site_mapping, site_rows_for, selected_rows.
  destruct (provider_column (site_df self) s_formule) as [column|];
    [|discriminate].
  destruct (str_contains pattern column); [|discriminate].
  now intros [= <-].
Qed.

Lemma get_dechet_mapping_ok (self : ETLProcessor) (pattern : string)
  (dm : dict value * value) :
  _get_dechet_mapping self pattern = Ok dm ->
  dm = dechet_mapping_loop (dechet_rows_for self pattern) ([], VNone).
Proof.
  unfold _get_dechet_mapping, dechet_rows_for, selected_rows.
  destruct (provider_column (dechet_df self) d_formule) as [column|];
    [|discriminate].
  destruct (str_contains pattern column); [|discriminate].
  now intros [= <-].
Qed.

Lemma site_lookup_last_row_wins_aux
  (self : ETLProcessor) (pattern key : string) (lookup : dict site_info) :
  _get_site_mapping self pattern = Ok lookup ->
  NoDup (map fst lookup)
  /\ dict_get key lookup
     = option_map site_row_info
         (find_last (fun r => (site_row_used r
                               && String.eqb (site_row_key r) key)%bool)
                    (site_rows_for self pattern)).
Proof.
  intros Hl. rewrite (get_site_mapping_ok _ _ _ Hl). split.
  - apply site_mapping_loop_NoDup. constructor.
  - rewrite site_mapping_loop_get. simpl dict_get.
    destruct (find_last _ (site_rows_for self pattern)); reflexivity.
Qed.

End MappingFacts.

(** X3. When the mask of the sheet "Site" does not raise, the site lookup
    of a provider has distinct keys, and under a key it holds the record
    of the last row, among those the mask selects, whose provider-side
    site name is present and whose trimmed, lower-cased name is that key.
    The selected rows are rows of the sheet whose provider cell is a
    string (for a plain ASCII pattern and an ASCII cell, one in which an
    alternative of the pattern occurs, letter case apart): rows of other
    providers, rows without provider and rows without site name never
    contribute. *)
Theorem site_lookup_last_row_wins `{PyRuntime}
  (self : ETLProcessor) (pattern key : string) (lookup : dict site_info) :
  _get_site_mapping self pattern = Ok lookup ->
  NoDup (map fst lookup)
  /\ dict_get key lookup
     = option_map site_row_info
         (find_last (fun r => (site_row_used r
                               && String.eqb (site_row_key r) key)%bool)
                    (site_rows_for self pattern))
  /\ (forall r, In r (site_rows_for self pattern) ->
        In r (sh_rows (site_df self))
        /\ provider_selected pattern (s_formule r)).
Proof.
  intros Hl.
  destruct (site_lookup_last_row_wins_aux self pattern key lookup Hl)
    as [Hnd Hget].
  split; [exact Hnd|]. split; [exact Hget|].
  apply site_rows_for_selected.
Qed.

(** X4. A site name of a selected row of the sheet "Site", written in any
    case and with any surrounding white space, resolves by exact key to
    the record of its row, provided no later selected row has the same
    key. *)
Theorem site_sheet_name_resolves `{PyRuntime}
  (self : ETLProcessor) (pattern : string) (lookup : dict site_info)
  (before after : list site_row) (r : site_row) (site_name : value) :
  _get_site_mapping self pattern = Ok lookup ->
  site_rows_for self pattern = (before ++ r :: after)%list ->
  site_row_used r = true ->
  (forall z, In z after ->
             (site_row_used z
              && String.eqb (site_row_key z) (site_row_key r))%bool = false) ->
  isna site_name = false ->
  str_lower (str_strip (py_str site_name)) = site_row_key r ->
  _map_site site_name lookup = Some (site_row_info r).
Proof.
  intros Hl Hdf Hused Hlast Hna Hkey.
  unfold _map_site. rewrite Hna, Hkey.
  rewrite (proj2 (site_lookup_last_row_wins_aux self pattern (site_row_key r)
                    lookup Hl)).
  rewrite Hdf, (find_last_app_last _ before after r); [reflexivity| |exact Hlast].
  now rewrite Hused, String.eqb_refl.
Qed.

Section WasteFacts.
Context `{PyRuntime}.

Lemma dechet_mapping_loop_spec (rows : list dechet_row)
  (lookup : dict value) (default : value) (k : string) :
  dict_get k (fst (dechet_mapping_loop rows (lookup, default)))
  = match find_last (fun r => (dechet_row_maps r
                               && String.eqb (dechet_row_key r) k)%bool)
                    rows with
    | Some r => Some (d_urbyn r)
    | None => dict_get k lookup
    end
  /\ snd (dechet_mapping_loop rows (lookup, default))
     = match find_last dechet_row_default rows with
       | Some r => d_urbyn r
       | None => default
       end.
Proof.
  unfold dechet_row_maps, dechet_row_default, dechet_row_key, notna.
  revert lookup default.
  induction rows as [|r rows IH]; intros lookup default; simpl;
    [split; reflexivity|].
  unfold notna.
  destruct (isna (d_prest r)) eqn:Ep; destruct (isna (d_urbyn r)) eqn:Eu;
    simpl;
    match goal with
    | |- context [dechet_mapping_loop rows (?l, ?d)] =>
        destruct (IH l d) as [IH1 IH2]; rewrite IH1, IH2
    end;
    split;
    repeat match goal with
           | |- context [match find_last ?p rows with _ => _ end] =>
               destruct (find_last p rows)
           end;
    try reflexivity.
  destruct (String.eqb (str_lower (str_strip (py_str (d_prest r)))) k)
    eqn:E.
  - apply String.eqb_eq in E. subst k. apply dict_get_set_same.
  - apply dict_get_set_other. intros Hk. rewrite Hk in E.
    rewrite String.eqb_refl in E. discriminate.
Qed.

End WasteFacts.

(** X5. Waste resolution against the sheet "Déchet", when its mask does
    not raise: a value that is neither missing nor blank resolves to the
    canonical name of the last selected row whose provider-side name has
    the same trimmed, lower-cased form; any other value resolves to the
    canonical name of the last selected row without provider-side name,
    and to nothing when there is no such row.  The selected rows are rows
    of the sheet whose provider cell the pattern selects. *)
Theorem waste_resolution_from_sheet `{PyRuntime}
  (self : ETLProcessor) (pattern : string) (v : value)
  (lookup : dict value) (default : value) :
  _get_dechet_mapping self pattern = Ok (lookup, default) ->
  _map_dechet v lookup default
  = sheet_waste (dechet_rows_for self pattern) v
  /\ (forall r, In r (dechet_rows_for self pattern) ->
        In r (sh_rows (dechet_df self))
        /\ provider_selected pattern (d_formule r)).
Proof.
  intros Hdm. split; [|apply dechet_rows_for_selected].
  apply get_dechet_mapping_ok in Hdm.
  destruct (dechet_mapping_loop_spec (dechet_rows_for self pattern) [] VNone
              (str_lower (str_strip (py_str v)))) as [Hl Hd].
  unfold dict in *. rewrite <- Hdm in Hl, Hd.
  simpl fst in Hl. simpl snd in Hd.
  unfold _map_dechet, sheet_waste. cbv zeta. fold (blank_waste v).
  rewrite Hl, Hd. simpl dict_get.
  destruct (blank_waste v); [reflexivity|].
  destruct (find_last _ (dechet_rows_for self pattern)); reflexivity.
Qed.

(** ** The site code *)

Lemma startswith_split (p s : string) :
  Str.startswith p s = true -> exists rest, s = p ++ rest.
Proof.
  revert s. induction p as [|a p IH]; intros s; simpl.
  - intros _. exists s. reflexivity.
  - destruct s as [|b s]; [discriminate|].
    destruct (Ascii.eqb a b) eqn:E; [|discriminate]. simpl.
    apply Ascii.eqb_eq in E. subst b. intros Hp.
    destruct (IH s Hp) as [rest ->]. exists rest. reflexivity.
Qed.

Lemma startswith_app (p a b : string) :
  Str.startswith p a = true -> Str.startswith p (a ++ b) = true.
Proof.
  revert a. induction p as [|c p IH]; intros a; simpl; [reflexivity|].
  destruct a as [|d a]; [discriminate|]. simpl.
  destruct (Ascii.eqb c d); [apply IH|discriminate].
Qed.

Lemma contains_unfold (sub s : string) :
  Str.contains sub s
  = if Str.startswith sub s then true
    else match s with
         | EmptyString => false
         | String _ r => Str.contains sub r
         end.
Proof. destruct s; reflexivity. Qed.

Lemma before_unfold (sep s : string) :
  before sep s
  = if Str.startswith sep s then EmptyString
    else match s with
         | EmptyString => EmptyString
         | String c r => String c (before sep r)
         end.
Proof. destruct s; reflexivity. Qed.

(** A string that contains the separator is the part before its first
    occurrence, the separator and a rest; that part does not contain the
    separator. *)
Lemma before_split (sep s : string) :
  sep <> EmptyString ->
  Str.contains sep s = true ->
  (exists rest, s = before sep s ++ sep ++ rest)
  /\ Str.contains sep (before sep s) = false.
Proof.
  intros Hsep. induction s as [|c s IH]; rewrite contains_unfold, before_unfold.
  - destruct (Str.startswith sep EmptyString) eqn:E; [|simpl; discriminate].
    intros _. destruct sep; [contradiction|simpl in E; discriminate].
  - destruct (Str.startswith sep (String c s)) eqn:E.
    + intros _. split.
      * destruct (startswith_split _ _ E) as [rest Hr]. exists rest. exact Hr.
      * rewrite contains_unfold. destruct sep; [contradiction|reflexivity].
    + intros Hc. destruct (IH Hc) as [[rest Hr] Hno]. split.
      * exists rest. simpl. now rewrite <- Hr.
      * rewrite contains_unfold.
        destruct (Str.startswith sep (String c (before sep s))) eqn:E'.
        -- apply (startswith_app _ _ (sep ++ rest)) in E'.
           simpl in E'. rewrite <- Hr in E'. congruence.
        -- exact Hno.
Qed.

Lemma before_code (code rest : string) :
  Str.contains " " code = false ->
  before " - " (code ++ " - " ++ rest) = code
  /\ Str.contains " - " (code ++ " - " ++ rest) = true.
Proof.
  induction code as [|c code IH]; intros Hc.
  - split; reflexivity.
  - rewrite contains_unfold in Hc.
    destruct (Str.startswith " " (String c code)) eqn:E; [discriminate|].
    destruct (IH Hc) as [IH1 IH2].
    change (String c code ++ " - " ++ rest)
      with (String c (code ++ " - " ++ rest)).
    remember (code ++ " - " ++ rest) as t eqn:Et.
    assert (Hs : Str.startswith " - " (String c t) = false).
    { change (Str.startswith " " (String c code))
        with (Ascii.eqb " " c && Str.startswith EmptyString code)%bool in E.
      change (Str.startswith " - " (String c t))
        with (Ascii.eqb " " c && Str.startswith "- " t)%bool.
      destruct (Ascii.eqb " " c); [|reflexivity].
      destruct code; discriminate E. }
    split.
    + rewrite before_unfold, Hs. now rewrite IH1.
    + rewrite contains_unfold, Hs. exact IH2.
Qed.

(** X6. [_extract_code_site] returns the part of the canonical site name
    before the first " - ", which itself contains no " - ", and nothing
    when the name is missing or has no " - "; a code without space followed
    by " - " and any label is returned as it is. *)
Theorem extract_code_site_splits_on_first_separator `{PyRuntime}
  (nom : value) :
  match _extract_code_site nom with
  | VStr code =>
      isna nom = false
      /\ (exists rest, py_str nom = code ++ " - " ++ rest)
      /\ Str.contains " - " code = false
  | VNone => isna nom = true \/ Str.contains " - " (py_str nom) = false
  | _ => False
  end
  /\ (forall code rest,
         Str.contains " " code = false ->
         _extract_code_site (VStr (code ++ " - " ++ rest)) = VStr code).
Proof.
  split.
  - unfold _extract_code_site.
    destruct (isna nom) eqn:Hna; [now left|].
    destruct (Str.contains " - " (py_str nom)) eqn:Hc; [|now right].
    destruct (before_split " - " (py_str nom)) as [Hsplit Hno];
      [discriminate|exact Hc|].
    repeat split; assumption.
  - intros code rest Hcode. unfold _extract_code_site.
    change (isna (VStr (code ++ " - " ++ rest))) with false. cbv iota.
    change (py_str (VStr (code ++ " - " ++ rest)))
      with (code ++ " - " ++ rest).
    destruct (before_code code rest Hcode) as [Hb Hc].
    now rewrite Hc, Hb.
Qed.

(** The canonical name "PAR01 - Paris HQ - Bat. B" has the code "PAR01". *)
Lemma extract_code_site_splits_on_first_separator_witness :
  _extract_code_site (H := sample_runtime) (VStr "PAR01 - Paris HQ - Bat. B")
  = VStr "PAR01".
Proof.
  exact (proj2
    (extract_code_site_splits_on_first_separator (H := sample_runtime) VNone)
    "PAR01" "Paris HQ - Bat. B" eq_refl).
Defined.

(** ** Header detection and file reading *)

Section ReadingFacts.
Context `{PyRuntime}.

Lemma detect_header_row_spec (raw : list (list value)) (start : nat) :
  (exists before cells after,
      raw = (before ++ cells :: after)%list
      /\ looks_like_header cells = true
      /\ (forall c, In c before -> looks_like_header c = false)
      /\ detect_header_row raw start = (start + List.length before)%nat)
  \/ ((forall c, In c raw -> looks_like_header c = false)
      /\ detect_header_row raw start = O).
Proof.
  revert start. induction raw as [|cells r IH]; intros start; simpl.
  - right. split; [intros c []|reflexivity].
  - destruct (looks_like_header cells) eqn:E.
    + left. exists [], cells, r. simpl. repeat split; try assumption.
      * intros c [].
      * now rewrite Nat.add_0_r.
    + destruct (IH (S start)) as [(b & c & a & -> & Hc & Hb & Hr)|[Hall Hr]].
      * left. exists (cells :: b), c, a. repeat split; try assumption.
        -- intros c' [<-|Hin]; [exact E|exact (Hb c' Hin)].
        -- rewrite Hr. simpl. now rewrite Nat.add_succ_r.
      * right. split; [|exact Hr].
        intros c [<-|Hin]; [exact E|exact (Hall c Hin)].
Qed.

End ReadingFacts.

(** X7. Header detection returns the position of the first line, among
    those read, whose text contains "date" and one of "poids", "kg",
    "matière"; it returns 0 when no line does, so the result is always the
    position of a line read or 0. *)
Theorem header_row_is_first_header_like_line `{PyRuntime}
  (raw : list (list value)) :
  let i := detect_header_row raw O in
  (exists before cells after,
      raw = (before ++ cells :: after)%list
      /\ List.length before = i
      /\ looks_like_header cells = true
      /\ (forall c, In c before -> looks_like_header c = false))
  \/ ((forall c, In c raw -> looks_like_header c = false) /\ i = O).
Proof.
  cbv zeta.
  destruct (detect_header_row_spec raw O)
    as [(b & c & a & Hraw & Hc & Hb & Hr)|[Hall Hr]].
  - left. exists b, c, a. repeat split; try assumption. now rewrite Hr.
  - right. split; assumption.
Qed.

(** ** The batch *)

Section BatchFacts.
Context `{PyRuntime}.

(** The loop, when no row raises: it appends the rows kept and counts the
    rows dropped, in order. *)
Lemma process_rows_all_ok (self : ETLProcessor) (rows : list series)
  (cols : dict (option string)) (prestataire : string) (config : config)
  (dechet_lookup : dict value) (default_dechet : value)
  (site_lookup : dict site_info) (results : list (option (dict value)))
  (output_rows : list (dict value)) (skipped : nat) (log : list string) :
  map (fun row => row_outcome self row cols prestataire config dechet_lookup
                    default_dechet site_lookup) rows
  = map Ok results ->
  process_rows self rows cols prestataire config dechet_lookup default_dechet
    site_lookup output_rows skipped log
  = (Ok ((output_rows ++ kept_rows results)%list,
         (skipped + dropped_count results)%nat),
     (log ++ flat_map (fun row => row_warnings row cols site_lookup) rows)%list).
Proof.
  revert results output_rows skipped log.
  induction rows as [|row rows IH]; intros results output_rows skipped log Hres.
  - destruct results; [|discriminate]. simpl.
    now rewrite !app_nil_r, Nat.add_0_r.
  - destruct results as [|res results]; [discriminate|].
    simpl in Hres. injection Hres as Hrow Hrest.
    rewrite process_rows_step, Hrow. cbv zeta.
    destruct res as [out|]; rewrite (IH results _ _ _ Hrest); simpl.
    + unfold kept_rows. simpl. unfold dropped_count. simpl.
      now rewrite <- !app_assoc.
    + unfold kept_rows. simpl. unfold dropped_count. simpl.
      now rewrite <- app_assoc, Nat.add_succ_r.
Qed.

(** The loop, when a row raises: the fault and the warnings up to that
    row, that row included. *)
Lemma process_rows_raise (self : ETLProcessor) (before after : list series)
  (row : series) (cols : dict (option string)) (prestataire : string)
  (config : config) (dechet_lookup : dict value) (default_dechet : value)
  (site_lookup : dict site_info) (results : list (option (dict value)))
  (e : string) (output_rows : list (dict value)) (skipped : nat)
  (log : list string) :
  map (fun row => row_outcome self row cols prestataire config dechet_lookup
                    default_dechet site_lookup) before
  = map Ok results ->
  row_outcome self row cols prestataire config dechet_lookup default_dechet
    site_lookup = Raise e ->
  process_rows self (before ++ row :: after)%list cols prestataire config
    dechet_lookup default_dechet site_lookup output_rows skipped log
  = (Raise e,
     (log ++ flat_map (fun row => row_warnings row cols site_lookup)
               (before ++ [row]))%list).
Proof.
  revert results output_rows skipped log.
  induction before as [|r before IH];
    intros results output_rows skipped log Hres He.
  - simpl app. rewrite process_rows_step, He. simpl. now rewrite app_nil_r.
  - destruct results as [|res results]; [discriminate|].
    simpl in Hres. injection Hres as Hrow Hrest.
    simpl app. rewrite process_rows_step, Hrow. cbv zeta.
    destruct res as [out|]; rewrite (IH results _ _ _ Hrest He); simpl;
      now rewrite <- app_assoc.
Qed.

(** Either every row has an outcome that is not a raise, or there is a
    first row that raises. *)
Lemma outcomes_split {A} (f : series -> outcome A) (rows : list series) :
  (exists results, map f rows = map Ok results)
  \/ (exists before row after results e,
         rows = (before ++ row :: after)%list
         /\ map f before = map Ok results
         /\ f row = Raise e).
Proof.
  induction rows as [|row rows IH].
  - left. exists []. reflexivity.
  - destruct (f row) as [res|e] eqn:E.
    + destruct IH as [[results Hr]|(b & r & a & results & e & -> & Hb & He)].
      * left. exists (res :: results). simpl. now rewrite E, Hr.
      * right. exists (row :: b), r, a, (res :: results), e.
        repeat split; [|exact He]. simpl. now rewrite E, Hb.
    + right. exists [], row, rows, [], e. repeat split. exact E.
Qed.

Lemma kept_dropped_length (results : list (option (dict value))) :
  (List.length (kept_rows results) + dropped_count results)%nat
  = List.length results.
Proof.
  unfold kept_rows, dropped_count.
  induction results as [|[out|] r IH]; simpl; [reflexivity| |].
  - now rewrite IH.
  - now rewrite Nat.add_succ_r, IH.
Qed.

Lemma collect_rows_unfold (self : ETLProcessor) (files : list upload)
  (prestataire : string) (log : list string) :
  collect_rows self files prestataire log
  = match run_mappings self prestataire with
    | Raise e => (Raise e, log)
    | Ok _ =>
        match read_input files prestataire with
        | Raise e => (Raise e, log)
        | Ok df_input =>
            process_rows self (iterrows df_input)
              (run_cols prestataire df_input)
              prestataire (get_config prestataire)
              (fst (run_dechet_mapping self prestataire))
              (snd (run_dechet_mapping self prestataire))
              (run_site_lookup self prestataire) [] O log
        end
    end.
Proof.
  unfold collect_rows, run_mappings, read_input, run_cols, run_site_lookup,
    run_dechet_mapping, run_pattern, bind, lift.
  destruct (_get_dechet_mapping self _) as [[dl dd]|e]; [|reflexivity].
  destruct (_get_site_mapping self _) as [sl|e]; [|reflexivity].
  destruct (read_files files prestataire) as [dfs|e]; [|reflexivity].
  destruct (combine dfs) as [df|e]; reflexivity.
Qed.

(** The result of [process] from the outcomes of the rows. *)
Lemma process_success_from_rows (self : ETLProcessor) (log : list string)
  (files : list upload) (prestataire : string)
  (m : dict value * value * dict site_info) (df_input : frame)
  (results : list (option (dict value))) :
  run_mappings self prestataire = Ok m ->
  read_input files prestataire = Ok df_input ->
  map (run_row self prestataire df_input) (iterrows df_input)
  = map Ok results ->
  process self log files prestataire
  = {| success := true; error := None;
       data := Some {| f_nrows := List.length (kept_rows results);
                       f_columns :=
                         map (fun l => (l, expected_column l
                                             (kept_rows results)))
                             (template_columns self) |};
       rows_processed := List.length (kept_rows results);
       rows_skipped := dropped_count results;
       warnings :=
         flat_map (run_row_warnings self prestataire df_input)
                  (iterrows df_input) |}.
Proof.
  intros Hm Hin Hres. unfold process, process_body, bind.
  rewrite collect_rows_unfold, Hm, Hin.
  unfold run_row in Hres.
  rewrite (process_rows_all_ok _ _ _ _ _ _ _ _ results [] O [] Hres).
  unfold lift. rewrite assemble_ok. reflexivity.
Qed.

Lemma process_failure_from_row (self : ETLProcessor) (log : list string)
  (files : list upload) (prestataire : string)
  (m : dict value * value * dict site_info) (df_input : frame)
  (before after : list series) (row : series)
  (results : list (option (dict value))) (e : string) :
  run_mappings self prestataire = Ok m ->
  read_input files prestataire = Ok df_input ->
  iterrows df_input = (before ++ row :: after)%list ->
  map (run_row self prestataire df_input) before = map Ok results ->
  run_row self prestataire df_input row = Raise e ->
  process self log files prestataire
  = failure e (flat_map (run_row_warnings self prestataire df_input)
                        (before ++ [row])).
Proof.
  intros Hm Hin Hrows Hres He. unfold process, process_body, bind.
  rewrite collect_rows_unfold, Hm, Hin, Hrows.
  unfold run_row in Hres, He.
  rewrite (process_rows_raise _ _ _ _ _ _ _ _ _ _ results e [] O [] Hres He).
  reflexivity.
Qed.

(** The three ways a call of [process] ends: before the first row, when
    a mask or the reading of the files raises; with every row done; at
    the first row that raises. *)
Lemma process_trichotomy (self : ETLProcessor) (log : list string)
  (files : list upload) (prestataire : string) :
  (exists e, (run_mappings self prestataire = Raise e
              \/ read_input files prestataire = Raise e)
             /\ process self log files prestataire = failure e [])
  \/ (exists m df_input results,
         run_mappings self prestataire = Ok m
         /\ read_input files prestataire = Ok df_input
         /\ map (run_row self prestataire df_input) (iterrows df_input)
            = map Ok results
         /\ success (process self log files prestataire) = true)
  \/ (exists m df_input before row after results e,
         run_mappings self prestataire = Ok m
         /\ read_input files prestataire = Ok df_input
         /\ iterrows df_input = (before ++ row :: after)%list
         /\ map (run_row self prestataire df_input) before = map Ok results
         /\ run_row self prestataire df_input row = Raise e
         /\ success (process self log files prestataire) = false).
Proof.
  destruct (run_mappings self prestataire) as [m|e] eqn:Hm.
  - destruct (read_input files prestataire) as [df|e] eqn:Hin.
    + destruct (outcomes_split (run_row self prestataire df) (iterrows df))
        as [[results Hr]|(b & r & a & results & e & Hrows & Hb & He)].
      * right. left. exists m, df, results. repeat split; try assumption.
        now rewrite (process_success_from_rows _ _ _ _ _ _ _ Hm Hin Hr).
      * right. right. exists m, df, b, r, a, results, e.
        repeat split; try assumption.
        now rewrite (process_failure_from_row _ _ _ _ _ _ _ _ _ _ _
                       Hm Hin Hrows Hb He).
    + left. exists e. split; [now right|].
      unfold process, process_body, bind.
      rewrite collect_rows_unfold, Hm, Hin. reflexivity.
  - left. exists e. split; [now left|].
    unfold process, process_body, bind. rewrite collect_rows_unfold, Hm.
    reflexivity.
Qed.

End BatchFacts.

Lemma map_eq_preimage {A B C} (f : A -> C) (g : B -> C) (l : list A)
  (l' : list B) :
  map f l = map g l' ->
  List.length l = List.length l'
  /\ forall y, In y l' -> exists x, In x l /\ f x = g y.
Proof.
  revert l'. induction l as [|x l IH]; intros [|y l'] Hm; try discriminate.
  - split; [reflexivity|intros y []].
  - simpl in Hm. injection Hm as Hxy Hrest.
    destruct (IH l' Hrest) as [Hlen Hpre]. split; [simpl; now rewrite Hlen|].
    intros y' [<-|Hin].
    + exists x. split; [now left|exact Hxy].
    + destruct (Hpre y' Hin) as (x' & Hx' & Hf). exists x'. split;
        [now right|exact Hf].
Qed.

Lemma iterrows_length (df : frame) :
  List.length (iterrows df) = f_nrows df.
Proof. unfold iterrows. now rewrite length_map, length_seq. Qed.

Lemma kept_rows_in (results : list (option (dict value))) (out : dict value) :
  In out (kept_rows results) <-> In (Some out) results.
Proof.
  unfold kept_rows. rewrite in_flat_map. split.
  - intros ([o|] & Hin & Ho); simpl in Ho; [|contradiction].
    destruct Ho as [<-|[]]. exact Hin.
  - intros Hin. exists (Some out). split; [exact Hin|now left].
Qed.

Lemma dropped_count_zero (results : list (option (dict value))) :
  (forall r, In r results -> r <> None) -> dropped_count results = O.
Proof.
  unfold dropped_count. induction results as [|[out|] r IH]; intros Hall;
    simpl; [reflexivity| |].
  - apply IH. intros x Hin. apply Hall. now right.
  - exfalso. apply (Hall None); [now left|reflexivity].
Qed.

Lemma every_input_row_is_counted_aux `{PyRuntime}
  (self : ETLProcessor) (log : list string) (files : list upload)
  (prestataire : string) :
  success (process self log files prestataire) = true ->
  exists df_input,
    read_input files prestataire = Ok df_input
    /\ (rows_processed (process self log files prestataire)
        + rows_skipped (process self log files prestataire))%nat
       = f_nrows df_input.
Proof.
  intros Hs.
  destruct (process_trichotomy self log files prestataire)
    as [(e & _ & Hp)|[(m & df & results & Hm & Hin & Hr & _)
                     |(m & df & b & r & a & results & e & _ & _ & _ & _ & _
                       & Hf)]].
  - rewrite Hp in Hs. discriminate.
  - exists df. split; [exact Hin|].
    rewrite (process_success_from_rows _ _ _ _ _ _ _ Hm Hin Hr). simpl.
    rewrite kept_dropped_length.
    destruct (map_eq_preimage _ _ _ _ Hr) as [Hlen _].
    now rewrite <- Hlen, iterrows_length.
  - congruence.
Qed.

(** X8. On success every line of the input is accounted for: the rows
    processed and the rows skipped add up to the number of lines of the
    combined input. *)
Theorem every_input_row_is_counted `{PyRuntime}
  (self : ETLProcessor) (log : list string) (files : list upload)
  (prestataire : string) :
  success (process self log files prestataire) = true ->
  exists df_input,
    read_input files prestataire = Ok df_input
    /\ (rows_processed (process self log files prestataire)
        + rows_skipped (process self log files prestataire))%nat
       = f_nrows df_input.
Proof. apply every_input_row_is_counted_aux. Qed.

(** X9. A provider without the strict-movement flag never skips a row: on
    success the skipped count is 0 and every line of the input is in the
    output. *)
Theorem no_row_skipped_without_flag `{PyRuntime}
  (self : ETLProcessor) (log : list string) (files : list upload)
  (prestataire : string) :
  cfg_bsdd_format (get_config prestataire) = false ->
  success (process self log files prestataire) = true ->
  rows_skipped (process self log files prestataire) = O
  /\ exists df_input,
       read_input files prestataire = Ok df_input
       /\ rows_processed (process self log files prestataire)
          = f_nrows df_input.
Proof.
  intros Hflag Hs.
  destruct (process_trichotomy self log files prestataire)
    as [(e & _ & Hp)|[(m & df & results & Hm & Hin & Hr & _)
                     |(m & df & b & r & a & results & e & _ & _ & _ & _ & _
                       & Hf)]].
  - rewrite Hp in Hs. discriminate.
  - destruct (map_eq_preimage _ _ _ _ Hr) as [Hlen Hpre].
    assert (Hz : dropped_count results = O).
    { apply dropped_count_zero. intros res Hin' ->.
      destruct (Hpre None Hin') as (row & _ & Hrow).
      unfold run_row in Hrow.
      apply row_dropped_only_weightless in Hrow. destruct Hrow as [Hb _].
      congruence. }
    rewrite (process_success_from_rows _ _ _ _ _ _ _ Hm Hin Hr). simpl.
    split; [exact Hz|]. exists df. split; [exact Hin|].
    pose proof (kept_dropped_length results) as Hk. rewrite Hz in Hk.
    rewrite Nat.add_0_r in Hk. now rewrite Hk, <- Hlen, iterrows_length.
  - congruence.
Qed.

Section WarningFacts.
Context `{PyRuntime}.

Lemma row_warnings_cases (row : series) (cols : dict (option string))
  (site_lookup : dict site_info) :
  (_map_site (site_name_of row cols) site_lookup <> None
   /\ row_warnings row cols site_lookup = [])
  \/ (_map_site (site_name_of row cols) site_lookup = None
      /\ row_warnings row cols site_lookup
         = [site_warning (site_name_of row cols)]).
Proof.
  unfold row_warnings.
  destruct (_map_site (site_name_of row cols) site_lookup);
    [left; split; [discriminate|reflexivity]|right; split; reflexivity].
Qed.

Lemma flat_row_warnings (rows : list series) (cols : dict (option string))
  (site_lookup : dict site_info) :
  (List.length (flat_map (fun row => row_warnings row cols site_lookup) rows)
   <= List.length rows)%nat
  /\ (forall w,
         In w (flat_map (fun row => row_warnings row cols site_lookup) rows) ->
         exists row, In row rows
                     /\ _map_site (site_name_of row cols) site_lookup = None
                     /\ w = site_warning (site_name_of row cols)).
Proof.
  split.
  - induction rows as [|row rows IH]; simpl; [constructor|].
    rewrite length_app.
    destruct (row_warnings_cases row cols site_lookup) as [[_ ->]|[_ ->]];
      simpl; [now apply Nat.le_le_succ_r|now apply le_n_S].
  - intros w Hin. apply in_flat_map in Hin. destruct Hin as (row & Hrow & Hw).
    exists row. split; [exact Hrow|].
    destruct (row_warnings_cases row cols site_lookup) as [[_ E]|[Hn E]];
      rewrite E in Hw; [destruct Hw|].
    destruct Hw as [<-|[]]. split; [exact Hn|reflexivity].
Qed.

(** The log of any call, read off the three ways it ends. *)
Lemma process_warnings_rows (self : ETLProcessor) (log : list string)
  (files : list upload) (prestataire : string) :
  warnings (process self log files prestataire) = []
  \/ exists df_input rows,
       read_input files prestataire = Ok df_input
       /\ (exists after, iterrows df_input = (rows ++ after)%list)
       /\ (success (process self log files prestataire) = true ->
           rows = iterrows df_input)
       /\ warnings (process self log files prestataire)
          = flat_map (run_row_warnings self prestataire df_input) rows.
Proof.
  destruct (process_trichotomy self log files prestataire)
    as [(e & _ & Hp)|[(m & df & results & Hm & Hin & Hr & _)
                     |(m & df & b & r & a & results & e & Hm & Hin & Hrows
                       & Hb & He & _)]].
  - left. now rewrite Hp.
  - right. exists df, (iterrows df). split; [exact Hin|].
    split; [exists []; now rewrite app_nil_r|]. split; [reflexivity|].
    now rewrite (process_success_from_rows _ _ _ _ _ _ _ Hm Hin Hr).
  - right. exists df, (b ++ [r])%list. split; [exact Hin|].
    split; [exists a; now rewrite Hrows, <- app_assoc|].
    rewrite (process_failure_from_row _ _ _ _ _ _ _ _ _ _ _ Hm Hin Hrows Hb He).
    split; [discriminate|reflexivity].
Qed.

End WarningFacts.

(** X10. Every warning a call returns is a "No site mapping for" message
    for the site value of a line of the input that has no mapping, and
    there is at most one per line: on success the warnings are no more
    than the rows processed and skipped together. *)
Theorem warnings_are_unmapped_sites `{PyRuntime}
  (self : ETLProcessor) (log : list string) (files : list upload)
  (prestataire : string) :
  let r := process self log files prestataire in
  (forall w, In w (warnings r) ->
     exists df_input row,
       read_input files prestataire = Ok df_input
       /\ In row (iterrows df_input)
       /\ _map_site (site_name_of row (run_cols prestataire df_input))
            (run_site_lookup self prestataire) = None
       /\ w = site_warning (site_name_of row (run_cols prestataire df_input)))
  /\ (success r = true ->
      (List.length (warnings r) <= rows_processed r + rows_skipped r)%nat).
Proof.
  cbv zeta. split.
  - intros w Hw.
    destruct (process_warnings_rows self log files prestataire)
      as [E|(df & rows & Hin & [after Hrows] & _ & E)]; rewrite E in Hw.
    + destruct Hw.
    + unfold run_row_warnings in Hw.
      destruct (proj2 (flat_row_warnings rows _ _) w Hw)
        as (row & Hrow & Hn & ->).
      exists df, row. repeat split; try assumption.
      rewrite Hrows. apply in_or_app. now left.
  - intros Hs.
    destruct (every_input_row_is_counted_aux self log files prestataire Hs)
      as (df & Hin & ->).
    destruct (process_warnings_rows self log files prestataire)
      as [E|(df' & rows & Hin' & _ & Hall & E)]; rewrite E.
    + apply Nat.le_0_l.
    + rewrite Hin in Hin'. injection Hin' as <-. rewrite (Hall Hs).
      rewrite <- iterrows_length. unfold run_row_warnings.
      apply flat_row_warnings.
Qed.

Section ColumnFacts.

Lemma expected_column_constant (col : string) (v : value)
  (kept : list (dict value)) :
  (forall out, In out kept -> dict_get col out = Some v) ->
  expected_column col kept = List.repeat v (List.length kept).
Proof.
  intros Hall. unfold expected_column.
  destruct kept as [|out0 kept]; [reflexivity|].
  assert (Hhas : existsb (dict_has col) (out0 :: kept) = true).
  { simpl. unfold dict_has at 1. now rewrite (Hall out0 (or_introl eq_refl)). }
  rewrite Hhas. clear Hhas.
  induction (out0 :: kept) as [|o l IH]; [reflexivity|]. simpl.
  unfold cell at 1. rewrite (Hall o (or_introl eq_refl)). f_equal.
  apply IH. intros out Hin. apply Hall. now right.
Qed.

Lemma expected_column_absent (col : string) (kept : list (dict value)) :
  (forall out, In out kept -> dict_get col out = None) ->
  expected_column col kept = List.repeat VNone (List.length kept).
Proof.
  intros Hall. unfold expected_column.
  assert (Hhas : existsb (dict_has col) kept = false).
  { induction kept as [|o l IH]; [reflexivity|]. simpl.
    unfold dict_has at 1. rewrite (Hall o (or_introl eq_refl)). simpl.
    apply IH. intros out Hin. apply Hall. now right. }
  now rewrite Hhas.
Qed.

Lemma expected_column_present (col : string) (kept : list (dict value)) :
  (forall out, In out kept -> dict_get col out <> None) ->
  expected_column col kept = map (cell col) kept.
Proof.
  intros Hall. unfold expected_column.
  destruct kept as [|o l]; [reflexivity|].
  assert (Hhas : existsb (dict_has col) (o :: l) = true).
  { simpl. unfold dict_has at 1.
    destruct (dict_get col o) eqn:E; [reflexivity|].
    exfalso. apply (Hall o (or_introl eq_refl) E). }
  now rewrite Hhas.
Qed.

End ColumnFacts.

Section KeptRowFacts.
Context `{PyRuntime}.

Lemma returned_row_keys (self : ETLProcessor) (row : series)
  (cols : dict (option string)) (prestataire : string) (config : config)
  (dechet_lookup : dict value) (default_dechet : value)
  (site_lookup : dict site_info) (out : dict value) :
  row_outcome self row cols prestataire config dechet_lookup default_dechet
    site_lookup = Ok (Some out) ->
  map fst out = OUTPUT_FIELDS.
Proof.
  unfold row_outcome.
  destruct (cfg_bsdd_format config && _)%bool; [discriminate|].
  destruct (convert_weight config (weight_of row cols)); [|discriminate].
  destruct (container_info _ _); [|discriminate].
  destruct (volume_total _ _); [|discriminate].
  intros [= <-]. reflexivity.
Qed.

(** The rows kept by a successful call come from lines of the input. *)
Lemma kept_row_origin (self : ETLProcessor) (prestataire : string)
  (df_input : frame) (results : list (option (dict value)))
  (out : dict value) :
  map (run_row self prestataire df_input) (iterrows df_input)
  = map Ok results ->
  In out (kept_rows results) ->
  exists row, In row (iterrows df_input)
              /\ run_row self prestataire df_input row = Ok (Some out).
Proof.
  intros Hr Hin. apply kept_rows_in in Hin.
  destruct (map_eq_preimage _ _ _ _ Hr) as [_ Hpre].
  exact (Hpre (Some out) Hin).
Qed.

End KeptRowFacts.

Section KeptKeys.
Context `{PyRuntime}.

(** The rows the loop appends have the 45 registry fields. *)
Lemma process_rows_keys (self : ETLProcessor) (rows : list series)
  (cols : dict (option string)) (prestataire : string) (config : config)
  (dechet_lookup : dict value) (default_dechet : value)
  (site_lookup : dict site_info) (output_rows kept : list (dict value))
  (skipped skipped' : nat) (log log' : list string) :
  process_rows self rows cols prestataire config dechet_lookup default_dechet
    site_lookup output_rows skipped log = (Ok (kept, skipped'), log') ->
  (forall out, In out output_rows -> map fst out = OUTPUT_FIELDS) ->
  forall out, In out kept -> map fst out = OUTPUT_FIELDS.
Proof.
  revert output_rows skipped log.
  induction rows as [|row rows IH]; intros output_rows skipped log.
  - simpl. unfold ret. intros [= <- _ _] Hall. exact Hall.
  - rewrite process_rows_step. cbv zeta.
    destruct (row_outcome self row cols prestataire config dechet_lookup
                default_dechet site_lookup) as [[out0|]|e] eqn:E.
    + intros Hrun Hall. apply (IH _ _ _ Hrun).
      intros out Hin. apply in_app_or in Hin. destruct Hin as [Hin|[<-|[]]].
      * exact (Hall out Hin).
      * exact (returned_row_keys _ _ _ _ _ _ _ _ _ E).
    + intros Hrun Hall. exact (IH _ _ _ Hrun Hall).
    + discriminate.
Qed.

Lemma collect_rows_keys (self : ETLProcessor) (files : list upload)
  (prestataire : string) (kept : list (dict value)) (skipped : nat)
  (log log' : list string) :
  collect_rows self files prestataire log = (Ok (kept, skipped), log') ->
  forall out, In out kept -> map fst out = OUTPUT_FIELDS.
Proof.
  rewrite collect_rows_unfold.
  destruct (run_mappings self prestataire); [|discriminate].
  destruct (read_input files prestataire); [|discriminate].
  intros Hrun. apply (process_rows_keys _ _ _ _ _ _ _ _ _ _ _ _ _ _ Hrun).
  intros out [].
Qed.

(** Rows with the 45 fields have a field exactly when it is one of the
    45 and there is a row. *)
Lemma existsb_has_fields (col : string) (l : list (dict value)) :
  (forall out, In out l -> map fst out = OUTPUT_FIELDS) ->
  existsb (dict_has col) l
  = (existsb (String.eqb col) OUTPUT_FIELDS
     && negb (Nat.eqb (List.length l) 0))%bool.
Proof.
  induction l as [|o l IH]; intros Hall.
  - now rewrite andb_false_r.
  - change (negb (Nat.eqb (List.length (o :: l)) 0)) with true.
    rewrite andb_true_r.
    change (existsb (dict_has col) (o :: l))
      with (dict_has col o || existsb (dict_has col) l)%bool.
    assert (Ho : dict_has col o = existsb (String.eqb col) OUTPUT_FIELDS).
    { unfold dict_has.
      rewrite <- (Hall o (or_introl eq_refl)), dict_get_keys.
      destruct (dict_get col o); reflexivity. }
    rewrite Ho, IH by (intros out Hin; apply Hall; now right).
    destruct (existsb (String.eqb col) OUTPUT_FIELDS); reflexivity.
Qed.

End KeptKeys.

(** X11. Every row a successful call keeps has the 45 registry fields,
    in the order of the dictionary [_process_row] returns.  So, when rows
    are kept, a template column that bears the name of one of the fields
    is the column the frame built from the rows has under that name, and
    a template column that bears another name, or any template column
    when no row is kept, is added and holds only [None]. *)
Theorem template_columns_filled_from_fields `{PyRuntime}
  (self : ETLProcessor) (log : list string) (files : list upload)
  (prestataire : string) :
  success (process self log files prestataire) = true ->
  exists kept skipped log' df,
    collect_rows self files prestataire [] = (Ok (kept, skipped), log')
    /\ data (process self log files prestataire) = Some df
    /\ (forall out, In out kept -> map fst out = OUTPUT_FIELDS)
    /\ (forall col, In col (template_columns self) ->
          if (existsb (String.eqb col) OUTPUT_FIELDS
              && negb (Nat.eqb (List.length kept) 0))%bool
          then has_column col (DataFrame kept) = true
               /\ dict_get col (f_columns df)
                  = dict_get col (f_columns (DataFrame kept))
          else has_column col (DataFrame kept) = false
               /\ dict_get col (f_columns df)
                  = Some (List.repeat VNone (List.length kept))).
Proof.
  intros Hs.
  destruct (process_cases self log files prestataire)
    as [(kept & skipped & log' & df & Hc & Ha & Hp)|(e & log' & _ & Hp)];
    [|rewrite Hp in Hs; discriminate].
  exists kept, skipped, log', df. split; [exact Hc|].
  split; [now rewrite Hp|].
  pose proof (collect_rows_keys _ _ _ _ _ _ _ Hc) as Hkeys.
  split; [exact Hkeys|].
  intros col Hcol. rewrite assemble_ok in Ha. injection Ha as <-.
  unfold has_column, columns. rewrite dict_get_keys, DataFrame_get.
  simpl f_columns.
  rewrite (dict_get_tabulate (fun l => expected_column l kept)).
  apply existsb_eqb_In in Hcol. rewrite Hcol.
  unfold expected_column.
  pose proof (existsb_has_fields col kept Hkeys) as Hhas.
  rewrite <- Hhas.
  destruct (existsb (dict_has col) kept); split; reflexivity.
Qed.

Section NoSiteRows.
Context `{PyRuntime}.

Lemma dict_without_keys {V} (d : dict V) :
  (forall k, dict_get k d = None) -> d = [].
Proof.
  destruct d as [|[k v] r]; [reflexivity|]. intros Hall.
  specialize (Hall k). simpl in Hall. rewrite String.eqb_refl in Hall.
  discriminate.
Qed.

Lemma site_lookup_empty (self : ETLProcessor) (prestataire : string) :
  (forall r, In r (site_rows_for self (run_pattern prestataire)) ->
             site_row_used r = false) ->
  run_site_lookup self prestataire = [].
Proof.
  intros Hall. unfold run_site_lookup.
  destruct (_get_site_mapping self (run_pattern prestataire))
    as [lookup|e] eqn:E; [|reflexivity].
  apply dict_without_keys. intros k.
  rewrite (proj2 (site_lookup_last_row_wins_aux self _ k lookup E)).
  rewrite (proj2 (find_last_none _ _)); [reflexivity|].
  intros r Hin. now rewrite (Hall r Hin).
Qed.

Lemma map_site_empty (site_name : value) : _map_site site_name [] = None.
Proof. unfold _map_site. destruct (isna site_name); reflexivity. Qed.

End NoSiteRows.

(** X12. When the sheet "Site" has no row for the provider (no row that
    the mask of its pattern selects has a site name), every line gets the
    sentinel site: on success there is one warning per line of the input,
    and the column 'Nom du site', if the template has it, holds 'Site
    inconnu' in every row. *)
Theorem provider_without_site_rows `{PyRuntime}
  (self : ETLProcessor) (log : list string) (files : list upload)
  (prestataire : string) :
  (forall r, In r (site_rows_for self (run_pattern prestataire)) ->
             site_row_used r = false) ->
  success (process self log files prestataire) = true ->
  List.length (warnings (process self log files prestataire))
  = (rows_processed (process self log files prestataire)
     + rows_skipped (process self log files prestataire))%nat
  /\ (In "Nom du site" (template_columns self) ->
      exists df,
        data (process self log files prestataire) = Some df
        /\ dict_get "Nom du site" (f_columns df)
           = Some (List.repeat (VStr "Site inconnu")
                     (rows_processed (process self log files prestataire)))).
Proof.
  intros Hnone Hs.
  pose proof (site_lookup_empty self _ Hnone) as Hempty.
  destruct (process_trichotomy self log files prestataire)
    as [(e & _ & Hp)|[(m & df & results & Hm & Hin & Hr & _)
                     |(m & df & b & r & a & results & e & _ & _ & _ & _ & _
                       & Hf)]].
  - rewrite Hp in Hs. discriminate.
  - rewrite (process_success_from_rows _ _ _ _ _ _ _ Hm Hin Hr).
    simpl warnings. simpl rows_processed. simpl rows_skipped. simpl data.
    split.
    + rewrite kept_dropped_length.
      destruct (map_eq_preimage _ _ _ _ Hr) as [<- _].
      unfold run_row_warnings. rewrite Hempty. clear Hr.
      induction (iterrows df) as [|row rows IH]; [reflexivity|].
      simpl. unfold row_warnings at 1. rewrite map_site_empty. simpl.
      now rewrite IH.
    + intros Hcol. eexists. split; [reflexivity|]. simpl f_columns.
      rewrite (dict_get_tabulate
                 (fun l => expected_column l (kept_rows results))).
      apply existsb_eqb_In in Hcol. rewrite Hcol. f_equal.
      apply expected_column_constant. intros out Hout.
      destruct (kept_row_origin _ _ _ _ _ Hr Hout) as (row & _ & Hrow).
      unfold run_row in Hrow.
      destruct (returned_row_site _ _ _ _ _ _ _ _ _ Hrow) as [Hsite _].
      rewrite Hsite. unfold site_info_of.
      now rewrite Hempty, map_site_empty.
  - congruence.
Qed.

(** X13. One weight cell that holds a text that is not a number makes the
    whole call fail: the result is the failure dictionary with the
    message of the conversion fault and the warnings up to that line, and
    the rows transformed before it are not returned.  (The call reaches
    the lines of the input when neither the masks of the mapping sheets
    nor the reading of the files raise.) *)
Theorem unparsable_weight_fails_the_call `{PyRuntime}
  (self : ETLProcessor) (log : list string) (files : list upload)
  (prestataire : string) (m : dict value * value * dict site_info)
  (df_input : frame) (before after : list series)
  (row : series) (results : list (option (dict value))) (s : string) :
  run_mappings self prestataire = Ok m ->
  read_input files prestataire = Ok df_input ->
  iterrows df_input = (before ++ row :: after)%list ->
  map (run_row self prestataire df_input) before = map Ok results ->
  weight_of row (run_cols prestataire df_input) = VStr s ->
  s <> EmptyString ->
  float_of_string s = None ->
  exists e,
    process self log files prestataire
    = failure e (flat_map (run_row_warnings self prestataire df_input)
                          (before ++ [row])).
Proof.
  intros Hm Hin Hrows Hres Hw Hs Hf.
  exists ("could not convert string to float: " ++ str_repr s).
  apply (process_failure_from_row _ _ _ _ _ _ _ _ _ _ _ Hm Hin Hrows Hres).
  unfold run_row, row_outcome. rewrite Hw.
  simpl isna. simpl eq_zero. rewrite andb_false_r.
  unfold convert_weight. simpl truthy.
  destruct (String.eqb s EmptyString) eqn:E.
  - apply String.eqb_eq in E. contradiction.
  - simpl. rewrite Hf. reflexivity.
Qed.

(** ** Several files *)

Section FilesFacts.
Context `{PyRuntime}.

Lemma read_files_spec (files : list upload) (prestataire : string)
  (dfs : list frame) :
  read_files files prestataire = Ok dfs ->
  exists raw,
    map (fun f => _read_file f prestataire) files = map Ok raw
    /\ dfs = map (fun fr => set_column "_source_file"
                              (VStr (up_name (fst fr))) (snd fr))
                 (List.combine files raw).
Proof.
  revert dfs. induction files as [|f files IH]; intros dfs; simpl.
  - intros [= <-]. exists []. split; reflexivity.
  - destruct (_read_file f prestataire) as [df|e]; [|discriminate].
    destruct (read_files files prestataire) as [rest|e]; [|discriminate].
    intros [= <-]. destruct (IH rest eq_refl) as (raw & Hraw & ->).
    exists (df :: raw). simpl. now rewrite Hraw.
Qed.

Lemma frame_labels_spec (dfs : list frame) (acc : list string) (k : string) :
  existsb (String.eqb k)
    (fold_left (fun acc df => add_labels (columns df) acc) dfs acc)
  = (existsb (String.eqb k) acc || existsb (has_column k) dfs)%bool.
Proof.
  revert acc. induction dfs as [|df dfs IH]; intros acc; simpl.
  - now rewrite orb_false_r.
  - rewrite IH, add_labels_spec. unfold has_column at 2.
    now rewrite orb_assoc.
Qed.

Lemma fold_left_nrows (dfs : list frame) (n : nat) :
  fold_left (fun n df => (n + f_nrows df)%nat) dfs n
  = (n + total_rows dfs)%nat.
Proof.
  revert n. induction dfs as [|df dfs IH]; intros n; simpl.
  - now rewrite Nat.add_0_r.
  - rewrite IH. unfold total_rows. simpl. now rewrite Nat.add_assoc.
Qed.

Lemma concat_get (dfs : list frame) (l : string) :
  existsb (has_column l) dfs = true ->
  dict_get l (f_columns (concat dfs))
  = Some (flat_map (fun df => match dict_get l (f_columns df) with
                              | Some c => c
                              | None => List.repeat NaN (f_nrows df)
                              end) dfs).
Proof.
  intros Hl. unfold concat. simpl f_columns.
  rewrite (dict_get_tabulate
             (fun l => flat_map (fun df => match dict_get l (f_columns df) with
                                           | Some c => c
                                           | None => List.repeat NaN (f_nrows df)
                                           end) dfs)).
  rewrite frame_labels_spec, Hl. reflexivity.
Qed.

End FilesFacts.

(** X14. The combined input of a call has as many lines as the files
    read have together, and its column '_source_file' names, for each
    line, the file the line comes from, in the order of the files. *)
Theorem combined_input_keeps_provenance `{PyRuntime}
  (files : list upload) (prestataire : string) (df_input : frame) :
  read_input files prestataire = Ok df_input ->
  exists raw,
    map (fun f => _read_file f prestataire) files = map Ok raw
    /\ f_nrows df_input = total_rows raw
    /\ dict_get "_source_file" (f_columns df_input)
       = Some (flat_map (fun fr => List.repeat (VStr (up_name (fst fr)))
                                     (f_nrows (snd fr)))
                        (List.combine files raw)).
Proof.
  unfold read_input.
  destruct (read_files files prestataire) as [dfs|e] eqn:Hread;
    [|discriminate].
  destruct (read_files_spec _ _ _ Hread) as (raw & Hraw & Hdfs).
  intros Hc. exists raw. split; [exact Hraw|].
  destruct (map_eq_preimage _ _ _ _ Hraw) as [Hlen _].
  assert (Hrows : total_rows dfs = total_rows raw).
  { subst dfs. clear Hraw Hread Hc. revert raw Hlen.
    induction files as [|f files IH]; intros [|df raw] Hlen;
      try discriminate; [reflexivity|].
    simpl. unfold total_rows in *. simpl. f_equal. apply IH.
    now injection Hlen. }
  assert (Hcol : flat_map (fun df => match dict_get "_source_file"
                                             (f_columns df) with
                                     | Some c => c
                                     | None => List.repeat NaN (f_nrows df)
                                     end) dfs
                 = flat_map (fun fr => List.repeat (VStr (up_name (fst fr)))
                                         (f_nrows (snd fr)))
                            (List.combine files raw)).
  { subst dfs. clear. induction (List.combine files raw) as [|[f df] l IH];
      [reflexivity|].
    simpl map. simpl flat_map. rewrite IH. f_equal.
    unfold set_column. simpl f_columns. now rewrite dict_get_set_same. }
  destruct dfs as [|df1 [|df2 rest]]; simpl in Hc.
  - discriminate.
  - injection Hc as <-. unfold total_rows in Hrows. simpl in Hrows.
    rewrite Nat.add_0_r in Hrows. split; [exact Hrows|].
    simpl in Hcol. rewrite app_nil_r in Hcol. rewrite <- Hcol.
    destruct (List.combine files raw) as [|[f df] l]; [discriminate|].
    injection Hdfs as -> _. unfold set_column. simpl f_columns.
    now rewrite dict_get_set_same.
  - injection Hc as <-. split.
    + unfold concat. simpl f_nrows. rewrite <- Hrows.
      apply (fold_left_nrows (df1 :: df2 :: rest) O).
    + rewrite concat_get; [now rewrite Hcol|].
      destruct (List.combine files raw) as [|[f df] l]; [discriminate|].
      injection Hdfs as -> _. simpl. unfold has_column at 1, columns.
      rewrite dict_get_keys. unfold set_column. simpl f_columns.
      now rewrite dict_get_set_same.
Qed.

(** ** Sheet choice by keyword, delimited text, detection *)

Lemma first_sheet_with_some `{PyRuntime}
  (pattern : string) (names : list string)
  (sheet : string) :
  first_sheet_with pattern names = Some sheet ->
  In sheet names /\ header_matches pattern sheet = true.
Proof.
  induction names as [|s r IH]; simpl; [discriminate|].
  fold (header_matches pattern s).
  destruct (header_matches pattern s) eqn:E.
  - intros [= <-]. split; [now left|exact E].
  - intros Hr. destruct (IH Hr) as [Hin Hm]. split; [now right|exact Hm].
Qed.

Lemma first_sheet_with_none `{PyRuntime}
  (pattern : string) (names : list string) :
  first_sheet_with pattern names = None ->
  forall s, In s names -> header_matches pattern s = false.
Proof.
  induction names as [|s r IH]; simpl; [intros _ s []|].
  fold (header_matches pattern s).
  destruct (header_matches pattern s) eqn:E; [discriminate|].
  intros Hr s' [<-|Hin]; [exact E|now apply IH].
Qed.

(** X15. With a keyword list, the sheet chosen by name is always a sheet
    of the workbook whose name contains one of the keywords, whatever the
    case; the first sheet by position is chosen only when no keyword is
    found in any sheet name. *)
Theorem keyword_sheet_is_in_workbook `{PyRuntime} (config : config)
  (patterns names : list string) :
  cfg_sheet_patterns config = Some patterns ->
  match choose_sheet config names with
  | ByName sheet =>
      In sheet names
      /\ exists pattern, In pattern patterns
                         /\ header_matches pattern sheet = true
  | ByPosition n =>
      n = O
      /\ forall pattern sheet, In pattern patterns -> In sheet names ->
                               header_matches pattern sheet = false
  end.
Proof.
  intros Hp. unfold choose_sheet. rewrite Hp.
  assert (Hgen : forall done todo current,
    patterns = (done ++ todo)%list ->
    match current with
    | ByName sheet =>
        In sheet names
        /\ exists pattern, In pattern done
                           /\ header_matches pattern sheet = true
    | ByPosition n =>
        n = O
        /\ forall pattern sheet, In pattern done -> In sheet names ->
                                 header_matches pattern sheet = false
    end ->
    match sheet_patterns_loop todo names current with
    | ByName sheet =>
        In sheet names
        /\ exists pattern, In pattern patterns
                           /\ header_matches pattern sheet = true
    | ByPosition n =>
        n = O
        /\ forall pattern sheet, In pattern patterns -> In sheet names ->
                                 header_matches pattern sheet = false
    end).
  { intros done todo. revert done.
    induction todo as [|p todo IH]; intros done current Hsplit Hinv.
    - simpl. rewrite app_nil_r in Hsplit. now subst done.
    - simpl. assert (Hsplit' : patterns = ((done ++ [p]) ++ todo)%list)
        by now rewrite <- app_assoc.
      destruct (first_sheet_with p names) as [sheet|] eqn:E.
      + apply (IH (done ++ [p])%list _ Hsplit').
        destruct (first_sheet_with_some _ _ _ E) as [Hin Hm].
        split; [exact Hin|]. exists p. split; [|exact Hm].
        apply in_or_app. right. now left.
      + apply (IH (done ++ [p])%list _ Hsplit').
        destruct current as [n|sheet].
        * destruct Hinv as [Hn Hall]. split; [exact Hn|].
          intros pattern sheet Hpat Hs. apply in_app_or in Hpat.
          destruct Hpat as [Hpat|[<-|[]]]; [now apply Hall|].
          exact (first_sheet_with_none _ _ E sheet Hs).
        * destruct Hinv as [Hin (pattern & Hpat & Hm)]. split; [exact Hin|].
          exists pattern. split; [|exact Hm]. apply in_or_app. now left. }
  apply (Hgen [] patterns (ByPosition 0) eq_refl).
  split; [reflexivity|]. intros pattern sheet [].
Qed.

(** X16. For a provider whose file type is "csv", or a file whose name
    ends in ".csv", a fault of the semicolon parse is never reported: the
    frame returned is the semicolon parse when it has more than 5 columns,
    else the comma parse, and a fault, if any, is that of the comma
    parse. *)
Theorem delimited_text_falls_back_to_comma `{PyRuntime}
  (file : upload) (prestataire : string) :
  cfg_file_type (get_config prestataire) = Some "csv"
  \/ Str.endswith ".csv" (up_name file) = true ->
  (forall e, _read_file file prestataire = Raise e ->
             read_csv_comma file = Raise e)
  /\ (forall df, _read_file file prestataire = Ok df ->
        (read_csv_semicolon file = Ok df
         /\ (5 < List.length (columns df))%nat)
        \/ (read_csv_comma file = Ok df
            /\ forall df', read_csv_semicolon file = Ok df' ->
                           (List.length (columns df') <= 5)%nat)).
Proof.
  intros Hcsv. unfold _read_file.
  assert (Hc : ((match cfg_file_type (get_config prestataire) with
                 | Some t => String.eqb t "csv"
                 | None => false
                 end) || Str.endswith ".csv" (up_name file))%bool = true).
  { destruct Hcsv as [-> | ->]; [reflexivity|apply orb_true_r]. }
  rewrite Hc.
  destruct (read_csv_semicolon file) as [df0|e0].
  - destruct (Nat.ltb 5 (List.length (columns df0))) eqn:E.
    + split; [discriminate|]. intros df [= <-]. left.
      split; [reflexivity|now apply Nat.ltb_lt].
    + split; [auto|]. intros df Hdf. right. split; [exact Hdf|].
      intros df' [= <-]. now apply Nat.ltb_ge.
  - split; [auto|]. intros df Hdf. right. split; [exact Hdf|]. discriminate.
Qed.

Lemma dict_get_in_NoDup {V} (d : dict V) (k : string) (v : V) :
  NoDup (map fst d) -> In (k, v) d -> dict_get k d = Some v.
Proof.
  induction d as [|[k0 v0] r IH]; intros Hnd Hin; [destruct Hin|].
  simpl in Hnd. inversion Hnd as [|? ? Hnot Hr]; subst.
  simpl. destruct Hin as [[= -> ->]|Hin].
  - now rewrite String.eqb_refl.
  - destruct (String.eqb k k0) eqn:E.
    + apply String.eqb_eq in E. subst k0. exfalso. apply Hnot.
      apply (in_map fst) in Hin. exact Hin.
    + now apply IH.
Qed.

Lemma registry_names :
  map fst PRESTATAIRE_CONFIG = SUPPORTED_PRESTATAIRES.
Proof. reflexivity. Qed.

Lemma registry_NoDup : NoDup (map fst PRESTATAIRE_CONFIG).
Proof.
  rewrite registry_names. unfold SUPPORTED_PRESTATAIRES.
  repeat (constructor;
          [simpl; intros Hin;
           repeat (destruct Hin as [Hin|Hin]; [discriminate|]);
           destruct Hin|]).
  constructor.
Qed.

(** X17. Auto-detection only returns a supported provider, and the
    configuration [process] then works with is the registry entry of that
    provider, whose pattern occurs in the lower-cased file name. *)
Theorem detected_provider_is_supported `{PyRuntime}
  (filename name : string) :
  detect_prestataire filename = Some name ->
  In name SUPPORTED_PRESTATAIRES
  /\ dict_get name PRESTATAIRE_CONFIG = Some (get_config name)
  /\ re_search (config_pattern (get_config name) (str_lower name))
               (str_lower filename) = true.
Proof.
  intros Hd. unfold detect_prestataire in Hd.
  destruct (detect_in_some _ _ _ Hd) as (b & [n c] & a & Hreg & Hn & Hs & _).
  simpl in Hn. subst n.
  assert (Hin : In (name, c) PRESTATAIRE_CONFIG).
  { rewrite Hreg. apply in_elt. }
  pose proof (dict_get_in_NoDup _ _ _ registry_NoDup Hin) as Hget.
  split.
  - rewrite <- registry_names. apply (in_map fst) in Hin. exact Hin.
  - unfold get_config. rewrite Hget. split; [reflexivity|exact Hs].
Qed.

(** X18. A site record that site matching returns from the lookup of a
    provider is always the record of a row of the sheet "Site" that the
    mask of the provider's pattern selects (so a row whose provider cell
    is a string; for a plain ASCII pattern and an ASCII cell, one in
    which an alternative of the pattern occurs, letter case apart) and
    that has a site name, whose key equals the looked-up key or matches
    it by containment. *)
Theorem resolved_site_comes_from_sheet `{PyRuntime}
  (self : ETLProcessor) (pattern : string) (lookup : dict site_info)
  (site_name : value) (info : site_info) :
  _get_site_mapping self pattern = Ok lookup ->
  _map_site site_name lookup = Some info ->
  exists r,
    In r (sh_rows (site_df self))
    /\ provider_selected pattern (s_formule r)
    /\ site_row_used r = true
    /\ info = site_row_info r
    /\ (site_row_key r = str_lower (str_strip (py_str site_name))
        \/ partial_match (str_lower (str_strip (py_str site_name)))
                         (site_row_key r) = true).
Proof.
  intros Hl. unfold _map_site. destruct (isna site_name); [discriminate|].
  set (key := str_lower (str_strip (py_str site_name))).
  assert (Hrow : forall k v,
    dict_get k lookup = Some v ->
    exists r, In r (sh_rows (site_df self))
              /\ provider_selected pattern (s_formule r)
              /\ site_row_used r = true
              /\ v = site_row_info r /\ site_row_key r = k).
  { intros k v Hget.
    rewrite (proj2 (site_lookup_last_row_wins_aux self pattern k lookup Hl))
      in Hget.
    destruct (find_last _ (site_rows_for self pattern)) as [r|] eqn:E;
      [|discriminate].
    injection Hget as <-.
    destruct (find_last_some _ _ _ E) as (Hp & b & a & Hdf & _).
    apply andb_prop in Hp. destruct Hp as [Hused Hk].
    apply String.eqb_eq in Hk.
    assert (Hin : In r (site_rows_for self pattern)).
    { rewrite Hdf. apply in_elt. }
    destruct (site_rows_for_selected self pattern r Hin) as [Hsheet Hsel].
    exists r. repeat split; assumption. }
  destruct (dict_get key lookup) as [v|] eqn:E.
  - intros [= <-].
    destruct (Hrow key v E) as (r & Hin & Hsel & Hu & Hv & Hk).
    exists r. repeat split; try assumption. now left.
  - intros Hpm.
    destruct (site_partial_match_some _ _ _ Hpm) as (b & k & a & Hlk & Hm & _).
    assert (Hget : dict_get k lookup = Some info).
    { apply dict_get_in_NoDup.
      - apply (proj1 (site_lookup_last_row_wins_aux self pattern k lookup Hl)).
      - rewrite Hlk. apply in_elt. }
    destruct (Hrow k info Hget) as (r & Hin & Hsel & Hu & Hv & Hk).
    exists r. repeat split; try assumption. right. now rewrite Hk.
Qed.

Section MassFacts.
Context `{PyRuntime}.

Lemma convert_weight_number (config : config) (weight kg : value) :
  convert_weight config weight = Ok kg ->
  kg = VInt 0 \/ exists f, kg = VFloat f.
Proof.
  unfold convert_weight. destruct (truthy weight); [|intros [= <-]; now left].
  destruct (py_float weight) as [f|]; [|discriminate].
  destruct (match cfg_weight_unit config with
            | Some u => String.eqb u "tonnes"
            | None => false
            end); intros [= <-]; right; eexists; reflexivity.
Qed.

End MassFacts.

(** X19. The mass of a row kept is always a number: the integer 0 or a
    float.  On success, the column 'Masse totale (kg)', if the template
    has it, holds one such number per row processed. *)
Theorem mass_column_holds_numbers `{PyRuntime}
  (self : ETLProcessor) (log : list string) (files : list upload)
  (prestataire : string) :
  success (process self log files prestataire) = true ->
  In "Masse totale (kg)" (template_columns self) ->
  exists df cells,
    data (process self log files prestataire) = Some df
    /\ dict_get "Masse totale (kg)" (f_columns df) = Some cells
    /\ List.length cells = rows_processed (process self log files prestataire)
    /\ Forall (fun v => v = VInt 0 \/ exists f, v = VFloat f) cells.
Proof.
  intros Hs Hcol.
  destruct (process_trichotomy self log files prestataire)
    as [(e & _ & Hp)|[(m & df & results & Hm & Hin & Hr & _)
                     |(m & df & b & r & a & results & e & _ & _ & _ & _ & _
                       & Hf)]].
  - rewrite Hp in Hs. discriminate.
  - rewrite (process_success_from_rows _ _ _ _ _ _ _ Hm Hin Hr).
    simpl data. simpl rows_processed.
    assert (Hmass : forall out, In out (kept_rows results) ->
              exists kg, dict_get "Masse totale (kg)" out = Some kg
                         /\ (kg = VInt 0 \/ exists f, kg = VFloat f)).
    { intros out Hout.
      destruct (kept_row_origin _ _ _ _ _ Hr Hout) as (row & _ & Hrow).
      unfold run_row in Hrow.
      destruct (returned_row_masse _ _ _ _ _ _ _ _ _ Hrow) as (kg & Hk & Hkg).
      exists kg. split; [exact Hkg|exact (convert_weight_number _ _ _ Hk)]. }
    eexists. exists (map (cell "Masse totale (kg)") (kept_rows results)).
    split; [reflexivity|]. split; [|split].
    + simpl f_columns.
      rewrite (dict_get_tabulate
                 (fun l => expected_column l (kept_rows results))).
      apply existsb_eqb_In in Hcol. rewrite Hcol. f_equal.
      apply expected_column_present. intros out Hout Hnone.
      destruct (Hmass out Hout) as (kg & Hk & _). congruence.
    + apply length_map.
    + apply Forall_forall. intros v Hv. apply in_map_iff in Hv.
      destruct Hv as (out & <- & Hout).
      destruct (Hmass out Hout) as (kg & Hk & Hnum).
      unfold cell. now rewrite Hk.
  - congruence.
Qed.

(** ** The lookups built at construction *)

Section LoadingFacts.
Context `{PyRuntime}.

Lemma load_agrege_get (rows : list param_row) (acc : dict string)
  (k : string) :
  dict_get k (load_agrege rows acc)
  = match find_last (fun r => (param_row_kept r
                               && String.eqb (param_row_key r) k)%bool)
                    rows with
    | Some r => Some (str_strip (py_str (p_category r)))
    | None => dict_get k acc
    end.
Proof.
  unfold param_row_kept, param_row_key.
  revert acc. induction rows as [|r rows IH]; intros acc; simpl;
    [reflexivity|].
  destruct (notna (p_category r) && notna (p_name r))%bool; rewrite IH;
    simpl; destruct (find_last _ rows); try reflexivity.
  destruct (String.eqb (str_lower (str_strip (py_str (p_name r)))) k) eqn:E.
  - apply String.eqb_eq in E. subst k. apply dict_get_set_same.
  - apply dict_get_set_other. intros Hk. rewrite Hk in E.
    rewrite String.eqb_refl in E. discriminate.
Qed.

Lemma load_traitement_get (rows : list series)
  (acc : dict traitement_entry) (k : string) :
  dict_get k (load_traitement rows acc)
  = match find_last (fun r => (negb (String.eqb (traitement_key r) EmptyString)
                               && String.eqb (traitement_key r) k)%bool)
                    rows with
    | Some r => Some (traitement_row_entry r)
    | None => dict_get k acc
    end.
Proof.
  unfold traitement_row_entry.
  revert acc. induction rows as [|r rows IH]; intros acc; simpl;
    [reflexivity|].
  destruct (negb (String.eqb (traitement_key r) EmptyString)); rewrite IH;
    simpl; destruct (find_last _ rows); try reflexivity.
  destruct (String.eqb (traitement_key r) k) eqn:E.
  - apply String.eqb_eq in E. subst k. apply dict_get_set_same.
  - apply dict_get_set_other. intros Hk. rewrite Hk in E.
    rewrite String.eqb_refl in E. discriminate.
Qed.

Lemma init_fields (etl_file : etl_workbook)
  (template_file : outcome (list string)) (self : ETLProcessor) :
  __init__ etl_file template_file = Ok self ->
  exists template dechet param_df trait_df site,
    template_file = Ok template
    /\ sheet_dechet etl_file = Ok dechet
    /\ sheet_parametres etl_file = Ok param_df
    /\ sheet_traitement etl_file = Ok trait_df
    /\ sheet_site etl_file = Ok site
    /\ self = {| template_columns := template;
                 dechet_df := dechet;
                 dechet_to_agrege := load_agrege param_df [];
                 traitement_lookup := load_traitement trait_df [];
                 site_df := site |}.
Proof.
  unfold __init__, _load_etl_mappings.
  destruct template_file as [template|]; [|discriminate].
  destruct (sheet_dechet etl_file) as [dechet|]; [|discriminate].
  destruct (sheet_parametres etl_file) as [param_df|]; [|discriminate].
  destruct (sheet_traitement etl_file) as [trait_df|]; [|discriminate].
  destruct (sheet_site etl_file) as [site|]; [|discriminate].
  intros [= <-]. exists template, dechet, param_df, trait_df, site.
  repeat split.
Qed.

End LoadingFacts.

(** X20. On an engine that was constructed, the aggregated category of a
    fine waste name is the trimmed category of the last row of
    "Paramètres" that has both a category and a name and whose name has
    the same trimmed, lower-cased form; it is absent for a missing name
    and when there is no such row. *)
Theorem aggregation_from_parametres `{PyRuntime}
  (etl_file : etl_workbook) (template_file : outcome (list string))
  (self : ETLProcessor) (param_df : list param_row) (dechet_fin : value) :
  __init__ etl_file template_file = Ok self ->
  sheet_parametres etl_file = Ok param_df ->
  _map_agrege self dechet_fin
  = if isna dechet_fin then VNone
    else match find_last
                 (fun r => (param_row_kept r
                            && String.eqb (param_row_key r)
                                 (str_lower (str_strip (py_str dechet_fin))))%bool)
                 param_df with
         | Some r => VStr (str_strip (py_str (p_category r)))
         | None => VNone
         end.
Proof.
  intros Hinit Hp.
  destruct (init_fields _ _ _ Hinit) as (t & d & p & tr & s & _ & _ & Hp' & _ & _ & ->).
  rewrite Hp in Hp'. injection Hp' as <-.
  unfold _map_agrege. simpl dechet_to_agrege.
  destruct (isna dechet_fin); [reflexivity|].
  rewrite load_agrege_get. simpl dict_get.
  destruct (find_last _ param_df); reflexivity.
Qed.

(** X21. On an engine that was constructed, the treatment table holds
    under a key the codes of the last row of "Traitement générique" whose
    trimmed key text is that key; a row whose key text is blank is not
    stored, so the empty key is never in the table; a row whose key cell
    is missing is stored under the text the runtime prints for the
    missing-value marker. *)
Theorem treatment_table_from_sheet `{PyRuntime}
  (etl_file : etl_workbook) (template_file : outcome (list string))
  (self : ETLProcessor) (trait_df : list series) :
  __init__ etl_file template_file = Ok self ->
  sheet_traitement etl_file = Ok trait_df ->
  (forall key,
      key <> EmptyString ->
      dict_get key (traitement_lookup self)
      = option_map traitement_row_entry
          (find_last (fun r => String.eqb (traitement_key r) key) trait_df))
  /\ dict_get EmptyString (traitement_lookup self) = None
  /\ (forall before row after,
         trait_df = (before ++ row :: after)%list ->
         dict_get "Concatener déchet & code de traitement prestataire" row
         = Some NaN ->
         str_strip (string_of_float S754_nan) <> EmptyString ->
         (forall r, In r after ->
                    traitement_key r <> str_strip (string_of_float S754_nan)) ->
         dict_get (str_strip (string_of_float S754_nan))
                  (traitement_lookup self)
         = Some (traitement_row_entry row)).
Proof.
  intros Hinit Ht.
  destruct (init_fields _ _ _ Hinit) as (t & d & p & tr & s & _ & _ & _ & Ht' & _ & ->).
  rewrite Ht in Ht'. injection Ht' as <-. simpl traitement_lookup.
  assert (Hkey : forall key,
    key <> EmptyString ->
    dict_get key (load_traitement trait_df [])
    = option_map traitement_row_entry
        (find_last (fun r => String.eqb (traitement_key r) key) trait_df)).
  { intros key Hne. rewrite load_traitement_get. simpl dict_get.
    rewrite (find_last_ext _ (fun r => String.eqb (traitement_key r) key)).
    - destruct (find_last _ trait_df); reflexivity.
    - intros r. destruct (String.eqb (traitement_key r) key) eqn:E;
        [|apply andb_false_r].
      apply String.eqb_eq in E. rewrite E.
      destruct (String.eqb key EmptyString) eqn:E';
        [apply String.eqb_eq in E'; contradiction|reflexivity]. }
  split; [exact Hkey|]. split.
  - rewrite load_traitement_get. simpl dict_get.
    rewrite (proj2 (find_last_none _ _)); [reflexivity|].
    intros r _. destruct (String.eqb (traitement_key r) EmptyString);
      reflexivity.
  - intros before row after Hdf Hcell Hne Hafter.
    rewrite (Hkey _ Hne), Hdf.
    rewrite (find_last_app_last _ before after row); [reflexivity| |].
    + unfold traitement_key. rewrite Hcell. apply String.eqb_refl.
    + intros r Hin. destruct (String.eqb (traitement_key r) _) eqn:E;
        [|reflexivity].
      apply String.eqb_eq in E. exfalso. exact (Hafter r Hin E).
Qed.

(** ** A provider outside the registry *)

Section UnknownProvider.
Context `{PyRuntime}.

Lemma unknown_provider_row (self : ETLProcessor) (prestataire : string)
  (df_input : frame) (row : series) :
  dict_get prestataire PRESTATAIRE_CONFIG = None ->
  exists out,
    run_row self prestataire df_input row = Ok (Some out)
    /\ dict_get "Masse totale (kg)" out = Some (VInt 0).
Proof.
  intros Hnone. unfold run_row, run_cols, get_config. rewrite Hnone.
  unfold row_outcome. simpl. eexists. split; reflexivity.
Qed.

End UnknownProvider.

(** X22. A provider name that is not in the registry is not rejected as
    such.  Its lower-cased form is the pattern searched in the mapping
    sheets; when the masks of that pattern do not raise (they do for a
    name that is not a regular expression) and the files are read, the
    call succeeds, no column is discovered, every line of the input is
    output, none is skipped, and the mass of every row is 0. *)
Theorem provider_outside_registry `{PyRuntime}
  (self : ETLProcessor) (log : list string) (files : list upload)
  (prestataire : string) (m : dict value * value * dict site_info)
  (df_input : frame) :
  dict_get prestataire PRESTATAIRE_CONFIG = None ->
  run_pattern prestataire = str_lower prestataire
  /\ run_cols prestataire df_input = []
  /\ (run_mappings self prestataire = Ok m ->
      read_input files prestataire = Ok df_input ->
      success (process self log files prestataire) = true
      /\ rows_processed (process self log files prestataire)
         = f_nrows df_input
      /\ rows_skipped (process self log files prestataire) = O
      /\ (In "Masse totale (kg)" (template_columns self) ->
          exists df,
            data (process self log files prestataire) = Some df
            /\ dict_get "Masse totale (kg)" (f_columns df)
               = Some (List.repeat (VInt 0) (f_nrows df_input)))).
Proof.
  intros Hnone. split.
  { unfold run_pattern, get_config. now rewrite Hnone. }
  split.
  { unfold run_cols, get_config. now rewrite Hnone. }
  intros Hm Hin.
  destruct (process_trichotomy self log files prestataire)
    as [(e & [Hm'|Hin'] & _)
       |[(m' & df & results & _ & Hin' & Hr & Hs)
        |(m' & df & b & r & a & results & e & _ & Hin' & _ & _ & He & _)]].
  - congruence.
  - congruence.
  - rewrite Hin in Hin'. injection Hin' as <-.
    destruct (map_eq_preimage _ _ _ _ Hr) as [Hlen Hpre].
    assert (Hz : dropped_count results = O).
    { apply dropped_count_zero. intros res Hres ->.
      destruct (Hpre None Hres) as (row & _ & Hrow).
      destruct (unknown_provider_row self prestataire df_input row Hnone)
        as (out & Hout & _). congruence. }
    assert (Hk : List.length (kept_rows results) = f_nrows df_input).
    { pose proof (kept_dropped_length results) as Hkd.
      rewrite Hz, Nat.add_0_r in Hkd.
      now rewrite Hkd, <- Hlen, iterrows_length. }
    split; [exact Hs|].
    rewrite (process_success_from_rows _ _ _ _ _ _ _ Hm Hin Hr).
    simpl rows_processed. simpl rows_skipped. simpl data.
    split; [exact Hk|]. split; [exact Hz|].
    intros Hcol. eexists. split; [reflexivity|]. simpl f_columns.
    rewrite (dict_get_tabulate
               (fun l => expected_column l (kept_rows results))).
    apply existsb_eqb_In in Hcol. rewrite Hcol, <- Hk. f_equal.
    apply expected_column_constant. intros out Hout.
    destruct (kept_row_origin _ _ _ _ _ Hr Hout) as (row & _ & Hrow).
    destruct (unknown_provider_row self prestataire df_input row Hnone)
      as (out' & Hout' & Hmass). congruence.
  - rewrite Hin in Hin'. injection Hin' as <-.
    destruct (unknown_provider_row self prestataire df_input r Hnone)
      as (out & Hout & _). congruence.
Qed.

(** X23. The warning of a row is appended before the row is dropped or
    raises: a strict-movement row without weight whose site has no mapping
    yields no output row, yet leaves its "No site mapping" warning in the
    log. *)
Theorem dropped_row_keeps_its_warning `{PyRuntime}
  (self : ETLProcessor) (row : series) (cols : dict (option string))
  (prestataire : string) (config : config) (dechet_lookup : dict value)
  (default_dechet : value) (site_lookup : dict site_info)
  (log : list string) :
  cfg_bsdd_format config = true ->
  isna (raw_cell row (cols_get "weight" cols)) = true
  \/ eq_zero (raw_cell row (cols_get "weight" cols)) = true ->
  _map_site (site_name_of row cols) site_lookup = None ->
  _process_row self row cols prestataire config dechet_lookup default_dechet
    site_lookup log
  = (Ok None, (log ++ [site_warning (site_name_of row cols)])%list).
Proof.
  intros Hb Hw Hsite. rewrite process_row_factors.
  rewrite (bsdd_weightless_row_dropped self row cols prestataire config
             dechet_lookup default_dechet site_lookup Hb Hw).
  unfold row_warnings. now rewrite Hsite.
Qed.

(** ** The further properties on the sample data *)

(** The candidate "kg" comes before "poids": the column "Kg net" is
    found although "Poids total" stands before it. *)
Lemma find_column_candidate_priority_witness :
  _find_column (H := sample_runtime) ["Date"; "Poids total"; "Kg net"]
    ["tonnage"; "kg"; "poids"]
  = Some "Kg net"
  /\ _find_column (H := sample_runtime) ["Date"; "Site"]
       ["tonnage"; "kg"; "poids"] = None.
Proof.
  split.
  - reflexivity.
  - apply (proj2 (proj1 (proj2
             (find_column_candidate_priority (H := sample_runtime)
                ["Date"; "Site"] ["tonnage"; "kg"; "poids"])))).
    intros n c Hn Hc. simpl in Hn, Hc.
    repeat (destruct Hn as [<-|Hn];
            [repeat (destruct Hc as [<-|Hc]; [reflexivity|]); destruct Hc|]).
    destruct Hn.
Defined.

Lemma discovered_column_is_read_witness :
  In "Poids" (columns sample_frame)
  /\ exists cells,
       dict_get "Poids" (f_columns sample_frame) = Some cells
       /\ _safe_get (row_at sample_frame 1) (Some "Poids") (VInt 0)
          = if isna (nth 1 cells NaN) then VInt 0 else nth 1 cells NaN.
Proof.
  exact (discovered_column_is_read (H := sample_runtime)
           (get_config "Veolia") sample_frame
           "weight" "Poids" 1 (VInt 0) eq_refl).
Defined.

(** On the sample sheet "Site" the pattern "veolia" selects the rows of
    "VEOLIA" and of "Veolia Eau", not the row of Suez nor the row without
    provider; both have the key "paris" and the later one is kept. *)
Lemma site_lookup_last_row_wins_witness :
  _get_site_mapping (H := sample_runtime) sample_sites_engine "veolia"
  = Ok [("paris", sample_site_paris_sud)]
  /\ dict_get "paris" [("paris", sample_site_paris_sud)]
     = option_map site_row_info
         (find_last (fun r => (site_row_used r
                               && String.eqb
                                    (site_row_key (H := sample_runtime) r)
                                    "paris")%bool)
            (site_rows_for (H := sample_runtime) sample_sites_engine
               "veolia")).
Proof.
  split; [reflexivity|].
  exact (proj1 (proj2
    (site_lookup_last_row_wins (H := sample_runtime) sample_sites_engine
       "veolia" "paris" [("paris", sample_site_paris_sud)] eq_refl))).
Defined.

(** "Paris" written "  pARIS" resolves to the record of the last selected
    row of that name. *)
Lemma site_sheet_name_resolves_witness :
  _map_site (H := sample_runtime) (VStr "  pARIS")
    [("paris", sample_site_paris_sud)]
  = Some sample_site_paris_sud.
Proof.
  exact (site_sheet_name_resolves (H := sample_runtime) sample_sites_engine
           "veolia" [("paris", sample_site_paris_sud)]
           [sample_site_sheet_row]
           []
           {| s_formule := VStr "Veolia Eau"; s_site_prest := VStr " PARIS ";
              s_nom_site_urbyn := VStr "PAR02 - Paris Sud";
              s_code_prestation := VStr "P2" |}
           (VStr "  pARIS")
           eq_refl eq_refl eq_refl (fun z (F : False) => match F with end)
           eq_refl eq_refl).
Defined.

(** On the sample sheet "Déchet" the waste "PAPIER " of Veolia resolves
    to the name of the last row for "papier", a blank waste to the
    default of Veolia. *)
Lemma waste_resolution_from_sheet_witness :
  _get_dechet_mapping (H := sample_runtime) sample_waste_engine "veolia"
  = Ok ([("papier", VStr "Papier/Carton")], VStr "DIB")
  /\ _map_dechet (H := sample_runtime) (VStr "PAPIER ")
       [("papier", VStr "Papier/Carton")] (VStr "DIB")
     = VStr "Papier/Carton"
  /\ _map_dechet (H := sample_runtime) (VStr "  ")
       [("papier", VStr "Papier/Carton")] (VStr "DIB")
     = VStr "DIB".
Proof.
  split; [reflexivity|]. split.
  - exact (proj1
      (waste_resolution_from_sheet (H := sample_runtime) sample_waste_engine
         "veolia" (VStr "PAPIER ") [("papier", VStr "Papier/Carton")]
         (VStr "DIB") eq_refl)).
  - exact (proj1
      (waste_resolution_from_sheet (H := sample_runtime) sample_waste_engine
         "veolia" (VStr "  ") [("papier", VStr "Papier/Carton")]
         (VStr "DIB") eq_refl)).
Defined.

Lemma every_input_row_is_counted_witness :
  exists df_input,
    read_input (H := sample_runtime) sample_files "Veolia" = Ok df_input
    /\ (rows_processed
          (process (H := sample_runtime) sample_engine [] sample_files "Veolia")
        + rows_skipped
            (process (H := sample_runtime) sample_engine [] sample_files
               "Veolia"))%nat
       = f_nrows df_input.
Proof.
  exact (every_input_row_is_counted (H := sample_runtime) sample_engine []
           sample_files "Veolia" eq_refl).
Defined.

Lemma no_row_skipped_without_flag_witness :
  rows_skipped
    (process (H := sample_runtime) sample_engine [] sample_files "Veolia") = O
  /\ exists df_input,
       read_input (H := sample_runtime) sample_files "Veolia" = Ok df_input
       /\ rows_processed
            (process (H := sample_runtime) sample_engine [] sample_files
               "Veolia")
          = f_nrows df_input.
Proof.
  exact (no_row_skipped_without_flag (H := sample_runtime) sample_engine []
           sample_files "Veolia" eq_refl eq_refl).
Defined.

Lemma warnings_are_unmapped_sites_witness :
  (List.length
     (warnings
        (process (H := sample_runtime) sample_engine [] sample_files "Veolia"))
   <= rows_processed
        (process (H := sample_runtime) sample_engine [] sample_files "Veolia")
      + rows_skipped
          (process (H := sample_runtime) sample_engine [] sample_files
             "Veolia"))%nat.
Proof.
  exact (proj2 (warnings_are_unmapped_sites (H := sample_runtime)
                  sample_engine [] sample_files "Veolia") eq_refl).
Defined.

Lemma template_columns_filled_from_fields_witness :
  exists kept skipped log' df,
    collect_rows (H := sample_runtime) sample_engine sample_files "Veolia" []
    = (Ok (kept, skipped), log')
    /\ data (process (H := sample_runtime) sample_engine [] sample_files
               "Veolia") = Some df
    /\ (forall out, In out kept -> map fst out = OUTPUT_FIELDS)
    /\ dict_get "Nom du site" (f_columns df)
       = dict_get "Nom du site" (f_columns (DataFrame kept))
    /\ dict_get "Référence interne" (f_columns df)
       = Some (List.repeat VNone (List.length kept)).
Proof.
  destruct (template_columns_filled_from_fields (H := sample_runtime)
              sample_engine [] sample_files "Veolia" eq_refl)
    as (kept & skipped & log' & df & Hc & Hd & Hk & Hcols).
  exists kept, skipped, log', df.
  split; [exact Hc|]. split; [exact Hd|]. split; [exact Hk|].
  assert (Hlen : negb (Nat.eqb (List.length kept) 0) = true).
  { vm_compute in Hc. injection Hc as <- _ _. reflexivity. }
  split.
  - pose proof (Hcols "Nom du site" (or_introl eq_refl)) as Hn.
    rewrite Hlen in Hn. exact (proj2 Hn).
  - pose proof (Hcols "Référence interne"
                  (or_intror (or_intror (or_introl eq_refl)))) as Hr.
    exact (proj2 Hr).
Defined.

(** The sample sheet "Site" has no row for Suez. *)
Lemma provider_without_site_rows_witness :
  List.length
    (warnings
       (process (H := sample_runtime) sample_engine []
          [sample_upload "suez_2024.xlsx" sample_frame] "Suez"))
  = 2%nat.
Proof.
  refine (proj1 (provider_without_site_rows (H := sample_runtime)
                   sample_engine []
                   [sample_upload "suez_2024.xlsx" sample_frame] "Suez"
                   _ eq_refl)).
  intros r [].
Defined.

(** The second line of the sample export has the weight "abc". *)
Lemma unparsable_weight_fails_the_call_witness :
  exists e,
    process (H := sample_runtime) sample_engine [] sample_bad_files "Veolia"
    = failure e
        ["No site mapping for: 'Lyon'"; "No site mapping for: 'Nice'"].
Proof.
  destruct (unparsable_weight_fails_the_call (H := sample_runtime)
              sample_engine [] sample_bad_files "Veolia"
              ([("papier", VStr "Papier/Carton")], VNone,
               [("paris", site_row_info sample_site_sheet_row)])
              (set_column "_source_file" (VStr "veolia_2024.xlsx")
                 sample_bad_frame)
              [row_at (set_column "_source_file" (VStr "veolia_2024.xlsx")
                         sample_bad_frame) 0]
              []
              (row_at (set_column "_source_file" (VStr "veolia_2024.xlsx")
                         sample_bad_frame) 1)
              (match run_row (H := sample_runtime) sample_engine "Veolia"
                       (set_column "_source_file" (VStr "veolia_2024.xlsx")
                          sample_bad_frame)
                       (row_at (set_column "_source_file"
                                  (VStr "veolia_2024.xlsx") sample_bad_frame) 0)
               with
               | Ok r => [r]
               | Raise _ => []
               end)
              "abc")
    as [e He].
  - reflexivity.
  - reflexivity.
  - reflexivity.
  - vm_compute. reflexivity.
  - reflexivity.
  - discriminate.
  - reflexivity.
  - exists e. rewrite He. reflexivity.
Defined.

Lemma combined_input_keeps_provenance_witness :
  exists df_input,
    read_input (H := sample_runtime) sample_two_files "Veolia" = Ok df_input
    /\ f_nrows df_input = 4%nat
    /\ dict_get "_source_file" (f_columns df_input)
       = Some [ VStr "veolia_janvier.xlsx"; VStr "veolia_janvier.xlsx";
                VStr "veolia_fevrier.xlsx"; VStr "veolia_fevrier.xlsx" ].
Proof.
  destruct (read_input (H := sample_runtime) sample_two_files "Veolia")
    as [df|e] eqn:E; [|vm_compute in E; discriminate].
  exists df. split; [reflexivity|].
  destruct (combined_input_keeps_provenance (H := sample_runtime)
              sample_two_files "Veolia" df E) as (raw & Hraw & Hn & Hc).
  vm_compute in Hraw.
  destruct raw as [|r1 [|r2 [|r3 raw]]]; try discriminate.
  injection Hraw as <- <-. split; [exact Hn|exact Hc].
Defined.

Lemma keyword_sheet_is_in_workbook_witness :
  match choose_sheet (H := sample_runtime) (get_config "Suez")
          ["Mentions"; "Data 2024"] with
  | ByName sheet =>
      In sheet ["Mentions"; "Data 2024"]
      /\ exists pattern, In pattern ["registre"; "déchets"; "data"]
                         /\ header_matches (H := sample_runtime)
                              pattern sheet = true
  | ByPosition n =>
      n = O
      /\ forall pattern sheet,
           In pattern ["registre"; "déchets"; "data"] ->
           In sheet ["Mentions"; "Data 2024"] ->
           header_matches (H := sample_runtime) pattern sheet = false
  end.
Proof.
  exact (keyword_sheet_is_in_workbook (H := sample_runtime)
           (get_config "Suez")
           ["registre"; "déchets"; "data"] ["Mentions"; "Data 2024"] eq_refl).
Defined.

(** The semicolon parse of the sample text has one column, so the comma
    parse is returned. *)
Lemma delimited_text_falls_back_to_comma_witness :
  _read_file (H := sample_runtime) sample_csv_upload "Veolia" = Ok sample_frame
  /\ (read_csv_semicolon sample_csv_upload = Ok sample_frame
      /\ (5 < List.length (columns sample_frame))%nat
      \/ read_csv_comma sample_csv_upload = Ok sample_frame
         /\ forall df', read_csv_semicolon sample_csv_upload = Ok df' ->
                        (List.length (columns df') <= 5)%nat).
Proof.
  split; [reflexivity|].
  exact (proj2 (delimited_text_falls_back_to_comma (H := sample_runtime)
                  sample_csv_upload "Veolia" (or_intror eq_refl))
           sample_frame eq_refl).
Defined.

Lemma detected_provider_is_supported_witness :
  In "Les Alchimistes" SUPPORTED_PRESTATAIRES
  /\ dict_get "Les Alchimistes" PRESTATAIRE_CONFIG
     = Some (get_config "Les Alchimistes")
  /\ re_search (config_pattern (get_config "Les Alchimistes")
                  (Str.lower "Les Alchimistes"))
               (Str.lower "Collectes_ALCHIMISTES_mars.xlsx") = true.
Proof.
  exact (detected_provider_is_supported (H := sample_runtime)
           "Collectes_ALCHIMISTES_mars.xlsx" "Les Alchimistes" eq_refl).
Defined.

(** "Paris Nord" is not a key; it contains the key "paris". *)
Lemma resolved_site_comes_from_sheet_witness :
  exists r,
    In r (sh_rows (site_df sample_sites_engine))
    /\ provider_selected "veolia" (s_formule r)
    /\ site_row_used r = true
    /\ sample_site_paris_sud = site_row_info r
    /\ (site_row_key (H := sample_runtime) r
        = Str.lower (Str.strip "Paris Nord")
        \/ partial_match (Str.lower (Str.strip "Paris Nord"))
             (site_row_key (H := sample_runtime) r) = true).
Proof.
  exact (resolved_site_comes_from_sheet (H := sample_runtime)
           sample_sites_engine "veolia" [("paris", sample_site_paris_sud)]
           (VStr "Paris Nord") sample_site_paris_sud eq_refl eq_refl).
Defined.

Lemma mass_column_holds_numbers_witness :
  exists df cells,
    data (process (H := sample_runtime) sample_engine [] sample_files "Veolia")
    = Some df
    /\ dict_get "Masse totale (kg)" (f_columns df) = Some cells
    /\ List.length cells
       = rows_processed
           (process (H := sample_runtime) sample_engine [] sample_files
              "Veolia")
    /\ Forall (fun v => v = VInt 0 \/ exists f, v = VFloat f) cells.
Proof.
  refine (mass_column_holds_numbers (H := sample_runtime) sample_engine []
            sample_files "Veolia" eq_refl _).
  simpl. tauto.
Defined.

(** The last row of the sample sheet for "papier/carton" has the category
    " Papiers ". *)
Lemma aggregation_from_parametres_witness :
  _map_agrege (H := sample_runtime) sample_loaded_engine
    (VStr "Papier/Carton") = VStr "Papiers".
Proof.
  exact (aggregation_from_parametres (H := sample_runtime) sample_workbook
           (Ok ["Nom du site"]) sample_loaded_engine sample_param_sheet
           (VStr "Papier/Carton") eq_refl eq_refl).
Defined.

(** The second row of the sample sheet has no key; with a runtime that
    prints the missing-value marker as "nan" it is stored under "nan". *)
Lemma treatment_table_from_sheet_witness :
  dict_get "nan" (traitement_lookup sample_loaded_engine)
  = Some {| t_code := VStr "D10"; t_traitement := VStr "Incinération" |}
  /\ dict_get EmptyString (traitement_lookup sample_loaded_engine) = None.
Proof.
  destruct (treatment_table_from_sheet (H := sample_runtime) sample_workbook
              (Ok ["Nom du site"]) sample_loaded_engine
              sample_traitement_sheet eq_refl eq_refl) as (_ & Hempty & Hnan).
  split; [|exact Hempty].
  refine (Hnan [_] _ [] eq_refl eq_refl _ _).
  - discriminate.
  - intros r [].
Defined.

Lemma provider_outside_registry_witness :
  success (process (H := sample_runtime) sample_engine [] sample_files
             "Inconnu") = true
  /\ rows_processed (process (H := sample_runtime) sample_engine []
                       sample_files "Inconnu") = 2%nat.
Proof.
  destruct (proj2 (proj2
              (provider_outside_registry (H := sample_runtime) sample_engine
                 [] sample_files "Inconnu" ([], VNone, [])
                 (set_column "_source_file" (VStr "veolia_2024.xlsx")
                    sample_frame) eq_refl)) eq_refl eq_refl)
    as (Hs & Hn & _).
  split; [exact Hs|exact Hn].
Defined.

Lemma dropped_row_keeps_its_warning_witness :
  _process_row (H := sample_runtime) sample_engine
    (sample_row (VStr "Entrepot Nord") (VInt 0)) sample_cols "Screlec"
    (get_config "Screlec") [] VNone sample_site_lookup []
  = (Ok None, ["No site mapping for: 'Entrepot Nord'"]).
Proof.
  exact (dropped_row_keeps_its_warning (H := sample_runtime) sample_engine
           (sample_row (VStr "Entrepot Nord") (VInt 0)) sample_cols "Screlec"
           (get_config "Screlec") [] VNone sample_site_lookup []
           eq_refl (or_intror eq_refl) eq_refl).
Defined.

(** ** The shape of the output and two faults of Paprec rows *)

Lemma expected_column_length (col : string) (kept : list (dict value)) :
  List.length (expected_column col kept) = List.length kept.
Proof.
  unfold expected_column. destruct (existsb (dict_has col) kept).
  - apply length_map.
  - apply repeat_length.
Qed.

(** X24. The table a successful call returns is rectangular: each of its
    columns has exactly one cell per row processed. *)
Theorem output_table_is_rectangular `{PyRuntime}
  (self : ETLProcessor) (log : list string) (files : list upload)
  (prestataire : string) :
  success (process self log files prestataire) = true ->
  exists df,
    data (process self log files prestataire) = Some df
    /\ f_nrows df = rows_processed (process self log files prestataire)
    /\ well_formed df.
Proof.
  intros Hs.
  destruct (process_trichotomy self log files prestataire)
    as [(e & _ & Hp)|[(m & df & results & Hm & Hin & Hr & _)
                     |(m & df & b & r & a & results & e & _ & _ & _ & _ & _
                       & Hf)]].
  - rewrite Hp in Hs. discriminate.
  - rewrite (process_success_from_rows _ _ _ _ _ _ _ Hm Hin Hr).
    simpl data. simpl rows_processed. eexists. split; [reflexivity|].
    split; [reflexivity|]. unfold well_formed. simpl.
    apply Forall_forall. intros [l c] Hin'. apply in_map_iff in Hin'.
    destruct Hin' as (l' & [= <- <-] & _). apply expected_column_length.
  - congruence.
Qed.

Lemma output_table_is_rectangular_witness :
  exists df,
    data (process (H := sample_runtime) sample_engine [] sample_files "Veolia")
    = Some df
    /\ f_nrows df
       = rows_processed
           (process (H := sample_runtime) sample_engine [] sample_files
              "Veolia")
    /\ well_formed df.
Proof.
  exact (output_table_is_rectangular (H := sample_runtime) sample_engine []
           sample_files "Veolia" eq_refl).
Defined.

(** X25. For Paprec, a container cell that holds a number other than zero
    instead of a text makes the row raise, whatever the rest of the row
    holds, provided its weight converts. *)
Theorem paprec_numeric_container_raises `{PyRuntime}
  (self : ETLProcessor) (row : series) (cols : dict (option string))
  (dechet_lookup : dict value) (default_dechet : value)
  (site_lookup : dict site_info) (log : list string) (n : Z) (kg : value) :
  container_of row cols = VInt n ->
  n <> 0 ->
  convert_weight (get_config "Paprec") (weight_of row cols) = Ok kg ->
  exists e,
    _process_row self row cols "Paprec" (get_config "Paprec") dechet_lookup
      default_dechet site_lookup log
    = (Raise e, (log ++ row_warnings row cols site_lookup)%list).
Proof.
  intros Hc Hn Hkg. rewrite process_row_factors.
  exists "'int' object has no attribute 'lower'". f_equal.
  unfold row_outcome. rewrite Hkg, Hc.
  change (cfg_bsdd_format (get_config "Paprec")) with false. cbv iota beta.
  simpl andb. cbv iota.
  unfold container_info. simpl truthy.
  destruct (Z.eqb n 0) eqn:E; [apply Z.eqb_eq in E; contradiction|].
  reflexivity.
Qed.

Lemma paprec_numeric_container_raises_witness :
  exists e,
    _process_row (H := sample_runtime) sample_engine
      (sample_container_row (VInt 660) (VInt 2)) sample_cols "Paprec"
      (get_config "Paprec") [] VNone sample_site_lookup []
    = (Raise e, []).
Proof.
  destruct (paprec_numeric_container_raises (H := sample_runtime)
              sample_engine (sample_container_row (VInt 660) (VInt 2))
              sample_cols [] VNone sample_site_lookup [] 660 (VFloat (F64.of_Z 12))
              eq_refl) as [e He].
  - discriminate.
  - reflexivity.
  - exists e. exact He.
Defined.

(** X26. For Paprec, when the quantity cell holds a text and the
    container has a volume in the table, 'Volume total (L)' is not a
    number: it is that text repeated as many times as the volume. *)
Theorem paprec_text_quantity_is_repeated `{PyRuntime}
  (self : ETLProcessor) (row : series) (cols : dict (option string))
  (dechet_lookup : dict value) (default_dechet : value)
  (site_lookup : dict site_info) (log log' : list string)
  (out : dict value) (s q : string) (volume : Z) :
  container_of row cols = VStr s ->
  dict_get (str_strip (str_lower s)) PAPREC_CONTAINER_VOLUMES = Some volume ->
  quantity_of row cols = VStr q ->
  q <> EmptyString ->
  _process_row self row cols "Paprec" (get_config "Paprec") dechet_lookup
    default_dechet site_lookup log = (Ok (Some out), log') ->
  dict_get "Volume total (L)" out = Some (VStr (Str.repeat q (Z.to_nat volume))).
Proof.
  intros Hc Hv Hq Hne Hrun.
  rewrite process_row_factors in Hrun. injection Hrun as Hout _.
  destruct (returned_row_container _ _ _ _ _ _ _ _ _ Hout)
    as (vol & typ & tot & Hci & Ht & _ & _ & -> & _).
  assert (Hs : s <> EmptyString).
  { intros ->. rewrite str_lower_empty, str_strip_empty in Hv.
    simpl in Hv. discriminate. }
  rewrite Hc, (container_info_paprec s Hs), Hv in Hci.
  injection Hci as <- _. rewrite Hq in Ht. unfold volume_total in Ht.
  assert (Hvol : Z.eqb volume 0 = false).
  { unfold PAPREC_CONTAINER_VOLUMES in Hv. simpl in Hv.
    repeat match type of Hv with
           | (if ?c then _ else _) = _ =>
               destruct c; [injection Hv as <-; reflexivity|]
           end.
    discriminate. }
  rewrite Hvol in Ht. simpl in Ht.
  destruct (String.eqb q EmptyString) eqn:E;
    [apply String.eqb_eq in E; contradiction|].
  simpl in Ht. now injection Ht as <-.
Qed.

Lemma paprec_text_quantity_is_repeated_witness :
  exists out log',
    _process_row (H := sample_runtime) sample_engine
      (sample_container_row (VStr "Sac") (VStr "2")) sample_cols "Paprec"
      (get_config "Paprec") [] VNone sample_site_lookup []
    = (Ok (Some out), log')
    /\ dict_get "Volume total (L)" out = Some (VStr (Str.repeat "2" 110)).
Proof.
  destruct (_process_row (H := sample_runtime) sample_engine
              (sample_container_row (VStr "Sac") (VStr "2")) sample_cols
              "Paprec" (get_config "Paprec") [] VNone sample_site_lookup [])
    as [[[out|]|e] log'] eqn:E; try (vm_compute in E; discriminate).
  exists out, log'. split; [reflexivity|].
  refine (paprec_text_quantity_is_repeated (H := sample_runtime) sample_engine
            (sample_container_row (VStr "Sac") (VStr "2")) sample_cols
            [] VNone sample_site_lookup [] log' out "Sac" "2" 110
            eq_refl eq_refl eq_refl _ E).
  discriminate.
Defined.
